(** * weight.py: a shallow embedding and its verified properties

    The script keeps a CSV log of up to four weight measurements per day,
    derives a daily series (date, mean of the valid cells), its first
    differences, summary statistics and a BMI value, and renders three
    charts.

    Modelling conventions.
    - A Python [float] is a binary64 number: the primitive floats of Rocq,
      with the rounding, the overflow to an infinity, the signed zeros and
      the [nan] of IEEE 754. The reference platform is CPython 3.11 on
      Linux with glibc: [sum] adds from left to right, [strftime] is the
      one of the C library, and [x ** 2] is its power function, whose last
      bit is left open where the square is not a double (class [libm]).
      The reductions of numpy follow its loops for contiguous arrays of
      doubles.
    - A Python [int] is a [Z].
    - Python [str] values are [string]s; a character is a code point below
      256.
    - A CSV file is the list of records that [csv.reader] yields from it and
      that [csv.writer.writerow] appends to it; the quoting layer of the
      [csv] module is not modelled.
    - An exception is a [Raise] outcome; the effects of [main] (the file
      system, the console, the figure) are threaded through a [world]. *)

From Stdlib Require Import Floats.
From Stdlib Require Import ZArith QArith Qcanon String Ascii List Sorted Lia DecimalString.
From stdpp Require Import base strings gmap list.
Import ListNotations.

Set Warnings "-inexact-float".

Open Scope string_scope.
Open Scope Z_scope.

(** * Exceptions and outcomes *)

Inductive exn : Type :=
  | KeyError (key : string)
  | ValueError (msg : string)
  | TypeError
  | ZeroDivisionError
  | IndexError
  | OverflowError
  | FileNotFoundError
  | LibraryError (msg : string).

(** The outcome of a computation: a value, an exception, or [OutOfFuel] when
    a loop of the model was not given enough steps to finish. *)
Inductive result (A : Type) : Type :=
  | Ok (a : A)
  | Raise (e : exn)
  | OutOfFuel.
Arguments Ok {A} a.
Arguments Raise {A} e.
Arguments OutOfFuel {A}.

#[export] Instance result_ret : MRet result := fun A a => Ok a.
#[export] Instance result_bind : MBind result := fun A B k r =>
  match r with
  | Ok a => k a
  | Raise e => Raise e
  | OutOfFuel => OutOfFuel
  end.

(** * Floats *)

Abbreviation pyfloat := float (only parsing).

(** The double nearest to the fraction [n / d] of two naturals, ties to the
    even one, with the sign [negative]: an infinity when the fraction is
    too large, a zero when [n] is zero or the fraction too small. *)
Definition nearest_double (negative : bool) (n : Z) (d : positive) : pyfloat :=
  match n with
  | Zpos p => SF2Prim (SFdiv prec emax (S754_finite negative p 0) (S754_finite false d 0))
  | _ => if negative then PrimFloat.neg_zero else PrimFloat.zero
  end.

(** A float literal of the script or of an example, given as a decimal
    fraction: the double nearest to it. *)
Definition float_of_Q (q : Q) : pyfloat :=
  nearest_double (Qnum q <? 0) (Z.abs (Qnum q)) (Qden q).

(** An [int] used as a float operand (the script does this with 0 and with
    lengths of lists): the double nearest to it. *)
Definition float_of_Z (z : Z) : pyfloat := nearest_double (z <? 0) (Z.abs z) 1.
Definition float_of_nat (n : nat) : pyfloat := float_of_Z (Z.of_nat n).

(** [x + y], [x - y] and [x * y] on floats: rounded, never raising. *)
Definition fadd (x y : pyfloat) : pyfloat := (x + y)%float.
Definition fsub (x y : pyfloat) : pyfloat := (x - y)%float.
Definition fmul (x y : pyfloat) : pyfloat := (x * y)%float.

(** [x / y] on floats: Python raises [ZeroDivisionError] whenever the
    divisor is a zero. *)
Definition fdiv (x y : pyfloat) : result pyfloat :=
  if PrimFloat.is_zero y then Raise ZeroDivisionError else Ok (x / y)%float.

(** [a / b] on two [int]s: the double nearest to the quotient;
    [ZeroDivisionError] when [b] is zero, [OverflowError] when the quotient
    is too large for a float. *)
Definition true_divide (a b : Z) : result pyfloat :=
  if b =? 0 then Raise ZeroDivisionError
  else
    let q := nearest_double (xorb (a <? 0) (b <? 0)) (Z.abs a) (Z.to_pos (Z.abs b)) in
    if PrimFloat.is_infinity q then Raise OverflowError else Ok q.

(** Truth value of a float: false exactly for the two zeros. *)
Definition float_truthy (x : pyfloat) : bool := negb (PrimFloat.is_zero x).

(** [x <= y] on floats (false as soon as one side is [nan]). *)
Definition fleb (x y : pyfloat) : bool := (x <=? y)%float.

(** [sum(xs)]: the items are added from left to right to the start value 0. *)
Definition py_sum (xs : list pyfloat) : pyfloat :=
  fold_left fadd xs (float_of_Z 0).

(** The number a finite float stands for. *)
Definition exact_value (x : pyfloat) : option Q :=
  match Prim2SF x with
  | S754_zero _ => Some 0%Q
  | S754_finite s m e =>
      let n := if s then Z.neg m else Z.pos m in
      Some (if 0 <=? e then inject_Z (n * 2 ^ e) else Qmake n (Z.to_pos (2 ^ (- e))))
  | _ => None
  end.

(** ** The power function of the C library

    [x ** 2] is [pow(x, 2.0)] of the C library, whose error is below one
    unit in the last place, but which does not always round correctly: a
    square that is a double is returned as it is; any other square is
    returned as the double nearest to it or as the neighbour of that double.
    Which one is up to the library: [pow_neighbour x] tells whether it
    returns, for the square of [x], the double below the nearest one
    ([Lt]), the nearest one ([Eq]) or the double above it ([Gt]). *)
Class libm : Type := { pow_neighbour : pyfloat -> comparison }.

(** The square of [x] is a double. *)
Definition square_is_exact (x : pyfloat) : bool :=
  match exact_value x, exact_value (x * x)%float with
  | Some q, Some q2 => Qeq_bool (q * q) q2
  | _, _ => false
  end.

(** [x ** 2] on a float. The square of a [nan] is a [nan] and the square of
    an infinity is the positive infinity; [OverflowError] when the power
    function returns an infinity for a finite [x]. *)
Definition fsquare {lm : libm} (x : pyfloat) : result pyfloat :=
  let y := (x * x)%float in
  if PrimFloat.is_nan x || PrimFloat.is_infinity x then Ok y
  else
    let r := if square_is_exact x then y
             else match pow_neighbour x with
                  | Lt => PrimFloat.next_down y
                  | Eq => y
                  | Gt => PrimFloat.next_up y
                  end in
    if PrimFloat.is_infinity r then Raise OverflowError else Ok r.

(** A C library whose power function rounds every square correctly. *)
Definition rounding_libm : libm := {| pow_neighbour := fun _ => Eq |}.

(** * Characters and strings *)

Definition chars (s : string) : list ascii := list_ascii_of_string s.
Definition code (c : ascii) : N := N_of_ascii c.

Definition is_digit (c : ascii) : bool := ((48 <=? code c) && (code c <=? 57))%N.

(** Whitespace as [str.strip] sees it: the white space of Unicode, which
    below 256 is tab to carriage return, the four separators 28 to 31, the
    space, the next-line character and the no-break space. *)
Definition is_space (c : ascii) : bool :=
  ((9 <=? code c) && (code c <=? 13) || (28 <=? code c) && (code c <=? 32)
   || (code c =? 133) || (code c =? 160))%N.

(** Whitespace as the C code of [float] sees it: tab to carriage return and
    the space. *)
Definition is_c_space (c : ascii) : bool :=
  ((9 <=? code c) && (code c <=? 13) || (code c =? 32))%N.

Definition lower (c : ascii) : ascii :=
  if ((65 <=? code c) && (code c <=? 90))%N then ascii_of_N (code c + 32) else c.

Fixpoint lstrip (space : ascii -> bool) (l : list ascii) : list ascii :=
  match l with
  | c :: r => if space c then lstrip space r else l
  | [] => []
  end.

Definition strip_chars (space : ascii -> bool) (l : list ascii) : list ascii :=
  rev (lstrip space (rev (lstrip space l))).

(** [s.strip()] *)
Definition strip (s : string) : string :=
  string_of_list_ascii (strip_chars is_space (chars s)).

(** Truth value of a string: false exactly for the empty string. *)
Definition str_truthy (s : string) : bool :=
  match s with EmptyString => false | _ => true end.

Fixpoint take_digits (l : list ascii) : list ascii * list ascii :=
  match l with
  | c :: r =>
      if is_digit c then let (ds, rest) := take_digits r in (c :: ds, rest)
      else ([], l)
  | [] => ([], [])
  end.

Definition digit_value (c : ascii) : Z := Z.of_N (code c) - 48.

(** The number a run of decimal digits denotes. *)
Definition digits_value (ds : list ascii) : Z :=
  fold_left (fun acc c => 10 * acc + digit_value c) ds 0.

(** Decimal rendering of a natural number, and left padding with zeros. *)
Definition str_of_Z (z : Z) : string :=
  if (z <? 0)%Z then "-" ++ NilZero.string_of_uint (N.to_uint (Z.to_N (- z)))
  else NilZero.string_of_uint (N.to_uint (Z.to_N z)).

Fixpoint zeros (n : nat) : string :=
  match n with
  | O => ""
  | S k => "0" ++ zeros k
  end.

Definition zero_pad (width : nat) (s : string) : string :=
  zeros (width - String.length s) ++ s.

(** * [float(s)] on a string *)

(** The text is first brought to ASCII: a text of ASCII characters is taken
    as it is; in another one a character from 127 on becomes a space when
    it is white space (a decimal digit would become its ASCII digit, there
    is none below 256), and else a question mark, at which the text is cut
    off. *)
Fixpoint transform_to_ascii (l : list ascii) : list ascii :=
  match l with
  | [] => []
  | c :: r =>
      if (code c <? 127)%N then c :: transform_to_ascii r
      else if is_space c then " "%char :: transform_to_ascii r
      else ["?"%char]
  end.

Definition to_ascii (l : list ascii) : list ascii :=
  if forallb (fun c => (code c <? 128)%N) l then l else transform_to_ascii l.

(** Underscores may only stand between two digits; they are removed. *)
Fixpoint strip_underscores (prev : option ascii) (l : list ascii) : option (list ascii) :=
  let prev_is_digit := match prev with Some p => is_digit p | None => false end in
  let prev_is_underscore :=
    match prev with Some p => Ascii.eqb p "_"%char | None => false end in
  match l with
  | [] => if prev_is_underscore then None else Some []
  | c :: r =>
      if Ascii.eqb c "_"%char then
        if prev_is_digit then strip_underscores (Some c) r else None
      else if prev_is_underscore && negb (is_digit c) then None
      else option_map (cons c) (strip_underscores (Some c) r)
  end.

Definition parse_sign (l : list ascii) : bool * list ascii :=
  match l with
  | "-"%char :: r => (true, r)
  | "+"%char :: r => (false, r)
  | _ => (false, l)
  end.

(** The double nearest to [m * 10 ^ e], with the sign [negative]. *)
Definition decimal (negative : bool) (m e : Z) : pyfloat :=
  if (0 <=? e)%Z then nearest_double negative (m * 10 ^ e) 1
  else nearest_double negative m (Z.to_pos (10 ^ (- e))).

(** A decimal literal: sign, digits with an optional fraction (at least one
    digit in all), and an exponent that is read only when it has digits.
    Returns the value, correctly rounded, and the text left over. *)
Definition strtod (l : list ascii) : option (pyfloat * list ascii) :=
  let (negative, r) := parse_sign l in
  let (ip, r1) := take_digits r in
  let (fp, r2) := match r1 with
                  | "."%char :: t => take_digits t
                  | _ => ([], r1)
                  end in
  match (ip ++ fp)%list with
  | [] => None
  | ds =>
      let (ex, r3) :=
        match r2 with
        | c :: t =>
            if Ascii.eqb (lower c) "e"%char then
              let (eneg, t1) := parse_sign t in
              let (ed, t2) := take_digits t1 in
              match ed with
              | [] => (0, r2)
              | _ => (if eneg then - digits_value ed else digits_value ed, t2)
              end
            else (0, r2)
        | [] => (0, r2)
        end in
      Some (decimal negative (digits_value ds) (ex - Z.of_nat (List.length fp)), r3)
  end.

(** A case-insensitive literal prefix. *)
Fixpoint match_word (w l : list ascii) : option (list ascii) :=
  match w, l with
  | [], _ => Some l
  | a :: w', c :: l' => if Ascii.eqb a (lower c) then match_word w' l' else None
  | _ :: _, [] => None
  end.

(** [inf], [infinity] and [nan] with an optional sign; [None] when the text
    starts with none of them. *)
Definition parse_inf_or_nan (l : list ascii) : option (pyfloat * list ascii) :=
  let (negative, r) := parse_sign l in
  match match_word (chars "inf") r with
  | Some r1 =>
      let rest := match match_word (chars "inity") r1 with
                  | Some r2 => r2
                  | None => r1
                  end in
      Some (if negative then PrimFloat.neg_infinity else PrimFloat.infinity, rest)
  | None =>
      match match_word (chars "nan") r with
      | Some r1 => Some (PrimFloat.nan, r1)
      | None => None
      end
  end.

(** The longest decimal literal at the start of the text or, when there is
    none, an infinity or a [nan]. *)
Definition string_to_double (l : list ascii) : option (pyfloat * list ascii) :=
  match strtod l with
  | Some r => Some r
  | None => parse_inf_or_nan l
  end.

(** [float(s)]; [None] stands for the [ValueError] it raises. The number
    must be all that is left between the white space at the two ends. *)
Definition float_of_string (s : string) : option pyfloat :=
  match strip_underscores None (to_ascii (chars s)) with
  | None => None
  | Some l =>
      match strip_chars is_c_space l with
      | [] => None
      | body =>
          match string_to_double body with
          | Some (x, []) => Some x
          | _ => None
          end
      end
  end.

(** * Dates

    Every [datetime] of the script is a midnight: it is built from a year, a
    month and a day, parsed with a date-only format, or moved by whole days.
    Only the date fields are kept. *)

Record datetime : Type := mk_datetime { year : Z; month : Z; day : Z }.

Definition MINYEAR : Z := 1.
Definition MAXYEAR : Z := 9999.

Definition is_leap (y : Z) : bool :=
  (y mod 4 =? 0) && (negb (y mod 100 =? 0) || (y mod 400 =? 0)).

Definition days_in_month (y m : Z) : Z :=
  match m with
  | 1 | 3 | 5 | 7 | 8 | 10 | 12 => 31
  | 4 | 6 | 9 | 11 => 30
  | 2 => if is_leap y then 29 else 28
  | _ => 0
  end.

(** Number of days in the year before the first day of month [m]. *)
Definition days_before_month (y m : Z) : Z :=
  match m with
  | 1 => 0 | 2 => 31 | 3 => 59 | 4 => 90 | 5 => 120 | 6 => 151
  | 7 => 181 | 8 => 212 | 9 => 243 | 10 => 273 | 11 => 304 | 12 => 334
  | _ => 0
  end + (if (2 <? m) && is_leap y then 1 else 0).

(** Number of days before January 1st of year [y]. *)
Definition days_before_year (y : Z) : Z :=
  let y1 := y - 1 in y1 * 365 + y1 / 4 - y1 / 100 + y1 / 400.

Definition valid_date (y m d : Z) : bool :=
  (MINYEAR <=? y) && (y <=? MAXYEAR) && (1 <=? m) && (m <=? 12)
  && (1 <=? d) && (d <=? days_in_month y m).

Definition valid (dt : datetime) : bool := valid_date (year dt) (month dt) (day dt).

(** [datetime(y, m, d)] *)
Definition datetime_new (y m d : Z) : result datetime :=
  if valid_date y m d then Ok (mk_datetime y m d)
  else Raise (ValueError "date value out of range").

(** [dt.toordinal()]: January 1st of year 1 is day 1. *)
Definition toordinal (dt : datetime) : Z :=
  days_before_year (year dt) + days_before_month (year dt) (month dt) + day dt.

(** [a <= b] *)
Definition datetime_leb (a b : datetime) : bool :=
  match year a ?= year b with
  | Lt => true
  | Gt => false
  | Eq => match month a ?= month b with
          | Lt => true
          | Gt => false
          | Eq => day a <=? day b
          end
  end.

(** [dt + timedelta(days=1)]: the day after, carried into the month and the
    year; past the last representable day it raises [OverflowError]. *)
Definition add_one_day (dt : datetime) : result datetime :=
  if day dt <? days_in_month (year dt) (month dt)
  then Ok (mk_datetime (year dt) (month dt) (day dt + 1))
  else if month dt <? 12 then Ok (mk_datetime (year dt) (month dt + 1) 1)
  else if year dt <? MAXYEAR then Ok (mk_datetime (year dt + 1) 1 1)
  else Raise OverflowError.

(** [dt.strftime('%Y.%m.%d')]: the C library writes the year as it is,
    without padding, and the month and the day with two digits. *)
Definition strftime_ymd (dt : datetime) : string :=
  str_of_Z (year dt) ++ "." ++ zero_pad 2 (str_of_Z (month dt))
  ++ "." ++ zero_pad 2 (str_of_Z (day dt)).

(** ** [datetime.strptime(s, '%Y.%m.%d')]

    The format is compiled to the regular expression
    [(\d\d\d\d)\.(1[0-2]|0[1-9]|[1-9])\.(3[0-1]|[1-2]\d|0[1-9]|[1-9]| [1-9])],
    matched at the start of the text; the alternatives are tried in order,
    text left over after the match is an error, and the three numbers must
    form a date. *)

Definition in_range (lo hi : ascii) (c : ascii) : bool :=
  ((code lo <=? code c) && (code c <=? code hi))%N.

Definition two_chars (p1 p2 : ascii -> bool) (l : list ascii) : list (Z * list ascii) :=
  match l with
  | a :: b :: r =>
      if p1 a && p2 b
      then [((if is_digit a then 10 * digit_value a else 0) + digit_value b, r)]
      else []
  | _ => []
  end.

Definition one_char (p : ascii -> bool) (l : list ascii) : list (Z * list ascii) :=
  match l with
  | a :: r => if p a then [(digit_value a, r)] else []
  | _ => []
  end.

Definition match_year (l : list ascii) : option (Z * list ascii) :=
  match l with
  | a :: b :: c :: d :: r =>
      if is_digit a && is_digit b && is_digit c && is_digit d
      then Some (digits_value [a; b; c; d], r)
      else None
  | _ => None
  end.

Definition month_alternatives (l : list ascii) : list (Z * list ascii) :=
  (two_chars (Ascii.eqb "1") (in_range "0" "2") l
   ++ two_chars (Ascii.eqb "0") (in_range "1" "9") l
   ++ one_char (in_range "1" "9") l)%list.

Definition day_alternatives (l : list ascii) : list (Z * list ascii) :=
  (two_chars (Ascii.eqb "3") (in_range "0" "1") l
   ++ two_chars (in_range "1" "2") is_digit l
   ++ two_chars (Ascii.eqb "0") (in_range "1" "9") l
   ++ one_char (in_range "1" "9") l
   ++ two_chars (Ascii.eqb " ") (in_range "1" "9") l)%list.

(** The first alternative after which the rest of the pattern matches. *)
Fixpoint first_match {A B} (alts : list A) (k : A -> option B) : option B :=
  match alts with
  | [] => None
  | a :: rest =>
      match k a with
      | Some b => Some b
      | None => first_match rest k
      end
  end.

Definition match_ymd (l : list ascii) : option (Z * Z * Z * list ascii) :=
  match match_year l with
  | Some (y, "."%char :: r) =>
      first_match (month_alternatives r) (fun '(m, r1) =>
        match r1 with
        | "."%char :: r2 =>
            first_match (day_alternatives r2) (fun '(d, r3) => Some (y, m, d, r3))
        | _ => None
        end)
  | _ => None
  end.

Definition strptime_ymd (s : string) : result datetime :=
  match match_ymd (chars s) with
  | None => Raise (ValueError "time data does not match format")
  | Some (y, m, d, []) => datetime_new y m d
  | Some (_, _, _, _ :: _) => Raise (ValueError "unconverted data remains")
  end.

(** * The CSV file and the rows read from it *)

(** A record of the file: the fields of one line. *)
Abbreviation record := (list string) (only parsing).

(** A cell of a row: a string, or Python's [None]. *)
Abbreviation cell := (option string) (only parsing).

(** [range(lo, hi)] *)
Definition py_range (lo hi : Z) : list Z :=
  map (fun k => lo + Z.of_nat k) (seq 0 (Z.to_nat (hi - lo))).

(** The dictionary [csv.DictReader] builds for one record: the fields are
    paired with the field names, a later duplicate of a name wins, and the
    names a short record leaves over are bound to [None]. (The surplus
    fields of a long record go under the key [None], which no lookup by a
    string reaches.) *)
Definition dict_row (fieldnames : list string) (fields : record) : gmap string cell :=
  let d := fold_left (fun d kv => <[kv.1 := Some kv.2]> d) (zip fieldnames fields) ∅ in
  fold_left (fun d k => <[k := None]> d) (drop (List.length fields) fieldnames) d.

Definition is_blank (r : record) : bool :=
  match r with [] => true | _ => false end.

(** [csv.DictReader(csvfile)]: the first record gives the field names, blank
    records after it are skipped. *)
Definition DictReader (records : list record) : list (gmap string cell) :=
  match records with
  | [] => []
  | fieldnames :: rest =>
      map (dict_row fieldnames) (filter (fun r => negb (is_blank r)) rest)
  end.

(** [row[key]] *)
Definition getitem (row : gmap string cell) (key : string) : result cell :=
  match row !! key with
  | Some v => Ok v
  | None => Raise (KeyError key)
  end.

(** Truth value of a cell. *)
Definition cell_truthy (c : cell) : bool :=
  match c with
  | Some s => str_truthy s
  | None => false
  end.

(** * [read_weight_data]: the loops over the rows and over the four cells *)

(** The inner loop, [for i in range(1, 5)], with the list [weights] it
    appends to. A cell that [float] rejects is passed over ([continue]). *)
Fixpoint collect_weights (row : gmap string cell) (indices : list Z)
    (weights : list pyfloat) : result (list pyfloat) :=
  match indices with
  | [] => Ok weights
  | i :: rest =>
      let weight_key := "Weight" ++ str_of_Z i in
      c ← getitem row weight_key;
      match c with
      | Some s =>
          if str_truthy s && str_truthy (strip s) then
            match float_of_string s with
            | Some x => collect_weights row rest (weights ++ [x])%list
            | None => collect_weights row rest weights
            end
          else collect_weights row rest weights
      | None => collect_weights row rest weights
      end
  end.

(** [datetime.strptime(date_str, '%Y.%m.%d')] on a cell. *)
Definition strptime_cell (c : cell) : result datetime :=
  match c with
  | Some s => strptime_ymd s
  | None => Raise TypeError
  end.

(** The outer loop, [for row in reader], with the two lists it appends to. *)
Fixpoint read_rows (rows : list (gmap string cell))
    (dates : list datetime) (daily_weights : list pyfloat)
    : result (list datetime * list pyfloat) :=
  match rows with
  | [] => Ok (dates, daily_weights)
  | row :: rest =>
      date_str ← getitem row "Date";
      weights ← collect_weights row (py_range 1 5) [];
      match weights with
      | _ :: _ =>
          avg_weight ← fdiv (py_sum weights) (float_of_nat (List.length weights));
          d ← strptime_cell date_str;
          read_rows rest (dates ++ [d])%list (daily_weights ++ [avg_weight])%list
      | [] => read_rows rest dates daily_weights
      end
  end.

(** The parser on the records of the file. *)
Definition parse_weight_data (records : list record)
    : result (list datetime * list pyfloat) :=
  read_rows (DictReader records) [] [].

(** * Lists indexed the Python way *)

(** [l[i]]: a negative index counts from the end. *)
Definition py_index {A} (l : list A) (i : Z) : result A :=
  let n := Z.of_nat (List.length l) in
  let j := if i <? 0 then i + n else i in
  if (0 <=? j) && (j <? n) then
    match l !! Z.to_nat j with
    | Some a => Ok a
    | None => Raise IndexError
    end
  else Raise IndexError.

(** [len(l)] *)
Definition len {A} (l : list A) : Z := Z.of_nat (List.length l).

(** * numpy reductions *)

(** [np.maximum] and [np.minimum] as the reduction applies them to the
    running value [a] and the next item [b]: a [nan] on either side wins. *)
Definition np_maximum (a b : pyfloat) : pyfloat :=
  if fleb b a || PrimFloat.is_nan a then a else b.

Definition np_minimum (a b : pyfloat) : pyfloat :=
  if fleb a b || PrimFloat.is_nan a then a else b.

(** [np.max(xs)] and [np.min(xs)]: the reduction starts from the first item;
    they raise on an empty sequence. *)
Definition np_max (xs : list pyfloat) : result pyfloat :=
  match xs with
  | [] => Raise (ValueError "zero-size array to reduction operation")
  | x :: rest => Ok (fold_left np_maximum rest x)
  end.

Definition np_min (xs : list pyfloat) : result pyfloat :=
  match xs with
  | [] => Raise (ValueError "zero-size array to reduction operation")
  | x :: rest => Ok (fold_left np_minimum rest x)
  end.

(** ** The pairwise summation of [np.add.reduce]

    Fewer than 8 items are added from left to right. Up to 128 items are
    added with eight running sums, one for each position in a group of
    eight, which are then added in pairs; the items after the last full
    group are added to that sum one by one. A longer sequence is split in
    two, before the last multiple of 8 that is not past its middle, and the
    sums of the two parts are added. *)

(** [groups] further groups of eight items added to the running sums [r]:
    the sums and the items left over. *)
Fixpoint add_groups (groups : nat) (r xs : list pyfloat) : list pyfloat * list pyfloat :=
  match groups with
  | O => (r, xs)
  | S k => add_groups k (zip_with fadd r (take 8 xs)) (drop 8 xs)
  end.

Definition sum_block (xs : list pyfloat) : pyfloat :=
  let '(r, rest) := add_groups (List.length xs / 8 - 1) (take 8 xs) (drop 8 xs) in
  match r with
  | [r0; r1; r2; r3; r4; r5; r6; r7] =>
      fold_left fadd rest
        (fadd (fadd (fadd r0 r1) (fadd r2 r3)) (fadd (fadd r4 r5) (fadd r6 r7)))
  | _ => fold_left fadd xs PrimFloat.neg_zero
  end.

(** [depth] bounds the number of nested splits; the length of the sequence
    is more than enough. *)
Fixpoint pairwise_sum (depth : nat) (xs : list pyfloat) : pyfloat :=
  let n := List.length xs in
  if (n <? 8)%nat then fold_left fadd xs PrimFloat.neg_zero
  else if (n <=? 128)%nat then sum_block xs
  else
    match depth with
    | O => sum_block xs
    | S d =>
        let n2 := (n / 2 - (n / 2) mod 8)%nat in
        fadd (pairwise_sum d (take n2 xs)) (pairwise_sum d (drop n2 xs))
    end.

(** [np.sum(xs)]: the pairwise sum, added to the start value 0. *)
Definition np_sum (xs : list pyfloat) : pyfloat :=
  fadd (float_of_Z 0) (pairwise_sum (List.length xs) xs).

(** [np.mean(xs)]: the sum over the count, a float division that does not
    raise ([nan] on an empty sequence). *)
Definition np_mean (xs : list pyfloat) : pyfloat :=
  (np_sum xs / float_of_nat (List.length xs))%float.

(** * The computations of the script *)

Definition calculate_statistics (weights : list pyfloat)
    : result (option pyfloat * option pyfloat * option pyfloat) :=
  match weights with
  | [] => Ok (None, None, None)
  | _ :: _ =>
      let avg_weight := np_mean weights in
      max_weight ← np_max weights;
      min_weight ← np_min weights;
      Ok (Some avg_weight, Some max_weight, Some min_weight)
  end.

(** The loop [for i in range(1, len(weights))] with the list it appends to. *)
Fixpoint changes_loop (weights : list pyfloat) (indices : list Z)
    (changes : list pyfloat) : result (list pyfloat) :=
  match indices with
  | [] => Ok changes
  | i :: rest =>
      a ← py_index weights i;
      b ← py_index weights (i - 1);
      let change := fsub a b in
      changes_loop weights rest (changes ++ [change])%list
  end.

Definition calculate_weight_changes (weights : list pyfloat) : result (list pyfloat) :=
  changes_loop weights (py_range 1 (len weights)) [].

Definition calculate_bmi {lm : libm} (weight_kg : pyfloat) (height_cm : Z) : result pyfloat :=
  height_m ← true_divide height_cm 100;
  squared ← fsquare height_m;
  bmi ← fdiv weight_kg squared;
  Ok bmi.

Definition get_latest_bmi {lm : libm} (dates : list datetime) (weights : list pyfloat)
    (height_cm : Z) : result (option datetime * option pyfloat) :=
  match weights with
  | [] => Ok (None, None)
  | _ :: _ =>
      latest_date ← py_index dates (-1);
      latest_weight ← py_index weights (-1);
      latest_bmi ← calculate_bmi latest_weight height_cm;
      Ok (Some latest_date, Some latest_bmi)
  end.

(** * Formatting with [:.2f] *)

(** The integer nearest to a non-negative rational, ties to the even one. *)
Definition round_half_even (q : Q) : Z :=
  let n := Qnum q in
  let d := Z.pos (Qden q) in
  let f := n / d in
  let r := n mod d in
  if 2 * r <? d then f
  else if d <? 2 * r then f + 1
  else if Z.even f then f else f + 1.

(** The digits of a non-negative rational rounded to two decimals. *)
Definition two_decimals (q : Q) : string :=
  let r := round_half_even (q * 100) in
  str_of_Z (r / 100) ++ "." ++ zero_pad 2 (str_of_Z (r mod 100)).

(** [f'{x:.2f}']: the number the float stands for, rounded to two decimals
    (ties to even), after the sign of the float. *)
Definition format_2f (x : pyfloat) : string :=
  match Prim2SF x with
  | S754_nan => "nan"
  | S754_infinity s => if s then "-inf" else "inf"
  | S754_zero s => (if s then "-" else "") ++ two_decimals 0
  | S754_finite s m e =>
      (if s then "-" else "")
      ++ two_decimals (if 0 <=? e then inject_Z (Z.pos m * 2 ^ e)
                       else Qmake (Z.pos m) (Z.to_pos (2 ^ (- e))))
  end.

(** * The world of the script: files, console, figure window *)

(** What [matplotlib] is asked to draw on an axes, in call order. *)
Inductive artist : Type :=
  | Line (xs : list datetime) (ys : list pyfloat) (fmt : string)
         (linewidth : Z) (alpha : option Qc) (label : option string)
  | HLine (y : pyfloat) (color linestyle : string) (alpha : Qc)
  | Text (x y : Qc) (s : string)
  | XLabel (s : string)
  | YLabel (s : string)
  | Title (s : string)
  | Grid (alpha : Qc)
  | Legend.

(** The three stacked axes of [plt.subplots(3, 1)]. *)
Record figure : Type := mk_figure {
  ax1 : list artist;
  ax2 : list artist;
  ax3 : list artist
}.

Record world : Type := mk_world {
  csv_file : option (list record);   (* weight_data.csv, when it exists *)
  stdout : list string;              (* the lines printed so far *)
  png_file : option figure;          (* weight_analysis.png, when it exists *)
  shown : list figure                (* the figures shown in a window *)
}.

(** A command runs in a world and leaves a world, also when it raises. *)
Definition M (A : Type) : Type := world -> result A * world.

#[export] Instance M_ret : MRet M := fun A a w => (Ok a, w).
#[export] Instance M_bind : MBind M := fun A B k c w =>
  match c w with
  | (Ok a, w') => k a w'
  | (Raise e, w') => (Raise e, w')
  | (OutOfFuel, w') => (OutOfFuel, w')
  end.

(** A computation without effects, run as a command. *)
Definition lift {A} (r : result A) : M A := fun w => (r, w).

(** [print(s)] *)
Definition print (s : string) : M unit :=
  fun w => (Ok tt, mk_world (csv_file w) (stdout w ++ [s])%list (png_file w) (shown w)).

(** [os.path.exists('weight_data.csv')] *)
Definition csv_exists : M bool :=
  fun w => (Ok (bool_decide (is_Some (csv_file w))), w).

(** [open('weight_data.csv', 'w', newline='')]: the file is created or emptied. *)
Definition open_csv_for_writing : M unit :=
  fun w => (Ok tt, mk_world (Some []) (stdout w) (png_file w) (shown w)).

(** [writer.writerow(fields)] on the file opened for writing. *)
Definition writerow (fields : record) : M unit :=
  fun w =>
    match csv_file w with
    | Some records =>
        (Ok tt, mk_world (Some (records ++ [fields])%list) (stdout w) (png_file w) (shown w))
    | None => (Raise (ValueError "I/O operation on closed file"), w)
    end.

(** [open('weight_data.csv', 'r')] and the records [csv.reader] yields. *)
Definition read_csv : M (list record) :=
  fun w =>
    match csv_file w with
    | Some records => (Ok records, w)
    | None => (Raise FileNotFoundError, w)
    end.

(** [plt.savefig('weight_analysis.png')] *)
Definition savefig (fig : figure) : M unit :=
  fun w => (Ok tt, mk_world (csv_file w) (stdout w) (Some fig) (shown w)).

(** [plt.show()] *)
Definition show_figure (fig : figure) : M unit :=
  fun w => (Ok tt, mk_world (csv_file w) (stdout w) (png_file w) (shown w ++ [fig])%list).

(** * [initialize_csv] *)

Definition csv_header : record := ["Date"; "Weight1"; "Weight2"; "Weight3"; "Weight4"].

(** The loop [while current_date <= end_date]; [fuel] bounds its number of
    iterations. *)
Fixpoint initialize_loop (fuel : nat) (current_date end_date : datetime) : M unit :=
  if datetime_leb current_date end_date then
    match fuel with
    | O => lift OutOfFuel
    | S fuel' =>
        let date_str := strftime_ymd current_date in
        _ ← writerow [date_str; ""; ""; ""; ""];
        next_date ← lift (add_one_day current_date);
        initialize_loop fuel' next_date end_date
    end
  else mret tt.

Definition initialize_csv (fuel : nat) : M unit :=
  start_date ← lift (datetime_new 2025 7 1);
  end_date ← lift (datetime_new 2026 12 31);
  let current_date := start_date in
  _ ← open_csv_for_writing;
  _ ← writerow csv_header;
  initialize_loop fuel current_date end_date.

(** * [read_weight_data] *)

Definition read_weight_data : M (list datetime * list pyfloat) :=
  records ← read_csv;
  lift (parse_weight_data records).

(** * [create_plots] *)

(** [ax.plot(xs, ys, ...)]: the two sequences must have one length. *)
Definition plot (ax : list artist) (xs : list datetime) (ys : list pyfloat)
    (fmt : string) (linewidth : Z) (alpha : option Qc) (label : option string)
    : result (list artist) :=
  if (List.length xs =? List.length ys)%nat
  then Ok (ax ++ [Line xs ys fmt linewidth alpha label])%list
  else Raise (ValueError "x and y must have same first dimension").

Definition Qc_of (q : Q) : Qc := Q2Qc q.

Section Script.

Context {lm : libm}.

(** The smoothing spline of [scipy.interpolate]: fitting it to abscissas,
    ordinates and a smoothing factor may fail; a fitted spline is evaluated
    at a list of abscissas. *)
Variable spline : Type.
Variable UnivariateSpline : list Z -> list pyfloat -> pyfloat -> result spline.
Variable spline_call : spline -> list Z -> list pyfloat.

(** The raw chart. *)
Definition plot_raw (dates : list datetime) (weights : list pyfloat)
    : result (list artist) :=
  ax ← plot [] dates weights "b-" 1 (Some (Qc_of 0.7)) (Some "Raw Data");
  Ok (ax ++ [XLabel "Date"; YLabel "Weight (kg)"; Title "Weight Change Over Time";
             Grid (Qc_of 0.3); Legend])%list.

(** The smoothed chart. *)
Definition plot_smoothed (dates : list datetime) (weights : list pyfloat)
    : result (list artist) :=
  if 3 <? len weights then
    let dates_num := map toordinal dates in
    spl ← UnivariateSpline dates_num weights (fmul (float_of_Z (len weights)) 0.8);
    let smoothed_weights := spline_call spl dates_num in
    ax ← plot [] dates smoothed_weights "r-" 2 None (Some "Smoothed Data");
    ax ← plot ax dates weights "b-" 1 (Some (Qc_of 0.3)) (Some "Raw Data");
    Ok (ax ++ [XLabel "Date"; YLabel "Weight (kg)"; Title "Smoothed Weight Change";
               Grid (Qc_of 0.3); Legend])%list
  else
    Ok [Text (Qc_of 0.5) (Qc_of 0.5) "Not enough data for smoothing";
        Title "Smoothed Weight Change"].

(** The chart of the day-to-day changes. *)
Definition plot_changes (dates : list datetime) (weight_changes : list pyfloat)
    : result (list artist) :=
  if 0 <? len weight_changes then
    let change_dates := drop 1 dates in
    ax ← plot [] change_dates weight_changes "g-" 1 (Some (Qc_of 0.7)) None;
    Ok (ax ++ [HLine (float_of_Z 0) "r" "-" (Qc_of 0.3); XLabel "Date";
               YLabel "Weight Change (kg/day)"; Title "Weight Change Rate Trend";
               Grid (Qc_of 0.3)])%list
  else
    Ok [Text (Qc_of 0.5) (Qc_of 0.5) "Not enough data for change rate calculation";
        Title "Weight Change Rate Trend"].

Definition create_plots (dates : list datetime) (weights weight_changes : list pyfloat)
    : M unit :=
  a1 ← lift (plot_raw dates weights);
  a2 ← lift (plot_smoothed dates weights);
  a3 ← lift (plot_changes dates weight_changes);
  let fig := mk_figure a1 a2 a3 in
  _ ← savefig fig;
  show_figure fig.

(** * [main] *)

Definition HEIGHT_CM : Z := 175.

(** The part of [main] that runs when the CSV file is there: read, report,
    plot. *)
Definition analyse : M unit :=
  '(dates, daily_weights) ← read_weight_data;
  match daily_weights with
  | [] =>
      _ ← print "No weight data found in the CSV file.";
      mret tt
  | _ :: _ =>
      '(avg_weight, max_weight, min_weight) ← lift (calculate_statistics daily_weights);
      _ ← print "Statistics:";
      avg ← lift (from_option Ok (Raise TypeError) avg_weight);
      _ ← print ("Average weight: " ++ format_2f avg ++ " kg");
      mx ← lift (from_option Ok (Raise TypeError) max_weight);
      _ ← print ("Maximum weight: " ++ format_2f mx ++ " kg");
      mn ← lift (from_option Ok (Raise TypeError) min_weight);
      _ ← print ("Minimum weight: " ++ format_2f mn ++ " kg");
      _ ← print ("Total data points: " ++ str_of_Z (len daily_weights) ++ " days");
      '(latest_date, latest_bmi) ← lift (get_latest_bmi dates daily_weights HEIGHT_CM);
      _ ← match latest_date, latest_bmi with
          | Some d, Some b =>
              if float_truthy b then
                let date_str := strftime_ymd d in
                print ("Latest BMI (" ++ date_str ++ "): " ++ format_2f b
                       ++ " (Height: " ++ str_of_Z HEIGHT_CM ++ "cm)")
              else mret tt
          | _, _ => mret tt
          end;
      weight_changes ← lift (calculate_weight_changes daily_weights);
      _ ← create_plots dates daily_weights weight_changes;
      print "Plots saved as 'weight_analysis.png'"
  end.

Definition main (fuel : nat) : M unit :=
  found ← csv_exists;
  if negb found then
    _ ← initialize_csv fuel;
    _ ← print "CSV file created: weight_data.csv";
    _ ← print "Please fill in the weight data and run the program again.";
    mret tt
  else analyse.

End Script.

(** * Specifications

    The definitions below follow the wording of the specification; the
    theorems compare the script with them. *)

(** The first differences of a sequence: each element minus the one before. *)
Fixpoint first_differences (ws : list pyfloat) : list pyfloat :=
  match ws with
  | a :: rest =>
      match rest with
      | b :: _ => fsub b a :: first_differences rest
      | [] => []
      end
  | [] => []
  end.

(** The number an item stands for, for every item of a sequence of finite
    floats. *)
Definition exact_values (xs : list pyfloat) : option (list Q) :=
  mapM exact_value xs.

(** The arithmetic mean of a sequence of finite floats: the sum of the
    numbers they stand for, divided by how many they are. *)
Definition arithmetic_mean (xs : list pyfloat) : option Q :=
  qs ← exact_values xs;
  Some (fold_right Qplus 0%Q qs / inject_Z (len xs))%Q.

(** [x] stands for the number [q]. *)
Definition stands_for (x : pyfloat) (q : option Q) : bool :=
  match exact_value x, q with
  | Some a, Some b => Qeq_bool a b
  | _, _ => false
  end.

(** The mean as double-precision arithmetic gives it: the items are added
    from left to right, starting from 0, and the sum is divided by their
    number; each addition and the division round to the nearest double, and
    a sum that is too large becomes an infinity. *)
Definition rounded_mean (xs : list pyfloat) : pyfloat :=
  (fold_left fadd xs (float_of_Z 0) / float_of_nat (List.length xs))%float.

(** [m] is the maximum of [xs]: an element that no element exceeds; [nan]
    when a [nan] occurs. *)
Definition is_maximum (xs : list pyfloat) (m : pyfloat) : Prop :=
  if existsb PrimFloat.is_nan xs then m = PrimFloat.nan
  else In m xs /\ forall x, In x xs -> fleb x m = true.

Definition is_minimum (xs : list pyfloat) (m : pyfloat) : Prop :=
  if existsb PrimFloat.is_nan xs then m = PrimFloat.nan
  else In m xs /\ forall x, In x xs -> fleb m x = true.

(** [x] is the double nearest to [y] or one of the two doubles next to
    it. *)
Definition within_one_ulp (x y : pyfloat) : Prop :=
  x = y \/ x = PrimFloat.next_down y \/ x = PrimFloat.next_up y.

(** The columns of the measurements, and all the columns the parser reads. *)
Definition weight_keys : list string := ["Weight1"; "Weight2"; "Weight3"; "Weight4"].

Definition has_columns (row : gmap string cell) : Prop :=
  Forall (fun k => is_Some (row !! k)) ("Date" :: weight_keys).

(** The key of the [i]-th measurement column, [f'Weight{i}']. *)
Definition weight_index_key (i : Z) : string := "Weight" ++ str_of_Z i.

(** The number in a cell, when the cell holds a string that [float] accepts:
    such a cell is a valid numeric one; any other is empty or non-numeric. *)
Definition numeric_value (c : cell) : option pyfloat :=
  match c with
  | Some s => float_of_string s
  | None => None
  end.

(** The values of the valid numeric measurement cells of a row, in column
    order. *)
Definition numeric_values (row : gmap string cell) : list pyfloat :=
  omap (fun k => row !! k ≫= numeric_value) weight_keys.

(** The date cell of a row. *)
Definition date_cell (row : gmap string cell) : cell :=
  default None (row !! "Date").

(** What a row contributes to the daily series: nothing when it has no valid
    numeric cell, else its date paired with the rounded mean of those cells. *)
Definition daily_entry (row : gmap string cell) : result (option (datetime * pyfloat)) :=
  match numeric_values row with
  | [] => Ok None
  | (_ :: _) as values =>
      d ← strptime_cell (date_cell row);
      Ok (Some (d, rounded_mean values))
  end.

(** The daily series of a table: the contributions of its rows, in order. *)
Fixpoint daily_series (rows : list (gmap string cell)) : result (list (datetime * pyfloat)) :=
  match rows with
  | [] => Ok []
  | row :: rest =>
      e ← daily_entry row;
      es ← daily_series rest;
      Ok (match e with Some p => p :: es | None => es end)
  end.

(** The number of days of a year. *)
Definition year_length (y : Z) : Z := if is_leap y then 366 else 365.

(** The first and the last day of the range the bootstrap covers. *)
Definition first_day : datetime := mk_datetime 2025 7 1.
Definition last_day : datetime := mk_datetime 2026 12 31.

(** [a] is strictly before [b]. *)
Definition datetime_lt (a b : datetime) : Prop := datetime_leb b a = false.

(** [days] lists the calendar days from [first] to [last]: every date of
    the calendar in that range and nothing else, in ascending order (hence
    each once). *)
Definition calendar_range (first last : datetime) (days : list datetime) : Prop :=
  (forall d, In d days <->
             valid d = true /\ datetime_leb first d = true /\ datetime_leb d last = true)
  /\ StronglySorted datetime_lt days.

(** The row of a day whose measurements are all empty. *)
Definition blank_row (d : datetime) : list string := [strftime_ymd d; ""; ""; ""; ""].

(** Text of the shape [YYYY.MM.DD]. *)
Definition is_ymd_text (s : string) : bool :=
  match chars s with
  | [y1; y2; y3; y4; p1; m1; m2; p2; d1; d2] =>
      is_digit y1 && is_digit y2 && is_digit y3 && is_digit y4
      && Ascii.eqb p1 "." && is_digit m1 && is_digit m2
      && Ascii.eqb p2 "." && is_digit d1 && is_digit d2
  | _ => false
  end.

(** The days reached from [d] by [n - 1] steps of one day. *)
Fixpoint days_from (n : nat) (d : datetime) : list datetime :=
  match n with
  | O => []
  | S k => d :: match add_one_day d with
                | Ok next => days_from k next
                | _ => []
                end
  end.

(** The world after the CSV file was replaced. *)
Definition with_csv (w : world) (records : list (list string)) : world :=
  mk_world (Some records) (stdout w) (png_file w) (shown w).

(** The world after lines were printed. *)
Definition with_output (w : world) (lines : list string) : world :=
  mk_world (csv_file w) (stdout w ++ lines)%list (png_file w) (shown w).

(** The world after a figure was saved and shown. *)
Definition with_figure (w : world) (fig : figure) : world :=
  mk_world (csv_file w) (stdout w) (Some fig) (shown w ++ [fig])%list.

(** A command that leaves the CSV file as it found it, whatever its outcome. *)
Definition keeps_csv {A} (c : M A) : Prop :=
  forall w, csv_file (c w).2 = csv_file w.

(** The smoothing factor handed to the spline fit, [len(weights) * 0.8]. *)
Definition smoothing_factor (weights : list pyfloat) : pyfloat :=
  fmul (float_of_Z (len weights)) 0.8.

(** The smoothed chart with the curve [smoothed] over the raw data. *)
Definition spline_chart (dates : list datetime) (weights smoothed : list pyfloat)
    : list artist :=
  [Line dates smoothed "r-" 2 None (Some "Smoothed Data");
   Line dates weights "b-" 1 (Some (Qc_of 0.3)) (Some "Raw Data");
   XLabel "Date"; YLabel "Weight (kg)"; Title "Smoothed Weight Change";
   Grid (Qc_of 0.3); Legend].

(** The smoothed chart when there is too little data: a message, no curve. *)
Definition fallback_chart : list artist :=
  [Text (Qc_of 0.5) (Qc_of 0.5) "Not enough data for smoothing";
   Title "Smoothed Weight Change"].

(** An axes on which a smoothed curve is drawn. *)
Definition draws_spline (ax : list artist) : Prop :=
  exists xs ys fmt linewidth alpha,
    In (Line xs ys fmt linewidth alpha (Some "Smoothed Data")) ax.

(** An axes that shows the fallback message. *)
Definition shows_fallback (ax : list artist) : Prop :=
  exists x y, In (Text x y "Not enough data for smoothing") ax.

(** A stand-in for the spline library in the examples: the fitted curve
    passes through the data. *)
Definition interpolating_fit (xs : list Z) (ys : list pyfloat) (s : pyfloat)
    : result (list pyfloat) := Ok ys.

Definition interpolating_call (spl : list pyfloat) (xs : list Z) : list pyfloat := spl.

(** The console before anything is printed, with and without a CSV file. *)
Definition empty_world : world := mk_world None [] None [].

(** * Example data *)

(** A table with the row of the specification's example, [70, "", 71, ""]. *)
Definition example_records : list (list string) :=
  [csv_header; ["2025.07.01"; "70"; ""; "71"; ""]].

(** A row whose cells are empty, blank or not numbers. *)
Definition unreadable_row : gmap string (option string) :=
  dict_row csv_header ["2025.07.02"; "abc"; ""; " "; "7o"].

(** A world whose CSV file holds the example table. *)
Definition example_world : world := mk_world (Some example_records) [] None [].

(** A world whose CSV file is the one the bootstrap writes. *)
Definition bootstrapped_world : world :=
  with_csv empty_world (csv_header :: map blank_row (days_from 549 first_day)).

(** Four days of data, and the first three of them. *)
Definition four_dates : list datetime :=
  [mk_datetime 2025 7 1; mk_datetime 2025 7 2; mk_datetime 2025 7 3; mk_datetime 2025 7 4].

Definition four_weights : list pyfloat :=
  [float_of_Q 70; float_of_Q 71; float_of_Q 69; float_of_Q 70.5].

(** The text [strftime] gives for a date is read back by [strptime] as that
    date. *)
Definition reads_back (d : datetime) : bool :=
  match strptime_ymd (strftime_ymd d) with
  | Ok d' => (year d' =? year d) && (month d' =? month d) && (day d' =? day d)
  | _ => false
  end.

(** A height at which the body mass index is defined whatever the weight
    and whatever the C library does within its accuracy: the height in
    metres is a finite float and neither the nearest double to its square
    nor a neighbour of that double is zero or infinite. *)
Definition bmi_defined_at (height_cm : Z) : bool :=
  match true_divide height_cm 100 with
  | Ok height_m =>
      let y := (height_m * height_m)%float in
      negb (PrimFloat.is_nan height_m || PrimFloat.is_infinity height_m)
      && forallb (fun r => negb (PrimFloat.is_infinity r) && negb (PrimFloat.is_zero r))
           [PrimFloat.next_down y; y; PrimFloat.next_up y]
  | _ => false
  end.

(** The text [strftime] writes for the year and the month of a date before
    the year 1000 does not start with four digits. *)
Definition short_year (y m : Z) : bool :=
  let text := chars (str_of_Z y ++ "." ++ zero_pad 2 (str_of_Z m) ++ ".") in
  (4 <=? List.length text)%nat
  && match match_year text with None => true | Some _ => false end.

(** * Further specifications *)

(** The last day a [datetime] can hold. *)
Definition max_day : datetime := mk_datetime MAXYEAR 12 31.

(** The number of days from [first] to [last], both included (0 when [last]
    is before [first]). *)
Definition days_between (first last : datetime) : nat :=
  Z.to_nat (toordinal last - toordinal first + 1).

(** The text [strftime] writes for a year from 1000 on is four digits that
    denote the year. *)
Definition year_text_ok (y : Z) : bool :=
  match chars (str_of_Z y) with
  | [a; b; c; d] =>
      is_digit a && is_digit b && is_digit c && is_digit d
      && (digits_value [a; b; c; d] =? y)
  | _ => false
  end.

(** The first of the five columns, in the order the parser reads them, that
    a header does not have. *)
Definition first_missing_column (header : list string) : option string :=
  find (fun k => negb (bool_decide (k ∈ header))) csv_header.

(** The raw chart. *)
Definition raw_chart (dates : list datetime) (weights : list pyfloat) : list artist :=
  [Line dates weights "b-" 1 (Some (Qc_of 0.7)) (Some "Raw Data");
   XLabel "Date"; YLabel "Weight (kg)"; Title "Weight Change Over Time";
   Grid (Qc_of 0.3); Legend].

(** The chart of the changes: change [i] is drawn at date [i + 1], over a
    zero line. *)
Definition changes_chart (dates : list datetime) (changes : list pyfloat) : list artist :=
  [Line (drop 1 dates) changes "g-" 1 (Some (Qc_of 0.7)) None;
   HLine (float_of_Z 0) "r" "-" (Qc_of 0.3); XLabel "Date";
   YLabel "Weight Change (kg/day)"; Title "Weight Change Rate Trend";
   Grid (Qc_of 0.3)].

(** The chart of the changes when there is none. *)
Definition changes_fallback : list artist :=
  [Text (Qc_of 0.5) (Qc_of 0.5) "Not enough data for change rate calculation";
   Title "Weight Change Rate Trend"].

(** The lines [main] prints about a series. *)
Definition statistics_lines (avg mx mn : pyfloat) (n : nat) : list string :=
  ["Statistics:";
   "Average weight: " ++ format_2f avg ++ " kg";
   "Maximum weight: " ++ format_2f mx ++ " kg";
   "Minimum weight: " ++ format_2f mn ++ " kg";
   "Total data points: " ++ str_of_Z (Z.of_nat n) ++ " days"].

(** The line about the latest BMI; it is left out when the BMI is zero. *)
Definition bmi_lines (d : datetime) (b : pyfloat) : list string :=
  if float_truthy b
  then ["Latest BMI (" ++ strftime_ymd d ++ "): " ++ format_2f b
        ++ " (Height: " ++ str_of_Z HEIGHT_CM ++ "cm)"]
  else [].

(** * More example data *)

(** A spline fit that always fails. *)
Definition failing_fit (xs : list Z) (ys : list pyfloat) (s : pyfloat)
    : result (list pyfloat) := Raise (LibraryError "fit failed").

(** A table of four days, one measurement each, and a world that holds it. *)
Definition four_day_records : list (list string) :=
  [csv_header;
   ["2025.07.01"; "70"; ""; ""; ""];
   ["2025.07.02"; ""; "71"; ""; ""];
   ["2025.07.03"; "69"; ""; ""; ""];
   ["2025.07.04"; ""; ""; ""; "72"]].

Definition four_day_weights : list pyfloat :=
  [float_of_Q 70; float_of_Q 71; float_of_Q 69; float_of_Q 72].

Definition four_day_world : world := mk_world (Some four_day_records) [] None [].

(** A row with a measurement and a date that cannot be read. *)
Definition misdated_row : gmap string (option string) :=
  dict_row csv_header ["1 July"; "70"; ""; ""; ""].

(** * Auxiliary notions of the proofs *)

(** The place of a float in the order: its class (negative infinity,
    negative, zero, positive, positive infinity), then its exponent and its
    mantissa, both counted downwards for a negative float. *)
Definition order_key (s : spec_float) : Z * Z * Z :=
  match s with
  | S754_nan => (0, 0, 0)
  | S754_zero _ => (0, 0, 0)
  | S754_infinity true => (-2, 0, 0)
  | S754_infinity false => (2, 0, 0)
  | S754_finite false m e => (1, e, Z.pos m)
  | S754_finite true m e => (-1, - e, Z.neg m)
  end.

Definition key_le (k1 k2 : Z * Z * Z) : Prop :=
  let '(a1, b1, c1) := k1 in
  let '(a2, b2, c2) := k2 in
  a1 < a2 \/ (a1 = a2 /\ (b1 < b2 \/ (b1 = b2 /\ c1 <= c2))).

(** White space of ASCII. *)
Definition ascii_space (c : ascii) : bool := is_space c && (code c <? 127)%N.

(** A table whose numbers are not doubles, and a world that holds it. *)
Definition rounding_records : list (list string) :=
  [csv_header;
   ["2025.07.01"; "70.05"; "70.1"; ""; ""];
   ["2025.07.02"; ""; "2.675"; ""; ""]].

Definition rounding_world : world := mk_world (Some rounding_records) [] None [].

(** * Proofs *)

(** ** Outcomes *)

Lemma bind_Ok {A B} (r : result A) (k : A -> result B) a :
  r = Ok a -> (r ≫= k) = k a.
Proof. intros ->. reflexivity. Qed.

(** ** Indexing *)

Lemma py_index_nat {A} (l : list A) (i : nat) (x : A) :
  l !! i = Some x -> py_index l (Z.of_nat i) = Ok x.
Proof.
  intros Hx. unfold py_index.
  pose proof (lookup_lt_Some _ _ _ Hx) as Hlt.
  replace (Z.of_nat i <? 0) with false by (symmetry; apply Z.ltb_ge; lia).
  replace (0 <=? Z.of_nat i) with true by (symmetry; apply Z.leb_le; lia).
  replace (Z.of_nat i <? Z.of_nat (List.length l)) with true
    by (symmetry; apply Z.ltb_lt; lia).
  simpl. rewrite Nat2Z.id, Hx. reflexivity.
Qed.

Lemma py_index_last {A} (l : list A) (x : A) :
  last l = Some x -> py_index l (-1) = Ok x.
Proof.
  intros Hx. unfold py_index.
  assert (Hlen : (0 < List.length l)%nat).
  { destruct l; [discriminate | simpl; lia]. }
  replace (-1 <? 0) with true by reflexivity.
  replace (0 <=? -1 + Z.of_nat (List.length l)) with true
    by (symmetry; apply Z.leb_le; lia).
  replace (-1 + Z.of_nat (List.length l) <? Z.of_nat (List.length l)) with true
    by (symmetry; apply Z.ltb_lt; lia).
  simpl.
  replace (Z.to_nat (-1 + Z.of_nat (List.length l))) with (pred (List.length l)) by lia.
  rewrite <- last_lookup, Hx. reflexivity.
Qed.

(** ** The change series *)

Lemma first_differences_length (ws : list pyfloat) :
  List.length (first_differences ws) = pred (List.length ws).
Proof.
  induction ws as [|a [|b rest] IH]; simpl in *; try reflexivity.
  rewrite IH. reflexivity.
Qed.

Lemma first_differences_lookup (ws : list pyfloat) (i : nat) (a b : pyfloat) :
  ws !! i = Some a -> ws !! S i = Some b ->
  first_differences ws !! i = Some (fsub b a).
Proof.
  revert i. induction ws as [|x rest IH]; intros i Ha Hb; [discriminate|].
  destruct rest as [|y rest']; [discriminate|].
  destruct i as [|i].
  - simpl in *. congruence.
  - change (first_differences (y :: rest') !! i = Some (fsub b a)).
    apply IH; assumption.
Qed.

Lemma changes_loop_spec (ws : list pyfloat) (m i : nat) (acc : list pyfloat) :
  (i + m <= List.length (first_differences ws))%nat ->
  changes_loop ws (map (fun k => 1 + Z.of_nat k) (seq i m)) acc
  = Ok (acc ++ take m (drop i (first_differences ws)))%list.
Proof.
  revert i acc. induction m as [|m IH]; intros i acc Hle.
  - simpl. rewrite take_0, app_nil_r. reflexivity.
  - rewrite first_differences_length in Hle.
    destruct (lookup_lt_is_Some_2 ws i) as [a Ha]; [lia|].
    destruct (lookup_lt_is_Some_2 ws (S i)) as [b Hb]; [lia|].
    pose proof (first_differences_lookup ws i a b Ha Hb) as Hd.
    cbn [seq map changes_loop].
    replace (1 + Z.of_nat i) with (Z.of_nat (S i)) by lia.
    rewrite (bind_Ok _ _ b (py_index_nat ws (S i) b Hb)).
    replace (Z.of_nat (S i) - 1) with (Z.of_nat i) by lia.
    rewrite (bind_Ok _ _ a (py_index_nat ws i a Ha)).
    rewrite IH by (rewrite first_differences_length; lia).
    rewrite (drop_S _ _ _ Hd). simpl. rewrite <- app_assoc. reflexivity.
Qed.

Lemma calculate_weight_changes_spec (ws : list pyfloat) :
  calculate_weight_changes ws = Ok (first_differences ws).
Proof.
  unfold calculate_weight_changes, py_range, len.
  replace (Z.to_nat (Z.of_nat (List.length ws) - 1))
    with (List.length (first_differences ws))
    by (rewrite first_differences_length; lia).
  rewrite changes_loop_spec by lia.
  rewrite drop_0, firstn_all. reflexivity.
Qed.

(** ** Float arithmetic *)

Lemma SFcompare_refl (s : spec_float) :
  s <> S754_nan -> SFcompare s s = Some Eq.
Proof.
  destruct s as [[]|[]| |[] m e]; intros Hs; try reflexivity; try congruence;
    simpl; rewrite Z.compare_refl, Pos.compare_cont_refl; reflexivity.
Qed.

Lemma is_nan_spec (x : pyfloat) :
  PrimFloat.is_nan x = true <-> Prim2SF x = S754_nan.
Proof.
  unfold PrimFloat.is_nan. rewrite FloatAxioms.eqb_spec. unfold SFeqb. split.
  - intros H. destruct (Prim2SF x) eqn:Hx; try reflexivity;
      rewrite SFcompare_refl in H by discriminate; discriminate H.
  - intros ->. reflexivity.
Qed.

Lemma is_nan_false (x : pyfloat) :
  PrimFloat.is_nan x = false <-> Prim2SF x <> S754_nan.
Proof.
  rewrite <- is_nan_spec. destruct (PrimFloat.is_nan x); split; congruence.
Qed.

(** There is one [nan]. *)
Lemma is_nan_eq (x : pyfloat) : PrimFloat.is_nan x = true -> x = PrimFloat.nan.
Proof.
  intros H. apply is_nan_spec in H. apply Prim2SF_inj. rewrite H. reflexivity.
Qed.

Lemma SFleb_key (s1 s2 : spec_float) :
  s1 <> S754_nan -> s2 <> S754_nan ->
  SFleb s1 s2 = true <-> key_le (order_key s1) (order_key s2).
Proof.
  intros H1 H2. unfold SFleb.
  destruct s1 as [[]|[]| |[] m1 e1], s2 as [[]|[]| |[] m2 e2];
    try congruence; simpl; try (split; [intros _; lia | reflexivity]);
    try (split; [discriminate | intros; lia]).
  - rewrite Pos.compare_cont_spec. simpl.
    destruct (Z.compare_spec e1 e2), (Pos.compare_spec m1 m2); simpl;
      split; intros; try reflexivity; try discriminate; try lia.
  - rewrite Pos.compare_cont_spec. simpl.
    destruct (Z.compare_spec e1 e2), (Pos.compare_spec m1 m2); simpl;
      split; intros; try reflexivity; try discriminate; try lia.
Qed.

Lemma fleb_not_nan (x y : pyfloat) :
  fleb x y = true -> PrimFloat.is_nan x = false /\ PrimFloat.is_nan y = false.
Proof.
  unfold fleb. rewrite FloatAxioms.leb_spec. unfold SFleb. intros H.
  split; apply is_nan_false; intros Hn; rewrite Hn in H.
  - discriminate H.
  - destruct (Prim2SF x); discriminate H.
Qed.

Lemma fleb_key (x y : pyfloat) :
  PrimFloat.is_nan x = false -> PrimFloat.is_nan y = false ->
  fleb x y = true <-> key_le (order_key (Prim2SF x)) (order_key (Prim2SF y)).
Proof.
  intros Hx Hy. unfold fleb. rewrite FloatAxioms.leb_spec.
  apply SFleb_key; apply is_nan_false; assumption.
Qed.

Lemma fleb_refl (x : pyfloat) : PrimFloat.is_nan x = false -> fleb x x = true.
Proof.
  intros Hx. apply fleb_key; [assumption..|].
  unfold key_le. destruct (order_key (Prim2SF x)) as [[a b] c]. lia.
Qed.

Lemma fleb_trans (x y z : pyfloat) :
  fleb x y = true -> fleb y z = true -> fleb x z = true.
Proof.
  intros Hxy Hyz.
  destruct (fleb_not_nan _ _ Hxy) as [Hx Hy].
  destruct (fleb_not_nan _ _ Hyz) as [_ Hz].
  apply fleb_key in Hxy; [|assumption..]. apply fleb_key in Hyz; [|assumption..].
  apply fleb_key; [assumption..|].
  unfold key_le in *.
  destruct (order_key (Prim2SF x)) as [[a1 b1] c1].
  destruct (order_key (Prim2SF y)) as [[a2 b2] c2].
  destruct (order_key (Prim2SF z)) as [[a3 b3] c3]. lia.
Qed.

Lemma fleb_total (x y : pyfloat) :
  PrimFloat.is_nan x = false -> PrimFloat.is_nan y = false ->
  fleb x y = false -> fleb y x = true.
Proof.
  intros Hx Hy Hxy. apply fleb_key; [assumption..|].
  assert (Hn : ~ key_le (order_key (Prim2SF x)) (order_key (Prim2SF y))).
  { intros Hle. apply fleb_key in Hle; [|assumption..]. congruence. }
  unfold key_le in *.
  destruct (order_key (Prim2SF x)) as [[a1 b1] c1].
  destruct (order_key (Prim2SF y)) as [[a2 b2] c2]. lia.
Qed.

(** ** Maximum and minimum *)

Lemma np_maximum_nan (x y : pyfloat) :
  PrimFloat.is_nan x || PrimFloat.is_nan y = true -> np_maximum x y = PrimFloat.nan.
Proof.
  intros H. unfold np_maximum. destruct (PrimFloat.is_nan x) eqn:Hx.
  - rewrite orb_true_r. apply is_nan_eq, Hx.
  - simpl in H. destruct (fleb y x) eqn:Hyx.
    + apply fleb_not_nan in Hyx. destruct Hyx. congruence.
    + simpl. apply is_nan_eq, H.
Qed.

Lemma np_minimum_nan (x y : pyfloat) :
  PrimFloat.is_nan x || PrimFloat.is_nan y = true -> np_minimum x y = PrimFloat.nan.
Proof.
  intros H. unfold np_minimum. destruct (PrimFloat.is_nan x) eqn:Hx.
  - rewrite orb_true_r. apply is_nan_eq, Hx.
  - simpl in H. destruct (fleb x y) eqn:Hxy.
    + apply fleb_not_nan in Hxy. destruct Hxy. congruence.
    + simpl. apply is_nan_eq, H.
Qed.

Lemma np_maximum_spec (x y : pyfloat) :
  PrimFloat.is_nan x = false -> PrimFloat.is_nan y = false ->
  let m := np_maximum x y in
  PrimFloat.is_nan m = false /\ (m = x \/ m = y) /\ fleb x m = true /\ fleb y m = true.
Proof.
  intros Hx Hy. unfold np_maximum. rewrite Hx, orb_false_r.
  destruct (fleb y x) eqn:Hyx.
  - repeat split; auto using fleb_refl.
  - repeat split; auto using fleb_refl, fleb_total.
Qed.

Lemma np_minimum_spec (x y : pyfloat) :
  PrimFloat.is_nan x = false -> PrimFloat.is_nan y = false ->
  let m := np_minimum x y in
  PrimFloat.is_nan m = false /\ (m = x \/ m = y) /\ fleb m x = true /\ fleb m y = true.
Proof.
  intros Hx Hy. unfold np_minimum. rewrite Hx, orb_false_r.
  destruct (fleb x y) eqn:Hxy.
  - repeat split; auto using fleb_refl.
  - repeat split; auto using fleb_refl, fleb_total.
Qed.

Lemma fold_left_nan (f : pyfloat -> pyfloat -> pyfloat) (xs : list pyfloat) :
  (forall y, f PrimFloat.nan y = PrimFloat.nan) ->
  fold_left f xs PrimFloat.nan = PrimFloat.nan.
Proof. intros Hf. induction xs as [|x xs IH]; simpl; [reflexivity|]. rewrite Hf. exact IH. Qed.

Lemma fold_maximum_spec (x : pyfloat) (rest : list pyfloat) :
  is_maximum (x :: rest) (fold_left np_maximum rest x).
Proof.
  revert x. induction rest as [|y rest IH]; intros x; unfold is_maximum.
  - simpl. destruct (PrimFloat.is_nan x) eqn:Hx; simpl.
    + apply is_nan_eq, Hx.
    + split; [left; reflexivity|]. intros z [<-|[]]. apply fleb_refl, Hx.
  - simpl fold_left. specialize (IH (np_maximum x y)). unfold is_maximum in IH.
    simpl existsb in *.
    destruct (PrimFloat.is_nan x) eqn:Hx.
    { rewrite np_maximum_nan by (rewrite Hx; reflexivity).
      apply fold_left_nan. intros z. apply np_maximum_nan. reflexivity. }
    destruct (PrimFloat.is_nan y) eqn:Hy.
    { rewrite np_maximum_nan by (rewrite Hy; apply orb_true_r).
      apply fold_left_nan. intros z. apply np_maximum_nan. reflexivity. }
    destruct (np_maximum_spec x y Hx Hy) as (Hm & Hsel & Hxm & Hym).
    rewrite Hm in IH. simpl in *.
    destruct (existsb PrimFloat.is_nan rest); [exact IH|].
    destruct IH as [Hin Hall]. split.
    + destruct Hin as [Hin|Hin]; [|right; right; exact Hin].
      destruct Hsel as [Hs|Hs]; rewrite Hs in Hin |- *; auto.
    + intros z [<-|[<-|Hz]].
      * apply fleb_trans with (np_maximum x y); auto.
      * apply fleb_trans with (np_maximum x y); auto.
      * apply Hall. right. exact Hz.
Qed.

Lemma fold_minimum_spec (x : pyfloat) (rest : list pyfloat) :
  is_minimum (x :: rest) (fold_left np_minimum rest x).
Proof.
  revert x. induction rest as [|y rest IH]; intros x; unfold is_minimum.
  - simpl. destruct (PrimFloat.is_nan x) eqn:Hx; simpl.
    + apply is_nan_eq, Hx.
    + split; [left; reflexivity|]. intros z [<-|[]]. apply fleb_refl, Hx.
  - simpl fold_left. specialize (IH (np_minimum x y)). unfold is_minimum in IH.
    simpl existsb in *.
    destruct (PrimFloat.is_nan x) eqn:Hx.
    { rewrite np_minimum_nan by (rewrite Hx; reflexivity).
      apply fold_left_nan. intros z. apply np_minimum_nan. reflexivity. }
    destruct (PrimFloat.is_nan y) eqn:Hy.
    { rewrite np_minimum_nan by (rewrite Hy; apply orb_true_r).
      apply fold_left_nan. intros z. apply np_minimum_nan. reflexivity. }
    destruct (np_minimum_spec x y Hx Hy) as (Hm & Hsel & Hxm & Hym).
    rewrite Hm in IH. simpl in *.
    destruct (existsb PrimFloat.is_nan rest); [exact IH|].
    destruct IH as [Hin Hall]. split.
    + destruct Hin as [Hin|Hin]; [|right; right; exact Hin].
      destruct Hsel as [Hs|Hs]; rewrite Hs in Hin |- *; auto.
    + intros z [<-|[<-|Hz]].
      * apply fleb_trans with (np_minimum x y); auto.
      * apply fleb_trans with (np_minimum x y); auto.
      * apply Hall. right. exact Hz.
Qed.

(** ** The daily average *)

(** The count of up to four cells is not zero as a float: the division of
    the daily average does not raise. *)
Lemma fdiv_by_count (s : pyfloat) (n : nat) :
  (1 <= n <= 4)%nat -> fdiv s (float_of_nat n) = Ok (s / float_of_nat n)%float.
Proof.
  intros Hn. unfold fdiv.
  assert (H : n = 1%nat \/ n = 2%nat \/ n = 3%nat \/ n = 4%nat) by lia.
  destruct H as [->|[->|[->| ->]]]; reflexivity.
Qed.

(** ** The body mass index *)

Section Libm.

Context {lm : libm}.

(** The square of a height whose square is a double. *)
Lemma fsquare_exact (x : pyfloat) :
  PrimFloat.is_nan x || PrimFloat.is_infinity x = false ->
  square_is_exact x = true ->
  PrimFloat.is_infinity (x * x)%float = false ->
  fsquare x = Ok (x * x)%float.
Proof.
  intros Hx Hexact Hfin. unfold fsquare. rewrite Hx, Hexact, Hfin. reflexivity.
Qed.

(** At the height of the script, 175 cm, the square of the height in metres
    is 3.0625 and the division by it never raises. *)
Lemma calculate_bmi_HEIGHT_CM (w : pyfloat) :
  calculate_bmi w 175 = Ok (w / 3.0625)%float.
Proof.
  unfold calculate_bmi.
  change (true_divide 175 100) with (Ok 1.75%float).
  cbn [mbind result_bind].
  rewrite (fsquare_exact 1.75%float) by reflexivity.
  reflexivity.
Qed.

Lemma calculate_bmi_zero_height (w : pyfloat) :
  calculate_bmi w 0 = Raise ZeroDivisionError.
Proof.
  unfold calculate_bmi.
  change (true_divide 0 100) with (Ok 0%float).
  cbn [mbind result_bind].
  rewrite (fsquare_exact 0%float) by reflexivity.
  reflexivity.
Qed.

End Libm.

(** ** Blank cells are not numbers *)

Lemma lstrip_nil (space : ascii -> bool) (l : list ascii) :
  lstrip space l = [] -> Forall (fun c => space c = true) l.
Proof.
  induction l as [|c l IH]; simpl; intros H; [constructor|].
  destruct (space c) eqn:Hc; [|discriminate].
  constructor; auto.
Qed.

Lemma lstrip_head (space : ascii -> bool) (l : list ascii) (c : ascii) (r : list ascii) :
  lstrip space l = c :: r -> space c = false.
Proof.
  induction l as [|a l IH]; simpl; [discriminate|].
  destruct (space a) eqn:Ha; [exact IH|].
  intros [= <- _]. exact Ha.
Qed.

Lemma lstrip_Forall (space : ascii -> bool) (P : ascii -> Prop) (l : list ascii) :
  Forall P l -> Forall P (lstrip space l).
Proof.
  induction 1 as [|c l Hc Hl IH]; simpl; [constructor|].
  destruct (space c); [exact IH | constructor; assumption].
Qed.

Lemma lstrip_keeps_last (space : ascii -> bool) (l : list ascii) (c : ascii) :
  space c = false -> exists l', lstrip space (l ++ [c]) = (l' ++ [c])%list.
Proof.
  intros Hc. induction l as [|a l IH]; simpl.
  - rewrite Hc. exists []. reflexivity.
  - destruct (space a); [exact IH|]. exists (a :: l). reflexivity.
Qed.

Lemma strip_chars_nil (space : ascii -> bool) (l : list ascii) :
  strip_chars space l = [] -> Forall (fun c => space c = true) l.
Proof.
  unfold strip_chars. intros H.
  apply (f_equal (@rev ascii)) in H. rewrite rev_involutive in H. simpl in H.
  apply lstrip_nil in H.
  destruct (lstrip space l) as [|c r] eqn:Hl; [apply lstrip_nil; exact Hl|].
  exfalso. pose proof (lstrip_head _ _ _ _ Hl) as Hc.
  rewrite Forall_forall in H. specialize (H c).
  rewrite Hc in H. discriminate H.
  apply list_elem_of_In, in_rev. rewrite rev_involutive. left. reflexivity.
Qed.

(** What is left of a text after the white space at its two ends is empty
    or starts with the first character that is not white space. *)
Lemma strip_chars_head (space : ascii -> bool) (P : ascii -> Prop) (l : list ascii) :
  Forall P l ->
  strip_chars space l = []
  \/ exists c r, strip_chars space l = c :: r /\ space c = false /\ P c.
Proof.
  intros Hl. unfold strip_chars.
  destruct (lstrip space l) as [|c r] eqn:Hs; [left; reflexivity|].
  right. pose proof (lstrip_head _ _ _ _ Hs) as Hc.
  pose proof (lstrip_Forall space P l Hl) as HP. rewrite Hs in HP.
  apply Forall_cons in HP. destruct HP as [HPc _].
  simpl rev. destruct (lstrip_keeps_last space (rev r) c Hc) as [l' Hl'].
  rewrite Hl', rev_app_distr. simpl. eauto.
Qed.

Lemma ascii_space_not_special (c : ascii) :
  ascii_space c = true -> Ascii.eqb c "_"%char = false /\ is_digit c = false.
Proof.
  destruct c as [[] [] [] [] [] [] [] []]; vm_compute; intros H; try discriminate; auto.
Qed.

Lemma is_space_ascii (c : ascii) :
  is_space c = true -> (code c <? 128)%N = true -> ascii_space c = true.
Proof.
  destruct c as [[] [] [] [] [] [] [] []]; vm_compute; intros H1 H2;
    try discriminate; reflexivity.
Qed.

Lemma transform_spaces (l : list ascii) :
  Forall (fun c => is_space c = true) l ->
  Forall (fun c => ascii_space c = true) (transform_to_ascii l).
Proof.
  induction 1 as [|c l Hc Hl IH]; simpl; [constructor|].
  destruct (code c <? 127)%N eqn:Hlow.
  - constructor; [|exact IH]. unfold ascii_space. rewrite Hc, Hlow. reflexivity.
  - rewrite Hc. constructor; [reflexivity | exact IH].
Qed.

Lemma to_ascii_spaces (l : list ascii) :
  Forall (fun c => is_space c = true) l ->
  Forall (fun c => ascii_space c = true) (to_ascii l).
Proof.
  intros Hl. unfold to_ascii.
  destruct (forallb (fun c => (code c <? 128)%N) l) eqn:Hall;
    [|apply transform_spaces, Hl].
  rewrite forallb_forall in Hall. rewrite Forall_forall in Hl |- *.
  intros c Hc. apply is_space_ascii; [apply Hl, Hc|].
  apply Hall, list_elem_of_In, Hc.
Qed.

Lemma strip_underscores_spaces (l : list ascii) (prev : option ascii) :
  Forall (fun c => ascii_space c = true) l ->
  match prev with Some p => Ascii.eqb p "_"%char | None => false end = false ->
  strip_underscores prev l = Some l.
Proof.
  intros Hl. revert prev. induction Hl as [|c l Hc Hl IH]; intros prev Hp; simpl.
  - rewrite Hp. reflexivity.
  - destruct (ascii_space_not_special c Hc) as [Hu Hd].
    rewrite Hu, Hp. simpl. rewrite IH; [reflexivity | exact Hu].
Qed.

(** No number starts with one of the separators 28 to 31, the white space
    of ASCII that the C code of [float] does not pass over. *)
Lemma separator_not_numeric (c : ascii) (r : list ascii) :
  ascii_space c = true -> is_c_space c = false -> string_to_double (c :: r) = None.
Proof.
  intros H1 H2.
  destruct c as [[] [] [] [] [] [] [] []];
    try (vm_compute in H1; discriminate H1);
    try (vm_compute in H2; discriminate H2); reflexivity.
Qed.

Lemma string_of_list_ascii_nil (l : list ascii) :
  string_of_list_ascii l = "" -> l = [].
Proof. destruct l; simpl; [reflexivity | discriminate]. Qed.

(** A string that is empty, or blank after [strip], is rejected by [float]:
    the emptiness test before the conversion passes over no number. *)
Lemma blank_not_numeric (s : string) :
  str_truthy s && str_truthy (strip s) = false -> float_of_string s = None.
Proof.
  intros H. apply andb_false_iff in H. destruct H as [H|H].
  - destruct s; [reflexivity | discriminate].
  - unfold strip in H.
    destruct (string_of_list_ascii (strip_chars is_space (chars s))) eqn:Hs; [|discriminate].
    apply string_of_list_ascii_nil, strip_chars_nil, to_ascii_spaces in Hs.
    unfold float_of_string.
    rewrite (strip_underscores_spaces _ None Hs eq_refl).
    destruct (strip_chars_head is_c_space _ _ Hs) as [->|(c & r & -> & Hc & Hsp)];
      [reflexivity|].
    rewrite (separator_not_numeric c r Hsp Hc). reflexivity.
Qed.

(** ** The parser *)

Lemma collect_weights_spec (row : gmap string cell) (indices : list Z)
    (acc : list pyfloat) :
  Forall (fun i => is_Some (row !! weight_index_key i)) indices ->
  collect_weights row indices acc
  = Ok (acc ++ omap (fun i => row !! weight_index_key i ≫= numeric_value) indices)%list.
Proof.
  intros Hcols. revert acc.
  induction Hcols as [|i indices [c Hc] _ IH]; intros acc.
  - simpl. rewrite app_nil_r. reflexivity.
  - cbn [collect_weights omap list_omap]. fold (weight_index_key i).
    unfold getitem. rewrite Hc. cbn [mbind result_bind option_bind].
    destruct c as [s|]; cbn [numeric_value].
    + destruct (str_truthy s && str_truthy (strip s)) eqn:Hguard.
      * destruct (float_of_string s) as [x|].
        -- rewrite IH. rewrite <- app_assoc. reflexivity.
        -- apply IH.
      * rewrite (blank_not_numeric s Hguard). apply IH.
    + apply IH.
Qed.

Lemma collect_weights_row (row : gmap string cell) :
  has_columns row ->
  collect_weights row (py_range 1 5) [] = Ok (numeric_values row).
Proof.
  intros Hcols. unfold has_columns, weight_keys in Hcols.
  apply Forall_cons in Hcols. destruct Hcols as [_ Hw].
  change (py_range 1 5) with [1; 2; 3; 4].
  rewrite collect_weights_spec.
  - reflexivity.
  - repeat (apply Forall_cons in Hw; destruct Hw as [? Hw]).
    repeat constructor; assumption.
Qed.

(** A row has at most four numeric cells. *)
Lemma numeric_values_length (row : gmap string cell) :
  (List.length (numeric_values row) <= 4)%nat.
Proof.
  unfold numeric_values, weight_keys. cbn [omap list_omap].
  repeat (match goal with |- context [match ?o with Some _ => _ | None => _ end] =>
            destruct o end); simpl; lia.
Qed.

Lemma read_rows_spec (rows : list (gmap string cell)) :
  Forall has_columns rows ->
  forall dates daily_weights,
    read_rows rows dates daily_weights
    = (es ← daily_series rows;
       Ok (dates ++ map fst es, daily_weights ++ map snd es)%list).
Proof.
  induction 1 as [|row rows Hrow _ IH]; intros dates daily_weights.
  - simpl. rewrite !app_nil_r. reflexivity.
  - cbn [read_rows daily_series].
    pose proof Hrow as Hcols. unfold has_columns in Hcols.
    apply Forall_cons in Hcols. destruct Hcols as [[c Hc] _].
    unfold getitem. rewrite Hc. cbn [mbind result_bind].
    rewrite (collect_weights_row row Hrow). cbn [mbind result_bind].
    unfold daily_entry. replace (date_cell row) with c
      by (unfold date_cell; rewrite Hc; reflexivity).
    destruct (numeric_values row) as [|v vs] eqn:Hvs.
    + cbn [mbind result_bind]. rewrite IH.
      destruct (daily_series rows); reflexivity.
    + rewrite fdiv_by_count
        by (pose proof (numeric_values_length row) as Hn; rewrite Hvs in Hn;
            simpl in Hn |- *; lia).
      fold (py_sum (v :: vs)). cbn [mbind result_bind].
      destruct (strptime_cell c) as [d|e|]; cbn [mbind result_bind]; try reflexivity.
      rewrite IH.
      destruct (daily_series rows) as [es|e|]; cbn [mbind result_bind]; try reflexivity.
      simpl. rewrite <- !app_assoc. reflexivity.
Qed.

(** ** The rows of [DictReader] have the columns of the header *)

Lemma fold_insert_keeps {A} (f : A -> string) (g : A -> option string)
    (l : list A) (m : gmap string (option string)) (k : string) :
  is_Some (m !! k) ->
  is_Some (fold_left (fun d x => <[f x := g x]> d) l m !! k).
Proof.
  revert m. induction l as [|x l IH]; intros m Hm; simpl; [exact Hm|].
  apply IH. destruct (decide (f x = k)) as [->|Hne].
  - rewrite lookup_insert_eq. eauto.
  - rewrite lookup_insert_ne by exact Hne. exact Hm.
Qed.

Lemma fold_insert_binds {A} (f : A -> string) (g : A -> option string)
    (l : list A) (m : gmap string (option string)) (x : A) :
  In x l ->
  is_Some (fold_left (fun d x => <[f x := g x]> d) l m !! f x).
Proof.
  revert m. induction l as [|y l IH]; intros m Hin; simpl; [destruct Hin|].
  destruct Hin as [->|Hin].
  - apply fold_insert_keeps. rewrite lookup_insert_eq. eauto.
  - apply IH, Hin.
Qed.

Lemma zip_or_drop (fieldnames fields : list string) (k : string) :
  In k fieldnames ->
  (exists v, In (k, v) (zip fieldnames fields))
  \/ In k (drop (List.length fields) fieldnames).
Proof.
  revert fields. induction fieldnames as [|f fieldnames IH]; intros fields Hin.
  - destruct Hin.
  - destruct fields as [|v fields].
    + right. exact Hin.
    + destruct Hin as [->|Hin].
      * left. exists v. left. reflexivity.
      * destruct (IH fields Hin) as [[v' Hv]|Hd].
        -- left. exists v'. right. exact Hv.
        -- right. exact Hd.
Qed.

Lemma dict_row_columns (fieldnames fields : list string) (k : string) :
  In k fieldnames -> is_Some (dict_row fieldnames fields !! k).
Proof.
  intros Hin. unfold dict_row.
  destruct (zip_or_drop fieldnames fields k Hin) as [[v Hv]|Hd].
  - apply (fold_insert_keeps (fun k => k) (fun _ => None)).
    apply (fold_insert_binds fst (fun kv => Some kv.2) _ _ (k, v) Hv).
  - apply (fold_insert_binds (fun k => k) (fun _ => None) _ _ k Hd).
Qed.

Lemma DictReader_columns (header : list string) (rest : list (list string)) :
  (forall k, In k csv_header -> In k header) ->
  Forall has_columns (DictReader (header :: rest)).
Proof.
  intros Hheader. unfold DictReader.
  apply Forall_forall. intros row Hrow.
  apply list_elem_of_In, in_map_iff in Hrow. destruct Hrow as (fields & <- & _).
  unfold has_columns. apply Forall_forall. intros k Hk.
  apply dict_row_columns, Hheader. apply list_elem_of_In. exact Hk.
Qed.

Lemma parse_weight_data_spec (header : list string) (rest : list (list string)) :
  (forall k, In k csv_header -> In k header) ->
  parse_weight_data (header :: rest)
  = (es ← daily_series (DictReader (header :: rest)); Ok (map fst es, map snd es)).
Proof.
  intros Hheader. unfold parse_weight_data.
  rewrite read_rows_spec by (apply DictReader_columns, Hheader).
  reflexivity.
Qed.

(** ** The two lists of the parser stay parallel *)

Lemma read_rows_parallel (rows : list (gmap string (option string))) :
  forall dates daily_weights dates' daily_weights',
    read_rows rows dates daily_weights = Ok (dates', daily_weights') ->
    List.length dates = List.length daily_weights ->
    List.length dates' = List.length daily_weights'.
Proof.
  induction rows as [|row rows IH]; intros dates ws dates' ws' Hrun Hlen.
  - simpl in Hrun. injection Hrun as <- <-. exact Hlen.
  - cbn [read_rows] in Hrun.
    destruct (getitem row "Date") as [c|e|]; cbn [mbind result_bind] in Hrun;
      try discriminate.
    destruct (collect_weights row (py_range 1 5) []) as [weights|e|];
      cbn [mbind result_bind] in Hrun; try discriminate.
    destruct weights as [|v vs].
    + eapply IH; eassumption.
    + destruct (fdiv _ _) as [avg|e|]; cbn [mbind result_bind] in Hrun;
        try discriminate.
      destruct (strptime_cell c) as [d|e|]; cbn [mbind result_bind] in Hrun;
        try discriminate.
      eapply IH; [eassumption|].
      rewrite !length_app. simpl. lia.
Qed.

Lemma read_weight_data_parallel (w w' : world) dates daily_weights :
  read_weight_data w = (Ok (dates, daily_weights), w') ->
  List.length dates = List.length daily_weights.
Proof.
  intros H. unfold read_weight_data, read_csv, lift, parse_weight_data in H.
  unfold mbind, M_bind in H.
  destruct (csv_file w) as [records|]; [|discriminate].
  destruct (read_rows (DictReader records) [] []) as [[ds ws]|e|] eqn:Hrun;
    try discriminate.
  injection H as <- <- <-.
  eapply read_rows_parallel; [exact Hrun | reflexivity].
Qed.

Section LatestBmi.

Context {lm : libm}.

Lemma get_latest_bmi_defined (dates : list datetime) (weights : list pyfloat) :
  List.length dates = List.length weights -> weights <> [] ->
  exists d b, last dates = Some d
              /\ get_latest_bmi dates weights HEIGHT_CM = Ok (Some d, Some b).
Proof.
  intros Hlen Hne.
  destruct weights as [|w0 ws]; [congruence|].
  destruct (last dates) as [d|] eqn:Hd.
  2:{ apply last_None in Hd. subst dates. discriminate Hlen. }
  destruct (last (w0 :: ws)) as [lw|] eqn:Hw.
  2:{ apply last_None in Hw. discriminate Hw. }
  exists d, (lw / 3.0625)%float. split; [reflexivity|].
  unfold get_latest_bmi.
  rewrite (py_index_last dates d Hd). cbn [mbind result_bind].
  rewrite (py_index_last (w0 :: ws) lw Hw). cbn [mbind result_bind].
  unfold HEIGHT_CM. rewrite calculate_bmi_HEIGHT_CM. reflexivity.
Qed.

End LatestBmi.

(** ** The calendar *)

Lemma month_cases (m : Z) :
  1 <= m <= 12 ->
  m = 1 \/ m = 2 \/ m = 3 \/ m = 4 \/ m = 5 \/ m = 6 \/ m = 7 \/ m = 8 \/ m = 9
  \/ m = 10 \/ m = 11 \/ m = 12.
Proof. lia. Qed.

Ltac each_month m H :=
  destruct (month_cases m H) as [?|[?|[?|[?|[?|[?|[?|[?|[?|[?|[?|?]]]]]]]]]]]; subst m.

Lemma valid_date_bounds (y m d : Z) :
  valid_date y m d = true ->
  1 <= y <= 9999 /\ 1 <= m <= 12 /\ 1 <= d <= days_in_month y m.
Proof.
  unfold valid_date, MINYEAR, MAXYEAR. intros H.
  repeat (apply andb_prop in H; destruct H as [H ?]).
  repeat match goal with
         | H : (_ <=? _) = true |- _ => apply Z.leb_le in H
         end.
  lia.
Qed.
Lemma days_before_next_month (y m : Z) :
  1 <= m < 12 ->
  days_before_month y (m + 1) = days_before_month y m + days_in_month y m.
Proof.
  intros Hm. assert (H : 1 <= m <= 12) by lia.
  each_month m H; try lia; unfold days_before_month, days_in_month; simpl;
    destruct (is_leap y); reflexivity.
Qed.

Lemma days_before_month_mono (y m1 m2 : Z) :
  1 <= m1 -> m1 < m2 -> m2 <= 12 ->
  days_before_month y m1 + days_in_month y m1 <= days_before_month y m2.
Proof.
  intros H1 H12 H2.
  assert (Ha : 1 <= m1 <= 12) by lia. assert (Hb : 1 <= m2 <= 12) by lia.
  each_month m1 Ha; each_month m2 Hb; try lia;
    unfold days_before_month, days_in_month; simpl; destruct (is_leap y); lia.
Qed.

Lemma year_end (y m : Z) :
  1 <= m <= 12 -> days_before_month y m + days_in_month y m <= year_length y.
Proof.
  intros H. unfold year_length.
  each_month m H; unfold days_before_month, days_in_month; simpl;
    destruct (is_leap y); lia.
Qed.

Lemma days_before_next_year (y : Z) :
  days_before_year (y + 1) = days_before_year y + year_length y.
Proof.
  unfold days_before_year, year_length, is_leap.
  replace (y + 1 - 1) with y by lia.
  destruct (Z.eqb_spec (y mod 4) 0), (Z.eqb_spec (y mod 100) 0),
    (Z.eqb_spec (y mod 400) 0); simpl; Z.div_mod_to_equations; lia.
Qed.

Lemma days_before_year_mono (y1 y2 : Z) :
  y1 < y2 -> days_before_year y1 + year_length y1 <= days_before_year y2.
Proof.
  intros H. rewrite <- days_before_next_year.
  unfold days_before_year. Z.div_mod_to_equations. lia.
Qed.

Lemma toordinal_bounds (a : datetime) :
  valid a = true ->
  days_before_year (year a) + days_before_month (year a) (month a) + 1 <= toordinal a
  /\ toordinal a
     <= days_before_year (year a) + days_before_month (year a) (month a)
        + days_in_month (year a) (month a).
Proof.
  intros Ha. apply valid_date_bounds in Ha. unfold toordinal. lia.
Qed.

Lemma days_before_month_nonneg (y m : Z) : 1 <= m <= 12 -> 0 <= days_before_month y m.
Proof.
  intros H. each_month m H; unfold days_before_month; simpl; destruct (is_leap y); lia.
Qed.

(** The order on dates is the order of their ordinals. *)
Lemma datetime_leb_ordinal (a b : datetime) :
  valid a = true -> valid b = true ->
  datetime_leb a b = (toordinal a <=? toordinal b).
Proof.
  intros Ha Hb.
  pose proof (toordinal_bounds a Ha) as [La Ua].
  pose proof (toordinal_bounds b Hb) as [Lb Ub].
  apply valid_date_bounds in Ha. apply valid_date_bounds in Hb.
  destruct Ha as (_ & Hma & Hda). destruct Hb as (_ & Hmb & Hdb).
  pose proof (year_end (year a) (month a) Hma) as Ea.
  pose proof (year_end (year b) (month b) Hmb) as Eb.
  pose proof (days_before_month_nonneg (year a) (month a) Hma) as Na.
  pose proof (days_before_month_nonneg (year b) (month b) Hmb) as Nb.
  unfold datetime_leb.
  destruct (Z.compare_spec (year a) (year b)) as [Hy|Hy|Hy].
  - destruct (Z.compare_spec (month a) (month b)) as [Hm|Hm|Hm].
    + unfold toordinal. rewrite Hy, Hm.
      destruct (Z.leb_spec (day a) (day b)); symmetry;
        [apply Z.leb_le | apply Z.leb_gt]; lia.
    + symmetry. apply Z.leb_le.
      pose proof (days_before_month_mono (year a) (month a) (month b)
                    ltac:(lia) Hm ltac:(lia)) as Hmono.
      rewrite Hy in *. lia.
    + symmetry. apply Z.leb_gt.
      pose proof (days_before_month_mono (year b) (month b) (month a)
                    ltac:(lia) Hm ltac:(lia)) as Hmono.
      rewrite Hy in *. lia.
  - symmetry. apply Z.leb_le.
    pose proof (days_before_year_mono _ _ Hy). lia.
  - symmetry. apply Z.leb_gt.
    pose proof (days_before_year_mono _ _ Hy). lia.
Qed.

Lemma toordinal_injective (a b : datetime) :
  valid a = true -> valid b = true -> toordinal a = toordinal b -> a = b.
Proof.
  intros Ha Hb Heq.
  pose proof (datetime_leb_ordinal a b Ha Hb) as Hab.
  pose proof (datetime_leb_ordinal b a Hb Ha) as Hba.
  rewrite Heq, Z.leb_refl in Hab. rewrite Heq, Z.leb_refl in Hba.
  unfold datetime_leb in Hab, Hba.
  destruct a as [ya ma da], b as [yb mb db]. simpl in *.
  destruct (Z.compare_spec ya yb); try discriminate;
    destruct (Z.compare_spec yb ya); try discriminate; try lia.
  destruct (Z.compare_spec ma mb); try discriminate;
    destruct (Z.compare_spec mb ma); try discriminate; try lia.
  apply Z.leb_le in Hab, Hba. f_equal; lia.
Qed.

(** ** The bootstrap *)

Lemma initialize_loop_more_fuel (fuel k : nat) :
  forall current_date end_date w w',
    initialize_loop fuel current_date end_date w = (Ok tt, w') ->
    initialize_loop (fuel + k) current_date end_date w = (Ok tt, w').
Proof.
  induction fuel as [|fuel IH]; intros c e w w' Hrun.
  - simpl in Hrun. destruct (datetime_leb c e) eqn:Hle; [discriminate|].
    destruct k; simpl; rewrite Hle; exact Hrun.
  - simpl in Hrun |- *. destruct (datetime_leb c e) eqn:Hle; [|exact Hrun].
    unfold mbind, M_bind in Hrun |- *.
    destruct (writerow _ w) as [[[]|ex|] w1]; try discriminate.
    destruct (lift (add_one_day c) w1) as [[next|ex|] w2]; try discriminate.
    apply IH, Hrun.
Qed.

Lemma initialize_csv_run (w : world) :
  initialize_csv 549 w
  = (Ok tt, with_csv w (csv_header :: map blank_row (days_from 549 first_day))).
Proof. vm_compute. reflexivity. Qed.

Lemma initialize_csv_unfold (fuel : nat) (w : world) :
  initialize_csv fuel w
  = initialize_loop fuel first_day last_day (with_csv w [csv_header]).
Proof. reflexivity. Qed.

Lemma initialize_csv_enough_fuel (fuel : nat) (w : world) :
  (549 <= fuel)%nat ->
  initialize_csv fuel w
  = (Ok tt, with_csv w (csv_header :: map blank_row (days_from 549 first_day))).
Proof.
  intros Hfuel.
  pose proof (initialize_csv_run w) as Hrun.
  rewrite initialize_csv_unfold in Hrun |- *.
  replace fuel with (549 + (fuel - 549))%nat by lia.
  exact (initialize_loop_more_fuel 549 (fuel - 549) _ _ _ _ Hrun).
Qed.

Lemma range_sorted (a : Z) (n i : nat) :
  StronglySorted Z.lt (map (fun k => a + Z.of_nat k) (seq i n)).
Proof.
  revert i. induction n as [|n IH]; intros i; simpl; constructor.
  - apply IH.
  - apply Forall_forall. intros z Hz.
    apply list_elem_of_In, in_map_iff in Hz. destruct Hz as (k & <- & Hk).
    apply in_seq in Hk. lia.
Qed.

Lemma sorted_by_ordinal (days : list datetime) :
  Forall (fun d => valid d = true) days ->
  StronglySorted Z.lt (map toordinal days) ->
  StronglySorted datetime_lt days.
Proof.
  induction 1 as [|d days Hd Hdays IH]; intros Hs; [constructor|].
  simpl in Hs. apply StronglySorted_inv in Hs. destruct Hs as [Hs Hall].
  constructor; [apply IH, Hs|].
  rewrite Forall_forall in Hdays. rewrite Forall_forall in Hall.
  apply Forall_forall. intros d' Hd'.
  unfold datetime_lt. rewrite datetime_leb_ordinal by auto.
  apply Z.leb_gt. apply Hall.
  apply list_elem_of_In, in_map, list_elem_of_In, Hd'.
Qed.

Lemma bootstrap_days_ordinals :
  map toordinal (days_from 549 first_day) = py_range 739433 739982.
Proof. vm_compute. reflexivity. Qed.

Lemma bootstrap_days_valid :
  Forall (fun d => valid d = true) (days_from 549 first_day).
Proof.
  apply Forall_forall. intros d Hd. apply list_elem_of_In in Hd.
  revert d Hd. apply forallb_forall. vm_compute. reflexivity.
Qed.

Lemma bootstrap_days_format :
  Forall (fun d => is_ymd_text (strftime_ymd d) = true) (days_from 549 first_day).
Proof.
  apply Forall_forall. intros d Hd. apply list_elem_of_In in Hd.
  revert d Hd. apply forallb_forall. vm_compute. reflexivity.
Qed.

Lemma bootstrap_days_range :
  calendar_range first_day last_day (days_from 549 first_day).
Proof.
  pose proof bootstrap_days_ordinals as Hord.
  pose proof bootstrap_days_valid as Hvalid.
  assert (Hfirst : valid first_day = true) by reflexivity.
  assert (Hlast : valid last_day = true) by reflexivity.
  split.
  - intros d. split.
    + intros Hin.
      assert (Hv : valid d = true).
      { rewrite Forall_forall in Hvalid. apply Hvalid, list_elem_of_In, Hin. }
      assert (Ho : In (toordinal d) (py_range 739433 739982)).
      { rewrite <- Hord. apply in_map, Hin. }
      unfold py_range in Ho. apply in_map_iff in Ho. destruct Ho as (k & Hk & Hr).
      apply in_seq in Hr.
      split; [exact Hv|].
      rewrite !datetime_leb_ordinal by assumption.
      change (toordinal first_day) with 739433.
      change (toordinal last_day) with 739981.
      split; apply Z.leb_le; lia.
    + intros (Hv & Hlo & Hhi).
      rewrite datetime_leb_ordinal in Hlo, Hhi by assumption.
      change (toordinal first_day) with 739433 in Hlo.
      change (toordinal last_day) with 739981 in Hhi.
      apply Z.leb_le in Hlo, Hhi.
      assert (Ho : In (toordinal d) (map toordinal (days_from 549 first_day))).
      { rewrite Hord. unfold py_range. apply in_map_iff.
        exists (Z.to_nat (toordinal d - 739433)). split; [lia|].
        apply in_seq. lia. }
      apply in_map_iff in Ho. destruct Ho as (d' & Heq & Hin).
      rewrite Forall_forall in Hvalid.
      assert (Hv' : valid d' = true) by (apply Hvalid, list_elem_of_In, Hin).
      rewrite <- (toordinal_injective d' d Hv' Hv Heq). exact Hin.
  - apply sorted_by_ordinal; [exact Hvalid|].
    rewrite Hord. apply range_sorted.
Qed.


(** ** Commands *)

Lemma keeps_csv_bind {A B} (c : M A) (k : A -> M B) :
  keeps_csv c -> (forall a, keeps_csv (k a)) -> keeps_csv (c ≫= k).
Proof.
  intros Hc Hk w. unfold mbind, M_bind.
  specialize (Hc w). destruct (c w) as [[a|e|] w1]; simpl in *; try exact Hc.
  rewrite Hk. exact Hc.
Qed.

Lemma keeps_csv_ret {A} (a : A) : keeps_csv (mret a : M A).
Proof. intros w. reflexivity. Qed.

Lemma keeps_csv_lift {A} (r : result A) : keeps_csv (lift r).
Proof. intros w. reflexivity. Qed.

Lemma keeps_csv_print (s : string) : keeps_csv (print s).
Proof. intros w. reflexivity. Qed.

Lemma keeps_csv_savefig (fig : figure) : keeps_csv (savefig fig).
Proof. intros w. reflexivity. Qed.

Lemma keeps_csv_show (fig : figure) : keeps_csv (show_figure fig).
Proof. intros w. reflexivity. Qed.

Lemma keeps_csv_read : keeps_csv read_weight_data.
Proof.
  apply keeps_csv_bind.
  - intros w. unfold read_csv. destruct (csv_file w) eqn:Hfile; simpl; congruence.
  - intros records. apply keeps_csv_lift.
Qed.

Create HintDb keeps.
#[local] Hint Resolve keeps_csv_ret keeps_csv_lift keeps_csv_print keeps_csv_savefig
  keeps_csv_show keeps_csv_read : keeps.

(** Walks through a command built from binds, case splits and the commands
    above. *)
Ltac keeps_walk :=
  repeat first
    [ solve [auto with keeps]
    | apply keeps_csv_bind; [|intros ?]
    | match goal with
      | |- keeps_csv (let '(_, _) := ?p in _) => destruct p
      | |- keeps_csv (match ?x with _ => _ end) => destruct x
      | |- keeps_csv (if ?b then _ else _) => destruct b
      end ].

Section ScriptProofs.

Context {lm : libm}.
Variable spline : Type.
Variable UnivariateSpline : list Z -> list pyfloat -> pyfloat -> result spline.
Variable spline_call : spline -> list Z -> list pyfloat.

Let plot_smoothed' := plot_smoothed spline UnivariateSpline spline_call.
Let create_plots' := create_plots spline UnivariateSpline spline_call.
Let analyse' := analyse spline UnivariateSpline spline_call.
Let main' := main spline UnivariateSpline spline_call.

(** *** The smoothed chart *)

Lemma plot_same_length (ax : list artist) xs ys fmt lw alpha label :
  List.length xs = List.length ys ->
  plot ax xs ys fmt lw alpha label = Ok (ax ++ [Line xs ys fmt lw alpha label])%list.
Proof. intros H. unfold plot. rewrite H, Nat.eqb_refl. reflexivity. Qed.

Lemma plot_smoothed_few (dates : list datetime) (weights : list pyfloat) :
  len weights < 4 -> plot_smoothed' dates weights = Ok fallback_chart.
Proof.
  intros H. unfold plot_smoothed', plot_smoothed.
  replace (3 <? len weights) with false by (symmetry; apply Z.ltb_ge; lia).
  reflexivity.
Qed.

Lemma plot_smoothed_many (dates : list datetime) (weights : list pyfloat) (spl : spline) :
  4 <= len weights ->
  List.length dates = List.length weights ->
  UnivariateSpline (map toordinal dates) weights (smoothing_factor weights) = Ok spl ->
  List.length (spline_call spl (map toordinal dates)) = List.length dates ->
  plot_smoothed' dates weights
  = Ok (spline_chart dates weights (spline_call spl (map toordinal dates))).
Proof.
  intros H Hlen Hfit Hcurve. unfold plot_smoothed', plot_smoothed.
  replace (3 <? len weights) with true by (symmetry; apply Z.ltb_lt; lia).
  fold (smoothing_factor weights). rewrite Hfit. cbn [mbind result_bind].
  rewrite plot_same_length by (symmetry; exact Hcurve). cbn [mbind result_bind].
  rewrite plot_same_length by exact Hlen. reflexivity.
Qed.

Lemma plot_smoothed_fit_fails (dates : list datetime) (weights : list pyfloat) (e : exn) :
  4 <= len weights ->
  UnivariateSpline (map toordinal dates) weights (smoothing_factor weights) = Raise e ->
  plot_smoothed' dates weights = Raise e.
Proof.
  intros H Hfit. unfold plot_smoothed', plot_smoothed.
  replace (3 <? len weights) with true by (symmetry; apply Z.ltb_lt; lia).
  fold (smoothing_factor weights). rewrite Hfit. reflexivity.
Qed.

Lemma fallback_chart_no_spline : ~ draws_spline fallback_chart.
Proof.
  intros (xs & ys & fmt & lw & alpha & Hin).
  simpl in Hin. destruct Hin as [H|[H|[]]]; discriminate H.
Qed.

Lemma fallback_chart_shows : shows_fallback fallback_chart.
Proof. exists (Qc_of 0.5), (Qc_of 0.5). left. reflexivity. Qed.

(** What [plot_smoothed] returns tells on which side of four points the
    data was. *)
Lemma plot_smoothed_shape (dates : list datetime) (weights : list pyfloat)
    (ax : list artist) :
  plot_smoothed' dates weights = Ok ax ->
  (draws_spline ax <-> 4 <= len weights) /\ (shows_fallback ax <-> len weights < 4).
Proof.
  intros Hrun. destruct (Z.ltb_spec 3 (len weights)) as [Hmany|Hfew].
  - unfold plot_smoothed', plot_smoothed in Hrun.
    replace (3 <? len weights) with true in Hrun by (symmetry; apply Z.ltb_lt; lia).
    destruct (UnivariateSpline _ _ _) as [spl|e|]; cbn [mbind result_bind] in Hrun;
      try discriminate.
    destruct (plot [] dates _ _ _ _ _) as [a1|e|] eqn:Hp1;
      cbn [mbind result_bind] in Hrun; try discriminate.
    destruct (plot a1 dates weights _ _ _ _) as [a2|e|] eqn:Hp2;
      cbn [mbind result_bind] in Hrun; try discriminate.
    injection Hrun as <-.
    unfold plot in Hp1, Hp2.
    destruct (_ =? _)%nat in Hp1; [|discriminate]. injection Hp1 as <-.
    destruct (_ =? _)%nat in Hp2; [|discriminate]. injection Hp2 as <-.
    split; split; intros H; try lia.
    + eexists _, _, _, _, _. left. reflexivity.
    + exfalso. destruct H as (x & y & Hin). simpl in Hin.
      repeat (destruct Hin as [Hin|Hin]; [discriminate Hin|]). exact Hin.
  - rewrite plot_smoothed_few in Hrun by lia. injection Hrun as <-.
    split; split; intros H; try lia.
    + exfalso. exact (fallback_chart_no_spline H).
    + exact fallback_chart_shows.
Qed.

(** *** [create_plots] *)

Lemma create_plots_figure (dates : list datetime) (weights changes : list pyfloat)
    (w w' : world) :
  create_plots' dates weights changes w = (Ok tt, w') ->
  exists fig, png_file w' = Some fig /\ plot_smoothed' dates weights = Ok (ax2 fig).
Proof.
  unfold create_plots', create_plots, plot_smoothed', mbind, M_bind, lift, savefig,
    show_figure.
  destruct (plot_raw dates weights) as [a1|e|]; try discriminate.
  destruct (plot_smoothed _ _ _ dates weights) as [a2|e|]; try discriminate.
  destruct (plot_changes dates changes) as [a3|e|]; try discriminate.
  intros H. injection H as <-. eexists. split; reflexivity.
Qed.

Lemma keeps_csv_create_plots dates weights changes :
  keeps_csv (create_plots' dates weights changes).
Proof. unfold create_plots', create_plots. keeps_walk. Qed.

(** *** [main] *)

Lemma keeps_csv_analyse : keeps_csv analyse'.
Proof.
  pose proof keeps_csv_create_plots as Hplots. unfold create_plots' in Hplots.
  unfold analyse', analyse. keeps_walk.
Qed.

Lemma main_with_file (fuel : nat) (w : world) (records : list (list string)) :
  csv_file w = Some records -> main' fuel w = analyse' w.
Proof.
  intros Hfile. unfold main', main, mbind at 1, M_bind, csv_exists.
  rewrite Hfile. reflexivity.
Qed.

Lemma main_without_file (fuel : nat) (w : world) :
  csv_file w = None -> (549 <= fuel)%nat ->
  main' fuel w
  = (Ok tt,
     with_output (with_csv w (csv_header :: map blank_row (days_from 549 first_day)))
       ["CSV file created: weight_data.csv";
        "Please fill in the weight data and run the program again."]).
Proof.
  intros Hfile Hfuel. unfold main', main, mbind at 1, M_bind at 1, csv_exists.
  rewrite Hfile. cbn [bool_decide negb].
  replace (negb (bool_decide (is_Some (@None (list (list string)))))) with true
    by reflexivity.
  unfold mbind at 1, M_bind at 1.
  rewrite (initialize_csv_enough_fuel fuel w Hfuel).
  generalize (csv_header :: map blank_row (days_from 549 first_day)). intros rows.
  unfold mbind, M_bind, print, mret, M_ret, with_output, with_csv.
  cbn [csv_file stdout png_file shown]. rewrite <- app_assoc. reflexivity.
Qed.

Lemma analyse_no_data (w : world) (records : list (list string)) (dates : list datetime) :
  csv_file w = Some records ->
  parse_weight_data records = Ok (dates, []) ->
  analyse' w = (Ok tt, with_output w ["No weight data found in the CSV file."]).
Proof.
  intros Hfile Hparse.
  unfold analyse', analyse, read_weight_data, read_csv, lift, mbind, M_bind.
  rewrite Hfile, Hparse. reflexivity.
Qed.

End ScriptProofs.

(** ** Cells that are not numbers *)

Lemma omap_ext_in {A B} (f g : A -> option B) (l : list A) :
  (forall a, In a l -> f a = g a) -> omap f l = omap g l.
Proof.
  induction l as [|a l IH]; intros H; [reflexivity|].
  cbn [omap list_omap]. rewrite (H a) by (left; reflexivity).
  rewrite IH by (intros b Hb; apply H; right; exact Hb). reflexivity.
Qed.

Lemma omap_nil_all {A B} (f : A -> option B) (l : list A) :
  (forall a, In a l -> f a = None) -> omap f l = [].
Proof.
  induction l as [|a l IH]; intros H; [reflexivity|].
  cbn [omap list_omap]. rewrite (H a) by (left; reflexivity).
  apply IH. intros b Hb. apply H. right. exact Hb.
Qed.

(** One turn of the outer loop, on a row that has the columns. *)
Lemma read_rows_cons (row : gmap string (option string))
    (rest : list (gmap string (option string))) dates daily_weights :
  has_columns row ->
  read_rows (row :: rest) dates daily_weights
  = match numeric_values row with
    | [] => read_rows rest dates daily_weights
    | (_ :: _) as values =>
        d ← strptime_cell (date_cell row);
        read_rows rest (dates ++ [d])%list
          (daily_weights ++ [rounded_mean values])%list
    end.
Proof.
  intros Hrow. cbn [read_rows].
  pose proof Hrow as Hcols. unfold has_columns in Hcols.
  apply Forall_cons in Hcols. destruct Hcols as [[c Hc] _].
  unfold getitem. rewrite Hc. cbn [mbind result_bind].
  rewrite (collect_weights_row row Hrow). cbn [mbind result_bind].
  replace (date_cell row) with c by (unfold date_cell; rewrite Hc; reflexivity).
  destruct (numeric_values row) as [|v vs] eqn:Hvs; [reflexivity|].
  rewrite fdiv_by_count
    by (pose proof (numeric_values_length row) as Hn; rewrite Hvs in Hn;
        simpl in Hn |- *; lia).
  reflexivity.
Qed.

Lemma weight_key_not_date (i : Z) :
  In i (py_range 1 5) -> weight_index_key i <> "Date".
Proof.
  change (py_range 1 5) with [1; 2; 3; 4].
  intros [<-|[<-|[<-|[<-|[]]]]]; discriminate.
Qed.

Lemma has_columns_insert (row : gmap string (option string)) (k : string)
    (c : option string) :
  has_columns row -> has_columns (<[k := c]> row).
Proof.
  unfold has_columns. intros H. eapply Forall_impl; [exact H|].
  intros key Hkey. simpl. destruct (decide (k = key)) as [->|Hne].
  - rewrite lookup_insert_eq. eauto.
  - rewrite lookup_insert_ne by exact Hne. exact Hkey.
Qed.

Lemma numeric_values_blanked (row : gmap string (option string)) (k s : string) :
  row !! k = Some (Some s) -> float_of_string s = None ->
  numeric_values (<[k := Some ""]> row) = numeric_values row.
Proof.
  intros Hk Hs. unfold numeric_values. apply omap_ext_in. intros key _.
  destruct (decide (k = key)) as [<-|Hne].
  - rewrite lookup_insert_eq, Hk. simpl. rewrite Hs. reflexivity.
  - rewrite lookup_insert_ne by exact Hne. reflexivity.
Qed.

Lemma read_rows_blanked (row : gmap string (option string))
    (rest : list (gmap string (option string))) dates daily_weights (i : Z) (s : string) :
  has_columns row -> In i (py_range 1 5) ->
  row !! weight_index_key i = Some (Some s) -> float_of_string s = None ->
  read_rows (row :: rest) dates daily_weights
  = read_rows (<[weight_index_key i := Some ""]> row :: rest) dates daily_weights.
Proof.
  intros Hrow Hi Hcell Hs.
  rewrite (read_rows_cons row) by exact Hrow.
  rewrite (read_rows_cons (<[_ := _]> row)) by (apply has_columns_insert, Hrow).
  rewrite (numeric_values_blanked row _ s Hcell Hs).
  unfold date_cell. rewrite lookup_insert_ne by (apply weight_key_not_date, Hi).
  reflexivity.
Qed.

Lemma read_rows_skips (row : gmap string (option string))
    (rest : list (gmap string (option string))) dates daily_weights :
  has_columns row ->
  (forall k c, In k weight_keys -> row !! k = Some c -> numeric_value c = None) ->
  read_rows (row :: rest) dates daily_weights = read_rows rest dates daily_weights.
Proof.
  intros Hrow Hcells. rewrite read_rows_cons by exact Hrow.
  replace (numeric_values row) with (@nil pyfloat); [reflexivity|].
  symmetry. unfold numeric_values. apply omap_nil_all. intros k Hk.
  destruct (row !! k) as [c|] eqn:Hc; [|reflexivity].
  simpl. apply (Hcells k c Hk Hc).
Qed.

Lemma reads_back_spec (d : datetime) :
  reads_back d = true -> strptime_ymd (strftime_ymd d) = Ok d.
Proof.
  unfold reads_back. destruct (strptime_ymd (strftime_ymd d)) as [d'|e|];
    try discriminate.
  intros H. apply andb_prop in H. destruct H as [H Hd].
  apply andb_prop in H. destruct H as [Hy Hm].
  apply Z.eqb_eq in Hy, Hm, Hd. destruct d, d'. simpl in *. congruence.
Qed.

Lemma bootstrap_days_read_back :
  Forall (fun d => is_ymd_text (strftime_ymd d) = true
                   /\ strptime_ymd (strftime_ymd d) = Ok d)
    (days_from 549 first_day).
Proof.
  apply Forall_forall. intros d Hd. apply list_elem_of_In in Hd. split.
  - pose proof bootstrap_days_format as H. rewrite Forall_forall in H.
    apply H, list_elem_of_In, Hd.
  - apply reads_back_spec. revert d Hd. apply forallb_forall.
    vm_compute. reflexivity.
Qed.

(** ** The example table *)

Lemma parse_example_row (date : string) (d : datetime) :
  strptime_ymd date = Ok d ->
  parse_weight_data [csv_header; [date; "70"; ""; "71"; ""]]
  = Ok ([d], [float_of_Q 70.5]).
Proof.
  intros Hd.
  set (row := dict_row csv_header [date; "70"; ""; "71"; ""]).
  change (read_rows [row] [] [] = Ok ([d], [float_of_Q 70.5])).
  assert (Hrow : has_columns row).
  { unfold has_columns. apply Forall_forall. intros k Hk.
    apply dict_row_columns. apply list_elem_of_In. exact Hk. }
  rewrite read_rows_cons by exact Hrow.
  assert (Hvalues : numeric_values row = [float_of_Q 70; float_of_Q 71])
    by (vm_compute; reflexivity).
  assert (Hdate : date_cell row = Some date) by (vm_compute; reflexivity).
  rewrite Hvalues, Hdate. cbn [strptime_cell]. rewrite Hd.
  cbn [mbind result_bind read_rows app].
  assert (Hmean : rounded_mean [float_of_Q 70; float_of_Q 71] = float_of_Q 70.5)
    by (vm_compute; reflexivity).
  rewrite Hmean. reflexivity.
Qed.

Lemma read_example_world :
  read_weight_data example_world
  = (Ok ([mk_datetime 2025 7 1], [float_of_Q 70.5]), example_world).
Proof.
  unfold read_weight_data, read_csv, lift, mbind, M_bind, example_world.
  cbn [csv_file]. unfold example_records.
  rewrite (parse_example_row "2025.07.01" (mk_datetime 2025 7 1) eq_refl).
  reflexivity.
Qed.

Lemma parse_bootstrapped_file :
  parse_weight_data (csv_header :: map blank_row (days_from 549 first_day))
  = Ok ([], []).
Proof. vm_compute. reflexivity. Qed.

(** The parser only appends, and to both lists at once. *)
Lemma read_rows_appends (rows : list (gmap string (option string))) :
  forall dates daily_weights dates' daily_weights',
    read_rows rows dates daily_weights = Ok (dates', daily_weights') ->
    exists new_dates new_weights,
      dates' = (dates ++ new_dates)%list
      /\ daily_weights' = (daily_weights ++ new_weights)%list
      /\ List.length new_dates = List.length new_weights.
Proof.
  induction rows as [|row rows IH]; intros dates ws dates' ws' Hrun.
  - simpl in Hrun. injection Hrun as <- <-. exists [], [].
    rewrite !app_nil_r. auto.
  - cbn [read_rows] in Hrun.
    destruct (getitem row "Date") as [c|e|]; cbn [mbind result_bind] in Hrun;
      try discriminate.
    destruct (collect_weights row (py_range 1 5) []) as [weights|e|];
      cbn [mbind result_bind] in Hrun; try discriminate.
    destruct weights as [|v vs].
    + apply IH, Hrun.
    + destruct (fdiv _ _) as [avg|e|]; cbn [mbind result_bind] in Hrun;
        try discriminate.
      destruct (strptime_cell c) as [d|e|]; cbn [mbind result_bind] in Hrun;
        try discriminate.
      destruct (IH _ _ _ _ Hrun) as (nd & nw & -> & -> & Hlen).
      exists (d :: nd), (avg :: nw). rewrite <- !app_assoc. simpl.
      auto.
Qed.

(** ** One day after another *)

Lemma year_end_december (y : Z) :
  days_before_month y 12 + days_in_month y 12 = year_length y.
Proof.
  unfold days_before_month, days_in_month, year_length. simpl.
  destruct (is_leap y); reflexivity.
Qed.

Lemma days_in_month_pos (y m : Z) : 1 <= m <= 12 -> 28 <= days_in_month y m <= 31.
Proof.
  intros H. each_month m H; unfold days_in_month; simpl; destruct (is_leap y); lia.
Qed.

Lemma toordinal_max_day : toordinal max_day = 3652059.
Proof. reflexivity. Qed.

Lemma toordinal_le_max (d : datetime) :
  valid d = true -> toordinal d <= toordinal max_day.
Proof.
  intros Hd. assert (Hmax : valid max_day = true) by reflexivity.
  apply Z.leb_le. rewrite <- datetime_leb_ordinal by assumption.
  apply valid_date_bounds in Hd. destruct Hd as (Hy & Hm & Hday).
  pose proof (days_in_month_pos (year d) (month d) Hm) as Hdim.
  unfold datetime_leb, max_day, MAXYEAR. simpl.
  destruct (Z.compare_spec (year d) 9999); try reflexivity; try lia.
  destruct (Z.compare_spec (month d) 12); try reflexivity; lia.
Qed.

(** The day after a valid date is a valid date, the next in the calendar. *)
Lemma add_one_day_next (d : datetime) :
  valid d = true -> toordinal d < toordinal max_day ->
  exists next, add_one_day d = Ok next
               /\ valid next = true /\ toordinal next = toordinal d + 1.
Proof.
  intros Hd Hlt. pose proof Hd as Hb. apply valid_date_bounds in Hb.
  destruct Hb as (Hy & Hm & Hday).
  pose proof (days_in_month_pos (year d) (month d) Hm) as Hdim.
  unfold add_one_day.
  destruct (Z.ltb_spec (day d) (days_in_month (year d) (month d))) as [Hin|Hlast].
  - eexists. split; [reflexivity|]. split.
    + unfold valid, valid_date, MINYEAR, MAXYEAR. simpl.
      repeat (apply andb_true_intro; split); apply Z.leb_le; lia.
    + unfold toordinal. simpl. lia.
  - destruct (Z.ltb_spec (month d) 12) as [Hmonth|Hdec].
    + eexists. split; [reflexivity|].
      pose proof (days_in_month_pos (year d) (month d + 1) ltac:(lia)) as Hnext.
      split.
      * unfold valid, valid_date, MINYEAR, MAXYEAR. simpl.
        repeat (apply andb_true_intro; split); apply Z.leb_le; lia.
      * unfold toordinal. simpl.
        rewrite days_before_next_month by lia. lia.
    + assert (Hm12 : month d = 12) by lia.
      assert (Hyear : year d < 9999).
      { destruct (Z.ltb_spec (year d) 9999) as [H|H]; [exact H|exfalso].
        assert (Hy9 : year d = 9999) by lia.
        destruct d as [y m dd]. simpl in *. subst y m.
        change (days_in_month 9999 12) with 31 in *.
        assert (Hdd : dd = 31) by lia. subst dd.
        vm_compute in Hlt. discriminate Hlt. }
      replace (year d <? MAXYEAR) with true
        by (symmetry; apply Z.ltb_lt; unfold MAXYEAR; lia).
      eexists. split; [reflexivity|]. split.
      * unfold valid, valid_date, MINYEAR, MAXYEAR. simpl.
        repeat (apply andb_true_intro; split); apply Z.leb_le; lia.
      * unfold toordinal. simpl. rewrite days_before_next_year.
        pose proof (year_end_december (year d)) as Hdec'.
        rewrite Hm12 in *.
        replace (days_before_month (year d + 1) 1) with 0
          by (unfold days_before_month; simpl; reflexivity).
        lia.
Qed.

Lemma days_from_calendar (n : nat) :
  forall d, valid d = true -> toordinal d + Z.of_nat n - 1 <= toordinal max_day ->
    map toordinal (days_from n d) = map (fun k => toordinal d + Z.of_nat k) (seq 0 n)
    /\ Forall (fun x => valid x = true) (days_from n d).
Proof.
  induction n as [|n IH]; intros d Hd Hmax; [split; constructor|].
  cbn [days_from]. destruct n as [|n].
  - cbn [days_from]. destruct (add_one_day d); simpl;
      (split; [f_equal; lia | repeat constructor; exact Hd]).
  - destruct (add_one_day_next d Hd ltac:(lia)) as (next & Hnext & Hv & Hord).
    rewrite Hnext. destruct (IH next Hv ltac:(lia)) as [Hmap Hall].
    split.
    + change (seq 0 (S (S n))) with (0%nat :: seq 1 (S n)).
      rewrite !map_cons, Hmap. f_equal; [lia|].
      rewrite <- (seq_shift (S n) 0), map_map. apply map_ext. intros k. lia.
    + constructor; assumption.
Qed.

Lemma days_from_range (first last : datetime) :
  valid first = true -> valid last = true ->
  calendar_range first last (days_from (days_between first last) first).
Proof.
  intros Hfirst Hlast. unfold days_between.
  set (n := Z.to_nat (toordinal last - toordinal first + 1)).
  pose proof (toordinal_le_max first Hfirst) as Hmf.
  pose proof (toordinal_le_max last Hlast) as Hml.
  destruct (days_from_calendar n first Hfirst ltac:(lia)) as [Hord Hvalid].
  split.
  - intros d. split.
    + intros Hin.
      assert (Hv : valid d = true).
      { rewrite Forall_forall in Hvalid. apply Hvalid, list_elem_of_In, Hin. }
      assert (Ho : In (toordinal d) (map toordinal (days_from n first)))
        by (apply in_map, Hin).
      rewrite Hord in Ho. apply in_map_iff in Ho. destruct Ho as (k & Hk & Hr).
      apply in_seq in Hr.
      split; [exact Hv|].
      rewrite !datetime_leb_ordinal by assumption.
      split; apply Z.leb_le; lia.
    + intros (Hv & Hlo & Hhi).
      rewrite datetime_leb_ordinal in Hlo, Hhi by assumption.
      apply Z.leb_le in Hlo, Hhi.
      assert (Ho : In (toordinal d) (map toordinal (days_from n first))).
      { rewrite Hord. apply in_map_iff.
        exists (Z.to_nat (toordinal d - toordinal first)). split; [lia|].
        apply in_seq. lia. }
      apply in_map_iff in Ho. destruct Ho as (d' & Heq & Hin).
      rewrite Forall_forall in Hvalid.
      assert (Hv' : valid d' = true) by (apply Hvalid, list_elem_of_In, Hin).
      rewrite <- (toordinal_injective d' d Hv' Hv Heq). exact Hin.
  - apply sorted_by_ordinal; [exact Hvalid|].
    rewrite Hord. apply range_sorted.
Qed.

Lemma days_from_length (n : nat) :
  forall d, valid d = true -> toordinal d + Z.of_nat n - 1 <= toordinal max_day ->
    List.length (days_from n d) = n.
Proof.
  intros d Hd Hmax. destruct (days_from_calendar n d Hd Hmax) as [Hord _].
  apply (f_equal (@List.length Z)) in Hord.
  rewrite !length_map, length_seq in Hord. exact Hord.
Qed.

Lemma with_csv_same (w : world) (records : list (list string)) :
  csv_file w = Some records -> with_csv w records = w.
Proof. destruct w. simpl. intros ->. reflexivity. Qed.

(** The loop of the bootstrap, from any day to any day. *)
Lemma initialize_loop_spec (n : nat) :
  forall (fuel : nat) (current_date end_date : datetime) (w : world)
         (records : list (list string)),
    valid current_date = true -> valid end_date = true ->
    toordinal end_date < toordinal max_day ->
    n = days_between current_date end_date ->
    (n <= fuel)%nat ->
    csv_file w = Some records ->
    initialize_loop fuel current_date end_date w
    = (Ok tt, with_csv w (records ++ map blank_row (days_from n current_date))%list).
Proof.
  induction n as [|n IH]; intros fuel c e w records Hc He Hmax Hn Hfuel Hfile;
    unfold days_between in Hn.
  - assert (Hle : datetime_leb c e = false).
    { rewrite datetime_leb_ordinal by assumption. apply Z.leb_gt. lia. }
    destruct fuel; simpl; rewrite Hle, app_nil_r;
      rewrite with_csv_same by exact Hfile; reflexivity.
  - assert (Hle : datetime_leb c e = true).
    { rewrite datetime_leb_ordinal by assumption. apply Z.leb_le. lia. }
    destruct fuel as [|fuel]; [lia|].
    destruct (add_one_day_next c Hc ltac:(lia)) as (next & Hnext & Hv & Hord).
    cbn [initialize_loop days_from]. rewrite Hle, Hnext.
    unfold mbind at 1, M_bind at 1, writerow. rewrite Hfile.
    unfold mbind at 1, M_bind at 1, lift.
    change [strftime_ymd c; ""; ""; ""; ""] with (blank_row c).
    rewrite (IH fuel next e
               (mk_world (Some (records ++ [blank_row c])%list) (stdout w)
                  (png_file w) (shown w))
               (records ++ [blank_row c])%list Hv He Hmax
               ltac:(unfold days_between; lia) ltac:(lia) eq_refl).
    unfold with_csv. cbn [csv_file stdout png_file shown].
    rewrite <- app_assoc. reflexivity.
Qed.

(** ** Dates written and read back *)

Lemma chars_app (s1 s2 : string) : chars (s1 ++ s2) = (chars s1 ++ chars s2)%list.
Proof.
  unfold chars. induction s1 as [|c s1 IH]; simpl; [reflexivity|].
  rewrite IH. reflexivity.
Qed.

Lemma in_py_range (lo hi z : Z) : lo <= z < hi -> In z (py_range lo hi).
Proof.
  intros Hz. unfold py_range. apply in_map_iff. exists (Z.to_nat (z - lo)).
  split; [lia|]. apply in_seq. lia.
Qed.

Lemma years_text_ok : forallb year_text_ok (py_range 1000 10000) = true.
Proof. vm_compute. reflexivity. Qed.

Lemma year_text (y : Z) :
  1000 <= y <= 9999 ->
  exists a b c d,
    chars (str_of_Z y) = [a; b; c; d]
    /\ is_digit a = true /\ is_digit b = true /\ is_digit c = true
    /\ is_digit d = true /\ digits_value [a; b; c; d] = y.
Proof.
  intros Hy.
  assert (Hin : In y (py_range 1000 10000)) by (apply in_py_range; lia).
  pose proof (proj1 (forallb_forall _ _) years_text_ok y Hin) as Hok.
  unfold year_text_ok in Hok.
  destruct (chars (str_of_Z y)) as [|a [|b [|c [|d [|]]]]];
    try discriminate.
  apply andb_prop in Hok. destruct Hok as [Hok Hval].
  apply andb_prop in Hok. destruct Hok as [Hok Hd].
  apply andb_prop in Hok. destruct Hok as [Hok Hc].
  apply andb_prop in Hok. destruct Hok as [Ha Hb].
  apply Z.eqb_eq in Hval.
  exists a, b, c, d. auto 10.
Qed.

Lemma small_cases (n x : Z) :
  1 <= x <= n -> In x (map Z.of_nat (seq 1 (Z.to_nat n))).
Proof.
  intros H. apply in_map_iff. exists (Z.to_nat x). split; [lia|].
  apply in_seq. lia.
Qed.

Lemma match_ymd_after_year (a b c d : ascii) (y : Z) (rest : list ascii) :
  is_digit a = true -> is_digit b = true -> is_digit c = true -> is_digit d = true ->
  digits_value [a; b; c; d] = y ->
  match_ymd (a :: b :: c :: d :: "."%char :: rest)
  = first_match (month_alternatives rest) (fun '(m, r1) =>
      match r1 with
      | "."%char :: r2 =>
          first_match (day_alternatives r2) (fun '(dd, r3) => Some (y, m, dd, r3))
      | _ => None
      end).
Proof.
  intros Ha Hb Hc Hd Hy. unfold match_ymd, match_year.
  rewrite Ha, Hb, Hc, Hd, Hy. reflexivity.
Qed.

(** Every valid date from the year 1000 on is read back from the text
    written for it. *)
Lemma strptime_strftime (dt : datetime) :
  valid dt = true -> 1000 <= year dt -> strptime_ymd (strftime_ymd dt) = Ok dt.
Proof.
  destruct dt as [y m d]. intros Hv Hlate. pose proof Hv as Hb.
  apply valid_date_bounds in Hb. simpl in Hb, Hlate. destruct Hb as (Hy & Hm & Hd).
  pose proof (days_in_month_pos y m Hm) as Hdim.
  destruct (year_text y ltac:(lia)) as (a & b & c & d0 & Htext & Ha & Hb & Hc & Hd0 & Hval).
  assert (Hmatch : match_ymd (chars (strftime_ymd (mk_datetime y m d)))
                   = Some (y, m, d, [])).
  { unfold strftime_ymd. simpl year. simpl month. simpl day.
    rewrite chars_app, Htext.
    change ([a; b; c; d0] ++ chars ("." ++ zero_pad 2 (str_of_Z m) ++ "."
                                     ++ zero_pad 2 (str_of_Z d)))%list
      with (a :: b :: c :: d0 :: "."%char
              :: chars (zero_pad 2 (str_of_Z m) ++ "." ++ zero_pad 2 (str_of_Z d))).
    rewrite (match_ymd_after_year a b c d0 y _ Ha Hb Hc Hd0 Hval).
    pose proof (small_cases 12 m Hm) as Hmc.
    pose proof (small_cases 31 d ltac:(lia)) as Hdc.
    clear - Hmc Hdc. simpl in Hmc, Hdc.
    repeat (destruct Hmc as [<-|Hmc]);
      try (repeat (destruct Hdc as [<-|Hdc]); try reflexivity; destruct Hdc).
    destruct Hmc. }
  unfold strptime_ymd. rewrite Hmatch. unfold datetime_new.
  unfold valid in Hv. simpl in Hv. rewrite Hv. reflexivity.
Qed.

(** ** The parser, piece by piece *)

Lemma strptime_ymd_valid (s : string) (d : datetime) :
  strptime_ymd s = Ok d -> valid d = true.
Proof.
  unfold strptime_ymd. destruct (match_ymd (chars s)) as [[[[y m] dd] [|c r]]|];
    try discriminate.
  unfold datetime_new. destruct (valid_date y m dd) eqn:Hv; [|discriminate].
  intros [= <-]. exact Hv.
Qed.

Lemma read_rows_valid_dates (rows : list (gmap string (option string))) :
  forall dates daily_weights dates' daily_weights',
    read_rows rows dates daily_weights = Ok (dates', daily_weights') ->
    Forall (fun d => valid d = true) dates ->
    Forall (fun d => valid d = true) dates'.
Proof.
  induction rows as [|row rows IH]; intros dates ws dates' ws' Hrun Hvalid.
  - simpl in Hrun. injection Hrun as <- <-. exact Hvalid.
  - cbn [read_rows] in Hrun.
    destruct (getitem row "Date") as [c|e|]; cbn [mbind result_bind] in Hrun;
      try discriminate.
    destruct (collect_weights row (py_range 1 5) []) as [weights|e|];
      cbn [mbind result_bind] in Hrun; try discriminate.
    destruct weights as [|v vs].
    + eapply IH; eassumption.
    + destruct (fdiv _ _) as [avg|e|]; cbn [mbind result_bind] in Hrun;
        try discriminate.
      destruct (strptime_cell c) as [d|e|] eqn:Hd; cbn [mbind result_bind] in Hrun;
        try discriminate.
      eapply IH; [eassumption|].
      apply Forall_app. split; [exact Hvalid|]. constructor; [|constructor].
      destruct c as [s|]; [|discriminate]. apply (strptime_ymd_valid s d Hd).
Qed.

(** The lists the loop starts from are only prefixes of its result. *)
Lemma read_rows_from (rows : list (gmap string (option string))) :
  forall dates daily_weights,
    read_rows rows dates daily_weights
    = (r ← read_rows rows [] [];
       Ok (dates ++ r.1, daily_weights ++ r.2)%list).
Proof.
  induction rows as [|row rows IH]; intros dates ws.
  - simpl. rewrite !app_nil_r. reflexivity.
  - cbn [read_rows].
    destruct (getitem row "Date") as [c|e|]; cbn [mbind result_bind]; try reflexivity.
    destruct (collect_weights row (py_range 1 5) []) as [weights|e|];
      cbn [mbind result_bind]; try reflexivity.
    destruct weights as [|v vs]; [apply IH|].
    destruct (fdiv _ _) as [avg|e|]; cbn [mbind result_bind]; try reflexivity.
    destruct (strptime_cell c) as [d|e|]; cbn [mbind result_bind]; try reflexivity.
    rewrite (IH (dates ++ [d])%list), (IH ([] ++ [d])%list).
    destruct (read_rows rows [] []) as [[nd nw]|e|]; cbn [mbind result_bind];
      try reflexivity.
    simpl. rewrite <- !app_assoc. reflexivity.
Qed.

Lemma read_rows_app (rows1 rows2 : list (gmap string (option string))) :
  forall dates daily_weights,
    read_rows (rows1 ++ rows2) dates daily_weights
    = (r ← read_rows rows1 dates daily_weights; read_rows rows2 r.1 r.2).
Proof.
  induction rows1 as [|row rows1 IH]; intros dates ws; [reflexivity|].
  cbn [app read_rows].
  destruct (getitem row "Date") as [c|e|]; cbn [mbind result_bind]; try reflexivity.
  destruct (collect_weights row (py_range 1 5) []) as [weights|e|];
    cbn [mbind result_bind]; try reflexivity.
  destruct weights as [|v vs]; [apply IH|].
  destruct (fdiv _ _) as [avg|e|]; cbn [mbind result_bind]; try reflexivity.
  destruct (strptime_cell c) as [d|e|]; cbn [mbind result_bind]; try reflexivity.
  apply IH.
Qed.

Lemma DictReader_app (header : list string) (rest more : list (list string)) :
  DictReader (header :: rest ++ more)
  = (DictReader (header :: rest) ++ DictReader (header :: more))%list.
Proof. unfold DictReader. rewrite filter_app, map_app. reflexivity. Qed.

Lemma parse_weight_data_app (header : list string) (rest more : list (list string)) :
  parse_weight_data (header :: rest ++ more)
  = (r ← parse_weight_data (header :: rest);
     r' ← parse_weight_data (header :: more);
     Ok (r.1 ++ r'.1, r.2 ++ r'.2)%list).
Proof.
  unfold parse_weight_data. rewrite DictReader_app, read_rows_app.
  destruct (read_rows (DictReader (header :: rest)) [] []) as [[ds ws]|e|];
    cbn [mbind result_bind]; try reflexivity.
  apply read_rows_from.
Qed.

(** ** Missing columns *)

Lemma fold_insert_misses {A} (f : A -> string) (g : A -> option string)
    (l : list A) (m : gmap string (option string)) (k : string) :
  (forall x, In x l -> f x <> k) ->
  fold_left (fun d x => <[f x := g x]> d) l m !! k = m !! k.
Proof.
  revert m. induction l as [|x l IH]; intros m Hl; simpl; [reflexivity|].
  rewrite IH by (intros y Hy; apply Hl; right; exact Hy).
  apply lookup_insert_ne. apply Hl. left. reflexivity.
Qed.

Lemma dict_row_missing (fieldnames fields : list string) (k : string) :
  ~ In k fieldnames -> dict_row fieldnames fields !! k = None.
Proof.
  intros Hk. unfold dict_row.
  rewrite (fold_insert_misses (fun k => k) (fun _ => None)).
  - rewrite (fold_insert_misses fst (fun kv => Some kv.2)); [apply lookup_empty|].
    intros [k' v] Hin Heq. simpl in Heq. subst k'.
    apply Hk. apply list_elem_of_In. apply list_elem_of_In in Hin.
    apply (elem_of_zip_l _ _ _ _ Hin).
  - intros k' Hin Heq. subst k'. apply Hk.
    apply list_elem_of_In. apply list_elem_of_In in Hin.
    apply (subseteq_drop _ _ _ Hin).
Qed.

Lemma collect_weights_missing (row : gmap string (option string))
    (before : list Z) (i : Z) (after : list Z) :
  Forall (fun j => is_Some (row !! weight_index_key j)) before ->
  row !! weight_index_key i = None ->
  forall acc,
    collect_weights row (before ++ i :: after) acc
    = Raise (KeyError (weight_index_key i)).
Proof.
  intros Hbefore Hmiss. induction Hbefore as [|j before [c Hc] _ IH]; intros acc.
  - cbn [app collect_weights]. fold (weight_index_key i).
    unfold getitem. rewrite Hmiss. reflexivity.
  - cbn [app collect_weights]. fold (weight_index_key j).
    unfold getitem. rewrite Hc. cbn [mbind result_bind].
    destruct c as [s|]; [|apply IH].
    destruct (str_truthy s && str_truthy (strip s)); [|apply IH].
    destruct (float_of_string s); apply IH.
Qed.

Lemma read_rows_missing_column (header fields : list string) (k : string)
    (rest : list (gmap string (option string))) dates daily_weights :
  first_missing_column header = Some k ->
  read_rows (dict_row header fields :: rest) dates daily_weights = Raise (KeyError k).
Proof.
  unfold first_missing_column, csv_header. cbn [find].
  set (row := dict_row header fields).
  assert (Hin : forall key, bool_decide (key ∈ header) = true -> is_Some (row !! key)).
  { intros key H. apply bool_decide_eq_true in H.
    apply dict_row_columns, list_elem_of_In, H. }
  assert (Hout : forall key, bool_decide (key ∈ header) = false -> row !! key = None).
  { intros key H. apply bool_decide_eq_false in H.
    apply dict_row_missing. intros Hk. apply H, list_elem_of_In, Hk. }
  destruct (bool_decide ("Date" ∈ header)) eqn:Hd; cbn [negb].
  2:{ intros [= <-]. cbn [read_rows]. unfold getitem. rewrite (Hout _ Hd). reflexivity. }
  destruct (Hin _ Hd) as [c Hc].
  assert (Hstep : forall before i after,
             py_range 1 5 = (before ++ i :: after)%list ->
             Forall (fun j => is_Some (row !! weight_index_key j)) before ->
             row !! weight_index_key i = None ->
             read_rows (row :: rest) dates daily_weights
             = Raise (KeyError (weight_index_key i))).
  { intros before i after Hsplit Hbefore Hmiss. cbn [read_rows].
    unfold getitem at 1. rewrite Hc. cbn [mbind result_bind].
    rewrite Hsplit, (collect_weights_missing row before i after Hbefore Hmiss).
    reflexivity. }
  destruct (bool_decide ("Weight1" ∈ header)) eqn:H1; cbn [negb].
  2:{ intros [= <-]. apply (Hstep [] 1 [2; 3; 4] eq_refl); [constructor|].
      apply (Hout _ H1). }
  destruct (bool_decide ("Weight2" ∈ header)) eqn:H2; cbn [negb].
  2:{ intros [= <-]. apply (Hstep [1] 2 [3; 4] eq_refl).
      - repeat constructor. apply (Hin _ H1).
      - apply (Hout _ H2). }
  destruct (bool_decide ("Weight3" ∈ header)) eqn:H3; cbn [negb].
  2:{ intros [= <-]. apply (Hstep [1; 2] 3 [4] eq_refl).
      - repeat constructor; [apply (Hin _ H1) | apply (Hin _ H2)].
      - apply (Hout _ H3). }
  destruct (bool_decide ("Weight4" ∈ header)) eqn:H4; cbn [negb].
  2:{ intros [= <-]. apply (Hstep [1; 2; 3] 4 [] eq_refl).
      - repeat constructor; [apply (Hin _ H1) | apply (Hin _ H2) | apply (Hin _ H3)].
      - apply (Hout _ H4). }
  discriminate.
Qed.

Lemma first_missing_none (header : list string) :
  first_missing_column header = None <-> (forall k, In k csv_header -> In k header).
Proof.
  unfold first_missing_column. split.
  - intros Hnone k Hk.
    pose proof (find_none _ _ Hnone k Hk) as H. simpl in H.
    apply negb_false_iff, bool_decide_eq_true in H. apply list_elem_of_In, H.
  - intros Hall. destruct (find _ csv_header) as [k|] eqn:Hfind; [|reflexivity].
    apply find_some in Hfind. destruct Hfind as [Hk Hno].
    apply negb_true_iff, bool_decide_eq_false in Hno.
    exfalso. apply Hno, list_elem_of_In, Hall, Hk.
Qed.

Lemma parse_missing_column (header : list string) (rest : list (list string))
    (k : string) :
  first_missing_column header = Some k ->
  parse_weight_data (header :: rest)
  = if forallb is_blank rest then Ok ([], []) else Raise (KeyError k).
Proof.
  intros Hk. unfold parse_weight_data, DictReader.
  induction rest as [|fields rest IH]; [reflexivity|].
  cbn [forallb filter]. destruct fields as [|f fields].
  - simpl. exact IH.
  - simpl. apply read_rows_missing_column, Hk.
Qed.

(** ** What a row holds under a column name *)

Lemma fold_zip_lookup (ks vs : list string) :
  forall (m : gmap string (option string)) (i : nat) (k : string),
    NoDup ks -> ks !! i = Some k ->
    fold_left (fun d kv => <[kv.1 := Some kv.2]> d) (zip ks vs) m !! k
    = match vs !! i with
      | Some v => Some (Some v)
      | None => m !! k
      end.
Proof.
  revert vs. induction ks as [|k0 ks IH]; intros vs m i k Hnd Hi; [discriminate|].
  apply NoDup_cons in Hnd. destruct Hnd as [Hk0 Hnd].
  destruct vs as [|v0 vs].
  - simpl. destruct i; reflexivity.
  - cbn [zip zip_with fold_left]. destruct i as [|i].
    + injection Hi as <-. cbn [lookup list_lookup].
      rewrite (fold_insert_misses fst (fun kv => Some kv.2)).
      * apply lookup_insert_eq.
      * intros [k' v'] Hin Heq. simpl in Heq. subst k'.
        apply Hk0. apply list_elem_of_In in Hin. apply (elem_of_zip_l _ _ _ _ Hin).
    + cbn [lookup list_lookup] in Hi |- *.
      rewrite (IH vs _ i k Hnd Hi).
      destruct (vs !! i); [reflexivity|].
      apply lookup_insert_ne. intros <-. apply Hk0.
      apply list_elem_of_lookup. eauto.
Qed.

Lemma fold_none_lookup (l : list string) (k : string) :
  forall m : gmap string (option string),
    fold_left (fun d k => <[k := None]> d) l m !! k
    = if bool_decide (k ∈ l) then Some None else m !! k.
Proof.
  induction l as [|k0 l IH]; intros m; [reflexivity|].
  cbn [fold_left]. rewrite IH.
  destruct (bool_decide (k ∈ l)) eqn:Hl.
  - apply bool_decide_eq_true in Hl.
    rewrite bool_decide_eq_true_2 by (right; exact Hl). reflexivity.
  - apply bool_decide_eq_false in Hl. destruct (decide (k0 = k)) as [->|Hne].
    + rewrite lookup_insert_eq, bool_decide_eq_true_2 by left. reflexivity.
    + rewrite lookup_insert_ne by exact Hne.
      rewrite bool_decide_eq_false_2; [reflexivity|].
      intros Hin. apply elem_of_cons in Hin. destruct Hin as [->|Hin]; auto.
Qed.

Lemma dict_row_lookup (fieldnames fields : list string) (i : nat) (k : string) :
  NoDup fieldnames -> fieldnames !! i = Some k ->
  dict_row fieldnames fields !! k = Some (fields !! i).
Proof.
  intros Hnd Hi. unfold dict_row.
  rewrite fold_none_lookup, (fold_zip_lookup _ _ _ i k Hnd Hi), lookup_empty.
  destruct (fields !! i) as [v|] eqn:Hv.
  - rewrite bool_decide_eq_false_2; [reflexivity|].
    intros Hin. apply list_elem_of_lookup in Hin. destruct Hin as [j Hj].
    rewrite lookup_drop in Hj.
    pose proof (NoDup_lookup _ _ _ _ Hnd Hi Hj) as Heq.
    apply lookup_lt_Some in Hv. lia.
  - rewrite bool_decide_eq_true_2; [reflexivity|].
    apply lookup_ge_None in Hv.
    apply list_elem_of_lookup. exists (i - List.length fields)%nat.
    rewrite lookup_drop. rewrite <- Hi. f_equal. lia.
Qed.

(** ** The body mass index *)

Section LatestEntries.

Context {lm : libm}.

Lemma get_latest_bmi_last (ds : list datetime) (d : datetime)
    (ws : list pyfloat) (w : pyfloat) (h : Z) :
  get_latest_bmi (ds ++ [d]) (ws ++ [w]) h
  = (b ← calculate_bmi w h; Ok (Some d, Some b)).
Proof.
  unfold get_latest_bmi.
  destruct (ws ++ [w])%list as [|x xs] eqn:Hws.
  { destruct ws; discriminate. }
  rewrite <- Hws.
  rewrite (py_index_last (ds ++ [d]) d) by apply last_snoc.
  cbn [mbind result_bind].
  rewrite (py_index_last (ws ++ [w]) w) by apply last_snoc.
  cbn [mbind result_bind].
  destruct (calculate_bmi w h); reflexivity.
Qed.

Lemma get_latest_bmi_no_date (ws : list pyfloat) (w : pyfloat) (h : Z) :
  get_latest_bmi [] (ws ++ [w]) h = Raise IndexError.
Proof.
  unfold get_latest_bmi.
  destruct (ws ++ [w])%list as [|x xs] eqn:Hws; [destruct ws; discriminate|].
  reflexivity.
Qed.

End LatestEntries.

(** ** The charts *)

Lemma plot_changes_run (dates : list datetime) (weights : list pyfloat) :
  List.length dates = List.length weights ->
  plot_changes dates (first_differences weights)
  = Ok (if 2 <=? len weights
        then changes_chart dates (first_differences weights)
        else changes_fallback).
Proof.
  intros Hlen. unfold plot_changes, len.
  rewrite first_differences_length.
  destruct (Z.leb_spec 2 (Z.of_nat (List.length weights))) as [Hmany|Hfew].
  - replace (0 <? Z.of_nat (pred (List.length weights))) with true
      by (symmetry; apply Z.ltb_lt; lia).
    rewrite plot_same_length; [reflexivity|].
    rewrite length_drop, first_differences_length. lia.
  - replace (0 <? Z.of_nat (pred (List.length weights))) with false
      by (symmetry; apply Z.ltb_ge; lia).
    reflexivity.
Qed.

Lemma plot_raw_run (dates : list datetime) (weights : list pyfloat) :
  List.length dates = List.length weights ->
  plot_raw dates weights = Ok (raw_chart dates weights).
Proof.
  intros Hlen. unfold plot_raw. rewrite plot_same_length by exact Hlen. reflexivity.
Qed.

Lemma parse_weight_data_parallel (records : list (list string))
    (dates : list datetime) (weights : list pyfloat) :
  parse_weight_data records = Ok (dates, weights) ->
  List.length dates = List.length weights.
Proof.
  intros H. eapply read_rows_parallel; [exact H | reflexivity].
Qed.

Section RunProofs.

Context {lm : libm}.
Variable spline : Type.
Variable UnivariateSpline : list Z -> list pyfloat -> pyfloat -> result spline.
Variable spline_call : spline -> list Z -> list pyfloat.

Lemma create_plots_run (dates : list datetime) (weights : list pyfloat) (w : world) :
  List.length dates = List.length weights ->
  create_plots spline UnivariateSpline spline_call dates weights
    (first_differences weights) w
  = match plot_smoothed spline UnivariateSpline spline_call dates weights with
    | Ok smoothed =>
        (Ok tt,
         with_figure w
           (mk_figure (raw_chart dates weights) smoothed
              (if 2 <=? len weights
               then changes_chart dates (first_differences weights)
               else changes_fallback)))
    | Raise e => (Raise e, w)
    | OutOfFuel => (OutOfFuel, w)
    end.
Proof.
  intros Hlen. unfold create_plots, mbind, M_bind, lift.
  rewrite (plot_raw_run dates weights Hlen).
  destruct (plot_smoothed _ _ _ dates weights) as [a2|e|]; try reflexivity.
  rewrite (plot_changes_run dates weights Hlen). reflexivity.
Qed.

Lemma analyse_run (w : world) (records : list (list string))
    (dates : list datetime) (weights : list pyfloat) :
  csv_file w = Some records ->
  parse_weight_data records = Ok (dates, weights) ->
  weights <> [] ->
  exists (mx mn : pyfloat) (d : datetime) (lw b : pyfloat),
    is_maximum weights mx /\ is_minimum weights mn
    /\ last dates = Some d /\ last weights = Some lw
    /\ calculate_bmi lw HEIGHT_CM = Ok b
    /\ analyse spline UnivariateSpline spline_call w
       = (_ ← create_plots spline UnivariateSpline spline_call dates weights
                (first_differences weights);
          print "Plots saved as 'weight_analysis.png'")
           (with_output w
              (statistics_lines (np_mean weights) mx mn (List.length weights)
               ++ bmi_lines d b)%list).
Proof.
  intros Hfile Hparse Hne.
  pose proof (parse_weight_data_parallel records dates weights Hparse) as Hlen.
  destruct (get_latest_bmi_defined dates weights Hlen Hne) as (d & b & Hd & Hbmi).
  destruct weights as [|w0 ws]; [congruence|].
  destruct (last (w0 :: ws)) as [lw|] eqn:Hlw.
  2:{ apply last_None in Hlw. discriminate Hlw. }
  assert (Hb : calculate_bmi lw HEIGHT_CM = Ok b).
  { unfold get_latest_bmi in Hbmi.
    rewrite (py_index_last dates d Hd) in Hbmi. cbn [mbind result_bind] in Hbmi.
    rewrite (py_index_last (w0 :: ws) lw Hlw) in Hbmi. cbn [mbind result_bind] in Hbmi.
    destruct (calculate_bmi lw HEIGHT_CM) as [b'|e|]; cbn [mbind result_bind] in Hbmi;
      try discriminate.
    injection Hbmi as ->. reflexivity. }
  exists (fold_left np_maximum ws w0), (fold_left np_minimum ws w0), d, lw, b.
  split; [apply fold_maximum_spec|]. split; [apply fold_minimum_spec|].
  split; [exact Hd|]. split; [reflexivity|]. split; [exact Hb|].
  unfold analyse, read_weight_data, read_csv.
  unfold mbind at 1, M_bind at 1. unfold mbind at 1, M_bind at 1.
  rewrite Hfile. unfold lift at 1. rewrite Hparse.
  unfold calculate_statistics, np_max, np_min. cbn [mbind result_bind].
  rewrite Hbmi, calculate_weight_changes_spec.
  unfold bmi_lines, statistics_lines, with_output, len.
  unfold mbind, M_bind, lift, print, mret, M_ret, from_option.
  cbn [csv_file stdout png_file shown].
  destruct (float_truthy b); cbn [csv_file stdout png_file shown app];
    rewrite <- ?app_assoc; reflexivity.
Qed.

End RunProofs.

(** ** Dates before the year 1000 *)

Lemma match_year_prefix (l r : list ascii) :
  (4 <= List.length l)%nat -> match_year l = None -> match_year (l ++ r) = None.
Proof.
  destruct l as [|a [|b [|c [|d l]]]]; simpl; try lia. intros _.
  destruct (is_digit a && is_digit b && is_digit c && is_digit d);
    [discriminate | reflexivity].
Qed.

Lemma short_years : forallb (fun y => forallb (short_year y) (py_range 1 13)) (py_range 1 1000) = true.
Proof. vm_compute. reflexivity. Qed.

(** The text written for a valid date before the year 1000 is not read
    back: its year has fewer than four digits. *)
Lemma strptime_short_year (dt : datetime) :
  valid dt = true -> year dt < 1000 ->
  strptime_ymd (strftime_ymd dt) = Raise (ValueError "time data does not match format").
Proof.
  destruct dt as [y m d]. intros Hv Hearly. pose proof Hv as Hb.
  apply valid_date_bounds in Hb. simpl in Hb, Hearly. destruct Hb as (Hy & Hm & Hd).
  pose proof (proj1 (forallb_forall _ _) short_years y (in_py_range 1 1000 y ltac:(lia)))
    as Hshort.
  pose proof (proj1 (forallb_forall _ _) Hshort m (in_py_range 1 13 m ltac:(lia))) as Hym.
  unfold short_year in Hym. apply andb_prop in Hym. destruct Hym as [Hlen Hnone].
  apply Nat.leb_le in Hlen.
  unfold strptime_ymd, match_ymd, strftime_ymd. simpl year. simpl month. simpl day.
  replace (chars (str_of_Z y ++ "." ++ zero_pad 2 (str_of_Z m) ++ "."
                  ++ zero_pad 2 (str_of_Z d)))
    with (chars (str_of_Z y ++ "." ++ zero_pad 2 (str_of_Z m) ++ ".")
          ++ chars (zero_pad 2 (str_of_Z d)))%list
    by (rewrite !chars_app, <- !app_assoc; reflexivity).
  rewrite match_year_prefix; [reflexivity | exact Hlen |].
  destruct (match_year _); [discriminate Hnone | reflexivity].
Qed.

(** ** The body mass index at the heights of people *)

Lemma bmi_defined_heights : forallb bmi_defined_at (py_range 1 10001) = true.
Proof. vm_compute. reflexivity. Qed.

Section BmiProofs.

Context {lm : libm}.

Lemma calculate_bmi_defined (weight_kg : pyfloat) (height_cm : Z) :
  bmi_defined_at height_cm = true ->
  exists height_m squared : pyfloat,
    true_divide height_cm 100 = Ok height_m
    /\ fsquare height_m = Ok squared
    /\ within_one_ulp squared (height_m * height_m)%float
    /\ (square_is_exact height_m = true -> squared = (height_m * height_m)%float)
    /\ float_truthy squared = true
    /\ calculate_bmi weight_kg height_cm = Ok (weight_kg / squared)%float.
Proof.
  unfold bmi_defined_at, calculate_bmi. intros Hdef.
  destruct (true_divide height_cm 100) as [hm|e|]; try discriminate Hdef.
  apply andb_prop in Hdef. destruct Hdef as [Hfinite Hall].
  apply negb_true_iff in Hfinite.
  cbn [forallb] in Hall. rewrite andb_true_r in Hall.
  apply andb_prop in Hall. destruct Hall as [Hdown Hall].
  apply andb_prop in Hall. destruct Hall as [Hmid Hup].
  assert (Hcase : forall r,
            negb (PrimFloat.is_infinity r) && negb (PrimFloat.is_zero r) = true ->
            PrimFloat.is_infinity r = false /\ float_truthy r = true).
  { intros r Hr. apply andb_prop in Hr. destruct Hr as [Hr1 Hr2].
    apply negb_true_iff in Hr1. split; assumption. }
  apply Hcase in Hdown, Hmid, Hup.
  destruct Hdown as [Hd1 Hd2], Hmid as [Hm1 Hm2], Hup as [Hu1 Hu2].
  assert (Hsq : exists sq,
            fsquare hm = Ok sq
            /\ within_one_ulp sq (hm * hm)%float
            /\ (square_is_exact hm = true -> sq = (hm * hm)%float)
            /\ float_truthy sq = true).
  { unfold fsquare, within_one_ulp. rewrite Hfinite.
    destruct (square_is_exact hm).
    - exists (hm * hm)%float. rewrite Hm1. auto 10.
    - destruct (pow_neighbour hm).
      + exists (hm * hm)%float. rewrite Hm1. repeat split; auto; discriminate.
      + exists (PrimFloat.next_down (hm * hm)). rewrite Hd1.
        repeat split; auto; discriminate.
      + exists (PrimFloat.next_up (hm * hm)). rewrite Hu1.
        repeat split; auto; discriminate. }
  destruct Hsq as (sq & Hsq & Hulp & Hexact & Htruthy).
  exists hm, sq. repeat split; try assumption.
  cbn [mbind result_bind]. rewrite Hsq. cbn [mbind result_bind]. unfold fdiv.
  unfold float_truthy in Htruthy. apply negb_true_iff in Htruthy. rewrite Htruthy.
  reflexivity.
Qed.

End BmiProofs.

(** ** The pairwise sum *)

(** The bound on the nested splits is never reached: any two bounds from
    the length of the sequence on give one sum. *)
Lemma pairwise_sum_depth (d1 : nat) :
  forall (d2 : nat) (xs : list pyfloat),
    (List.length xs <= d1)%nat -> (List.length xs <= d2)%nat ->
    pairwise_sum d1 xs = pairwise_sum d2 xs.
Proof.
  induction d1 as [|d1 IH]; intros d2 xs H1 H2.
  - destruct xs; [|simpl in H1; lia]. destruct d2; reflexivity.
  - destruct d2 as [|d2]; [destruct xs; [reflexivity | simpl in H2; lia]|].
    cbn [pairwise_sum].
    destruct (List.length xs <? 8)%nat eqn:Hshort; [reflexivity|].
    destruct (List.length xs <=? 128)%nat eqn:Hblock; [reflexivity|].
    apply Nat.leb_gt in Hblock.
    set (n := List.length xs) in *.
    assert (Hn2 : (0 < n / 2 - (n / 2) mod 8 < n)%nat).
    { pose proof (Nat.mod_upper_bound (n / 2) 8 ltac:(lia)).
      pose proof (Nat.div_lt n 2 ltac:(lia) ltac:(lia)).
      assert (64 <= n / 2)%nat by (apply Nat.div_le_lower_bound; lia). lia. }
    rewrite (IH d2 (take _ xs)), (IH d2 (drop _ xs)); try reflexivity;
      rewrite ?length_take, ?length_drop; fold n; lia.
Qed.

(** * The claims *)

(** C1, as the specification states it, fails: the daily average is
    computed in double-precision arithmetic and is not always the arithmetic
    mean of the cells. For the cells 0.1 and 0.2 the parser returns
    0.15000000000000002, which is not the mean of the two numbers the cells
    are read as; for the cells 1e308 and 1e308 their sum overflows and the
    parser returns an infinity, although the mean of the two is 1e308 itself,
    a double. *)
Lemma C1_daily_average_is_not_always_the_mean :
  parse_weight_data
    [csv_header; ["2025.07.01"; "0.1"; "0.2"; ""; ""];
                 ["2025.07.02"; "1e308"; "1e308"; ""; ""]]
  = Ok ([mk_datetime 2025 7 1; mk_datetime 2025 7 2],
        [0.15000000000000002; PrimFloat.infinity]%float)
  /\ numeric_values (dict_row csv_header ["2025.07.01"; "0.1"; "0.2"; ""; ""])
     = [0.1; 0.2]%float
  /\ stands_for 0.15000000000000002 (arithmetic_mean [0.1; 0.2]%float) = false
  /\ numeric_values (dict_row csv_header ["2025.07.02"; "1e308"; "1e308"; ""; ""])
     = [1e308; 1e308]%float
  /\ stands_for 1e308 (arithmetic_mean [1e308; 1e308]%float) = true
  /\ stands_for PrimFloat.infinity (arithmetic_mean [1e308; 1e308]%float) = false.
Proof. repeat split; vm_compute; reflexivity. Qed.

(** C1, amended. For every row of a CSV file that has the five columns, the
    parser computes the daily average from the row's valid numeric
    measurement cells in double-precision arithmetic, as their rounded mean
    (the cells are added from left to right and the sum is divided by their
    number, each operation rounded to the nearest double), and pairs it with
    the row's date: its result is the daily series of the table (and it
    fails exactly where a date of that series cannot be read). In
    particular a row with the cells 70, "", 71, "" yields the daily average
    70.5, here the arithmetic mean of 70 and 71. *)
Theorem C1_daily_average_is_rounded_mean (header : list string)
    (rest : list (list string)) :
  (forall k, In k csv_header -> In k header) ->
  parse_weight_data (header :: rest)
  = (es ← daily_series (DictReader (header :: rest)); Ok (map fst es, map snd es))
  /\ (forall (date : string) (d : datetime),
        strptime_ymd date = Ok d ->
        parse_weight_data [csv_header; [date; "70"; ""; "71"; ""]]
        = Ok ([d], [float_of_Q 70.5]))
  /\ stands_for (float_of_Q 70.5) (arithmetic_mean [float_of_Q 70; float_of_Q 71]) = true.
Proof.
  intros Hheader. split; [|split].
  - apply parse_weight_data_spec, Hheader.
  - intros date d Hd. apply parse_example_row, Hd.
  - vm_compute. reflexivity.
Qed.

Lemma C1_example_row :
  parse_weight_data example_records = Ok ([mk_datetime 2025 7 1], [float_of_Q 70.5]).
Proof.
  destruct (C1_daily_average_is_rounded_mean csv_header
              [["2025.07.01"; "70"; ""; "71"; ""]] (fun k H => H)) as (_ & Hexample & _).
  exact (Hexample "2025.07.01" (mk_datetime 2025 7 1) eq_refl).
Defined.

(** C2, as the specification states it, fails on the empty list: the result
    of [calculate_weight_changes] is empty there, and its length, 0, is not
    the input length minus 1, which is -1. *)
Lemma C2_empty_list_has_no_shorter_result :
  calculate_weight_changes [] = Ok []
  /\ len (@nil pyfloat) <> len (@nil pyfloat) - 1.
Proof. split; [reflexivity | unfold len; simpl; lia]. Qed.

(** C2, amended. For every list of daily weights, [calculate_weight_changes]
    returns the first differences of consecutive elements (element [i] of the
    result is element [i + 1] of the input minus element [i]); the result has
    the input length minus 1 elements when the input is not empty, and none
    when it is empty; for the weights 70, 71, 69 the changes are 1, -2. *)
Theorem C2_changes_are_first_differences (weights : list pyfloat) :
  exists changes,
    calculate_weight_changes weights = Ok changes
    /\ changes = first_differences weights
    /\ (forall (i : nat) (a b : pyfloat),
          weights !! i = Some a -> weights !! S i = Some b ->
          changes !! i = Some (fsub b a))
    /\ len changes = Z.max 0 (len weights - 1)
    /\ calculate_weight_changes [float_of_Q 70; float_of_Q 71; float_of_Q 69]
       = Ok [float_of_Q 1; float_of_Q (-2)].
Proof.
  exists (first_differences weights).
  split; [apply calculate_weight_changes_spec|].
  split; [reflexivity|].
  split; [apply first_differences_lookup|].
  split.
  - unfold len. rewrite first_differences_length. lia.
  - rewrite calculate_weight_changes_spec. cbn [first_differences].
    assert (H1 : fsub (float_of_Q 71) (float_of_Q 70) = float_of_Q 1)
      by (vm_compute; reflexivity).
    assert (H2 : fsub (float_of_Q 69) (float_of_Q 71) = float_of_Q (-2))
      by (vm_compute; reflexivity).
    rewrite H1, H2. reflexivity.
Qed.



Section BmiClaim.

Context {lm : libm}.

(** C5, amended. For every weight and every height from 1 cm to 10000 cm,
    [calculate_bmi] returns the weight in kilograms divided, in
    double-precision arithmetic, by the square of the height converted to
    metres: the height in metres is the double nearest to the height over
    100, its square is what the power function of the C library returns
    (the double nearest to the square or a neighbour of that double, and
    the square itself when that is a double), and it is not zero. At the
    height 0 [calculate_bmi] raises [ZeroDivisionError]. BMI(70 kg, 175 cm)
    is 22.857142857142858, the double nearest to 160/7, which lies within
    0.005 of 22.86 and is printed as 22.86. *)
Theorem C5_bmi_is_weight_over_height_squared (weight_kg : pyfloat) (height_cm : Z) :
  1 <= height_cm <= 10000 ->
  (exists height_m squared : pyfloat,
     true_divide height_cm 100 = Ok height_m
     /\ fsquare height_m = Ok squared
     /\ within_one_ulp squared (height_m * height_m)%float
     /\ (square_is_exact height_m = true -> squared = (height_m * height_m)%float)
     /\ float_truthy squared = true
     /\ calculate_bmi weight_kg height_cm = Ok (weight_kg / squared)%float)
  /\ calculate_bmi weight_kg 0 = Raise ZeroDivisionError
  /\ calculate_bmi 70 175 = Ok 22.857142857142858%float
  /\ nearest_double false 160 7 = 22.857142857142858%float
  /\ (exists q : Q,
        exact_value 22.857142857142858 = Some q /\ (22.855 < q < 22.865)%Q)
  /\ format_2f 22.857142857142858 = "22.86".
Proof.
  intros Hheight. split.
  - apply calculate_bmi_defined.
    apply (proj1 (forallb_forall _ _) bmi_defined_heights).
    apply in_py_range. lia.
  - split; [apply calculate_bmi_zero_height|].
    split; [rewrite calculate_bmi_HEIGHT_CM; vm_compute; reflexivity|].
    split; [vm_compute; reflexivity|].
    split; [|vm_compute; reflexivity].
    eexists. split; [vm_compute; reflexivity|]. split; reflexivity.
Qed.

End BmiClaim.

(** C5, as the specification states it, fails at the height 0: there
    [calculate_bmi] raises [ZeroDivisionError] and returns nothing; and at
    the height 10^200 cm the square of the height is too large for a float
    and [calculate_bmi] raises [OverflowError]. *)
Lemma C5_no_bmi_at_height_zero :
  calculate_bmi (lm := rounding_libm) 70 0 = Raise ZeroDivisionError
  /\ calculate_bmi (lm := rounding_libm) 70 (10 ^ 200) = Raise OverflowError.
Proof. split; vm_compute; reflexivity. Qed.

Lemma C5_bmi_of_70_kg_175_cm :
  (exists height_m squared : pyfloat,
     true_divide 175 100 = Ok height_m
     /\ fsquare (lm := rounding_libm) height_m = Ok squared
     /\ within_one_ulp squared (height_m * height_m)%float
     /\ (square_is_exact height_m = true -> squared = (height_m * height_m)%float)
     /\ float_truthy squared = true
     /\ calculate_bmi (lm := rounding_libm) 70 175 = Ok (70 / squared)%float)
  /\ calculate_bmi (lm := rounding_libm) 70 175 = Ok 22.857142857142858%float.
Proof.
  assert (H : 1 <= 175 <= 10000) by lia.
  destruct (C5_bmi_is_weight_over_height_squared (lm := rounding_libm) 70 175 H)
    as (Hformula & _ & Hexample & _).
  exact (conj Hformula Hexample).
Defined.

(** C3. In a row that has the five columns, a measurement cell that [float]
    rejects is passed over without failing the row: the parser goes on
    exactly as if the cell were empty; and a row whose four measurement
    cells are all empty or non-numeric contributes no entry to the two
    lists, whatever its date cell holds. *)
Theorem C3_non_numeric_cells_are_ignored (row : gmap string (option string))
    (rest : list (gmap string (option string)))
    (dates : list datetime) (daily_weights : list pyfloat) :
  has_columns row ->
  collect_weights row (py_range 1 5) [] = Ok (numeric_values row)
  /\ (forall (i : Z) (s : string),
        In i (py_range 1 5) ->
        row !! weight_index_key i = Some (Some s) ->
        float_of_string s = None ->
        read_rows (row :: rest) dates daily_weights
        = read_rows (<[weight_index_key i := Some ""]> row :: rest) dates daily_weights)
  /\ ((forall (k : string) (c : option string),
         In k weight_keys -> row !! k = Some c -> numeric_value c = None) ->
      read_rows (row :: rest) dates daily_weights = read_rows rest dates daily_weights).
Proof.
  intros Hrow. split; [apply collect_weights_row, Hrow|]. split.
  - intros i s Hi Hcell Hs. apply (read_rows_blanked row rest _ _ i s); assumption.
  - intros Hcells. apply read_rows_skips; assumption.
Qed.

Lemma C3_unreadable_row_is_skipped :
  read_rows [unreadable_row] [] [] = Ok ([], []).
Proof.
  assert (Hrow : has_columns unreadable_row).
  { unfold has_columns. apply Forall_forall. intros k Hk.
    apply dict_row_columns. apply list_elem_of_In. exact Hk. }
  destruct (C3_non_numeric_cells_are_ignored unreadable_row [] [] [] Hrow)
    as (_ & _ & Hskip).
  rewrite Hskip; [reflexivity|].
  intros k c [<-|[<-|[<-|[<-|[]]]]] Hc; vm_compute in Hc;
    injection Hc as <-; reflexivity.
Defined.

(** C6. Given enough steps for its loop, the bootstrap writes the header
    Date, Weight1, Weight2, Weight3, Weight4 followed by exactly one row per
    calendar day from 2025.07.01 through 2026.12.31 inclusive (549 rows), in
    ascending date order, each with its date formatted YYYY.MM.DD (and read
    back by the parser's date format as that date) and with the four
    measurement cells empty. *)
Theorem C6_bootstrap_writes_every_day (fuel : nat) (w : world) :
  (549 <= fuel)%nat ->
  exists days : list datetime,
    initialize_csv fuel w
    = (Ok tt,
       with_csv w (["Date"; "Weight1"; "Weight2"; "Weight3"; "Weight4"]
                   :: map (fun d => [strftime_ymd d; ""; ""; ""; ""]) days))
    /\ calendar_range (mk_datetime 2025 7 1) (mk_datetime 2026 12 31) days
    /\ List.length days = 549%nat
    /\ head days = Some (mk_datetime 2025 7 1)
    /\ last days = Some (mk_datetime 2026 12 31)
    /\ Forall (fun d => is_ymd_text (strftime_ymd d) = true
                        /\ strptime_ymd (strftime_ymd d) = Ok d) days.
Proof.
  intros Hfuel. exists (days_from 549 first_day).
  split; [apply (initialize_csv_enough_fuel fuel w Hfuel)|].
  split; [apply bootstrap_days_range|].
  split; [vm_compute; reflexivity|].
  split; [reflexivity|].
  split; [vm_compute; reflexivity|].
  apply bootstrap_days_read_back.
Qed.

Lemma C6_bootstrap_of_an_empty_directory :
  exists days : list datetime,
    initialize_csv 549 empty_world
    = (Ok tt,
       with_csv empty_world
         (["Date"; "Weight1"; "Weight2"; "Weight3"; "Weight4"]
          :: map (fun d => [strftime_ymd d; ""; ""; ""; ""]) days))
    /\ calendar_range (mk_datetime 2025 7 1) (mk_datetime 2026 12 31) days
    /\ List.length days = 549%nat
    /\ head days = Some (mk_datetime 2025 7 1)
    /\ last days = Some (mk_datetime 2026 12 31)
    /\ Forall (fun d => is_ymd_text (strftime_ymd d) = true
                        /\ strptime_ymd (strftime_ymd d) = Ok d) days.
Proof.
  apply (C6_bootstrap_writes_every_day 549 empty_world). apply le_n.
Defined.

Section Claims.

Context {lm : libm}.
Variable spline : Type.
Variable UnivariateSpline : list Z -> list pyfloat -> pyfloat -> result spline.
Variable spline_call : spline -> list Z -> list pyfloat.

(** C7. If the CSV file does not exist, the program creates it by the
    bootstrap, prints the two lines of instructions and returns: nothing else
    is printed, no figure is saved or shown. If the file exists and parsing
    it yields an empty weight series, the program prints one message and
    returns, leaving everything else as it was. *)
Theorem C7_main_returns_early (fuel : nat) (w : world) :
  (csv_file w = None -> (549 <= fuel)%nat ->
   main spline UnivariateSpline spline_call fuel w
   = (Ok tt,
      with_output
        (with_csv w (csv_header :: map blank_row (days_from 549 first_day)))
        ["CSV file created: weight_data.csv";
         "Please fill in the weight data and run the program again."])
   /\ initialize_csv fuel w
      = (Ok tt, with_csv w (csv_header :: map blank_row (days_from 549 first_day))))
  /\ (forall (records : list (list string)) (dates : list datetime),
        csv_file w = Some records ->
        parse_weight_data records = Ok (dates, []) ->
        main spline UnivariateSpline spline_call fuel w
        = (Ok tt, with_output w ["No weight data found in the CSV file."])).
Proof.
  split.
  - intros Hfile Hfuel. split.
    + apply main_without_file; assumption.
    + apply initialize_csv_enough_fuel, Hfuel.
  - intros records dates Hfile Hparse.
    rewrite (main_with_file _ _ _ fuel w records Hfile).
    apply (analyse_no_data _ _ _ w records dates Hfile Hparse).
Qed.

(** C8. When the CSV file already exists, the bootstrap stage does nothing:
    [main] is the analysis alone, it behaves the same whatever number of
    steps the bootstrap loop is given ([initialize_csv] is not run), and the
    file holds the same records after the run as before, whatever the
    outcome of the run. *)
Theorem C8_existing_file_is_left_alone (fuel : nat) (w : world)
    (records : list (list string)) :
  csv_file w = Some records ->
  main spline UnivariateSpline spline_call fuel w
  = analyse spline UnivariateSpline spline_call w
  /\ main spline UnivariateSpline spline_call fuel w
     = main spline UnivariateSpline spline_call 0 w
  /\ csv_file (main spline UnivariateSpline spline_call fuel w).2 = Some records.
Proof.
  intros Hfile.
  pose proof (main_with_file spline UnivariateSpline spline_call) as Hmain.
  split; [apply (Hmain fuel w records Hfile)|].
  split.
  - rewrite (Hmain fuel w records Hfile), (Hmain 0%nat w records Hfile). reflexivity.
  - rewrite (Hmain fuel w records Hfile).
    rewrite (keeps_csv_analyse spline UnivariateSpline spline_call w). exact Hfile.
Qed.

(** C9. The smoothed chart has the fitted spline curve if and only if the
    daily series has at least 4 points. With fewer than 4 points the chart is
    the fallback message, whatever the spline library would do; with 4 or
    more the spline is fitted to the ordinals of the dates and drawn over
    the raw data, and a failure of the fit is raised, not replaced by the
    message. The chart is the middle axes of the figure [create_plots]
    saves. *)
Theorem C9_spline_from_four_points (dates : list datetime) (weights : list pyfloat) :
  (len weights < 4 ->
   plot_smoothed spline UnivariateSpline spline_call dates weights = Ok fallback_chart)
  /\ (4 <= len weights ->
      List.length dates = List.length weights ->
      forall spl : spline,
        UnivariateSpline (map toordinal dates) weights (smoothing_factor weights) = Ok spl ->
        List.length (spline_call spl (map toordinal dates)) = List.length dates ->
        plot_smoothed spline UnivariateSpline spline_call dates weights
        = Ok (spline_chart dates weights (spline_call spl (map toordinal dates))))
  /\ (4 <= len weights ->
      forall e : exn,
        UnivariateSpline (map toordinal dates) weights (smoothing_factor weights) = Raise e ->
        plot_smoothed spline UnivariateSpline spline_call dates weights = Raise e)
  /\ (forall ax : list artist,
        plot_smoothed spline UnivariateSpline spline_call dates weights = Ok ax ->
        (draws_spline ax <-> 4 <= len weights)
        /\ (shows_fallback ax <-> len weights < 4))
  /\ (forall (weight_changes : list pyfloat) (w w' : world),
        create_plots spline UnivariateSpline spline_call dates weights weight_changes w
        = (Ok tt, w') ->
        exists fig : figure,
          png_file w' = Some fig
          /\ plot_smoothed spline UnivariateSpline spline_call dates weights
             = Ok (ax2 fig)).
Proof.
  split; [apply plot_smoothed_few|].
  split; [intros Hmany Hlen spl Hfit Hcurve; apply plot_smoothed_many; assumption|].
  split; [intros Hmany e Hfit; apply plot_smoothed_fit_fails; assumption|].
  split; [apply plot_smoothed_shape|].
  intros changes w w'. apply create_plots_figure.
Qed.

(** C10. [read_weight_data] returns two lists of equal length: while it
    reads, an element is appended to both lists or to neither. So whenever
    the weight list is not empty, the last date [get_latest_bmi] takes
    exists, and with the height of the script it returns that date and a
    BMI. *)
Theorem C10_dates_and_weights_are_parallel (w w' : world)
    (dates : list datetime) (weights : list pyfloat) :
  read_weight_data w = (Ok (dates, weights), w') ->
  List.length dates = List.length weights
  /\ (forall rows ds ws ds' ws',
        read_rows rows ds ws = Ok (ds', ws') ->
        exists new_dates new_weights,
          ds' = (ds ++ new_dates)%list /\ ws' = (ws ++ new_weights)%list
          /\ List.length new_dates = List.length new_weights)
  /\ (weights <> [] ->
      exists (d : datetime) (b : pyfloat),
        last dates = Some d
        /\ get_latest_bmi dates weights HEIGHT_CM = Ok (Some d, Some b)).
Proof.
  intros Hread.
  pose proof (read_weight_data_parallel w w' dates weights Hread) as Hlen.
  split; [exact Hlen|]. split; [apply read_rows_appends|].
  intros Hne. apply get_latest_bmi_defined; [exact Hlen | exact Hne].
Qed.

End Claims.

(** * The claims with hypotheses, on concrete runs *)

Lemma C7_first_run_then_second_run :
  main (lm := rounding_libm) (list pyfloat) interpolating_fit interpolating_call 549 empty_world
  = (Ok tt,
     with_output bootstrapped_world
       ["CSV file created: weight_data.csv";
        "Please fill in the weight data and run the program again."])
  /\ main (lm := rounding_libm) (list pyfloat) interpolating_fit interpolating_call 549 bootstrapped_world
     = (Ok tt, with_output bootstrapped_world ["No weight data found in the CSV file."]).
Proof.
  destruct (C7_main_returns_early (lm := rounding_libm) (list pyfloat) interpolating_fit interpolating_call
              549 empty_world) as [Hfirst _].
  destruct (C7_main_returns_early (lm := rounding_libm) (list pyfloat) interpolating_fit interpolating_call
              549 bootstrapped_world) as [_ Hsecond].
  split.
  - exact (proj1 (Hfirst eq_refl (le_n 549))).
  - exact (Hsecond _ [] eq_refl parse_bootstrapped_file).
Defined.

Lemma C8_run_on_the_example_file :
  main (lm := rounding_libm) (list pyfloat) interpolating_fit interpolating_call 5 example_world
  = analyse (lm := rounding_libm) (list pyfloat) interpolating_fit interpolating_call example_world
  /\ main (lm := rounding_libm) (list pyfloat) interpolating_fit interpolating_call 5 example_world
     = main (lm := rounding_libm) (list pyfloat) interpolating_fit interpolating_call 0 example_world
  /\ csv_file (main (lm := rounding_libm) (list pyfloat) interpolating_fit interpolating_call 5 example_world).2
     = Some example_records.
Proof.
  exact (C8_existing_file_is_left_alone (lm := rounding_libm) (list pyfloat) interpolating_fit
           interpolating_call 5 example_world example_records eq_refl).
Defined.

Lemma C9_four_points_and_three_points :
  plot_smoothed (list pyfloat) interpolating_fit interpolating_call
    four_dates four_weights
  = Ok (spline_chart four_dates four_weights four_weights)
  /\ plot_smoothed (list pyfloat) interpolating_fit interpolating_call
       (take 3 four_dates) (take 3 four_weights)
     = Ok fallback_chart.
Proof.
  destruct (C9_spline_from_four_points (list pyfloat) interpolating_fit
              interpolating_call four_dates four_weights) as (_ & Hmany & _).
  destruct (C9_spline_from_four_points (list pyfloat) interpolating_fit
              interpolating_call (take 3 four_dates) (take 3 four_weights))
    as (Hfew & _).
  split.
  - apply (Hmany ltac:(unfold len; simpl; lia) eq_refl four_weights eq_refl eq_refl).
  - apply Hfew. unfold len. simpl. lia.
Defined.

Lemma C10_lists_of_the_example_file :
  List.length [mk_datetime 2025 7 1] = List.length [float_of_Q 70.5]
  /\ exists (d : datetime) (b : pyfloat),
       last [mk_datetime 2025 7 1] = Some d
       /\ get_latest_bmi (lm := rounding_libm) [mk_datetime 2025 7 1] [float_of_Q 70.5]
            HEIGHT_CM
          = Ok (Some d, Some b).
Proof.
  destruct (C10_dates_and_weights_are_parallel (lm := rounding_libm)
              example_world example_world
              [mk_datetime 2025 7 1] [float_of_Q 70.5] read_example_world)
    as (Hlen & _ & Hlatest).
  split; [exact Hlen | apply Hlatest; discriminate].
Defined.

Lemma parse_four_day_records :
  parse_weight_data four_day_records = Ok (four_dates, four_day_weights).
Proof. vm_compute. reflexivity. Qed.

(** * Further properties of the script *)

(** X1. A valid date from the year 1000 on, written with
    [strftime('%Y.%m.%d')], is read back by [strptime] with the same format
    as that date: the parser reads every date the bootstrap writes. A date
    before the year 1000 is not read back: its year is written with fewer
    than four digits, which [strptime] rejects. *)
Theorem X1_written_dates_are_read_back (dt : datetime) :
  valid dt = true ->
  (1000 <= year dt -> strptime_ymd (strftime_ymd dt) = Ok dt)
  /\ (year dt < 1000 ->
      strptime_ymd (strftime_ymd dt)
      = Raise (ValueError "time data does not match format")).
Proof.
  intros Hvalid. split.
  - apply strptime_strftime, Hvalid.
  - apply strptime_short_year, Hvalid.
Qed.

Lemma X1_leap_day_is_read_back :
  strptime_ymd (strftime_ymd (mk_datetime 2024 2 29)) = Ok (mk_datetime 2024 2 29)
  /\ strptime_ymd (strftime_ymd (mk_datetime 999 1 1))
     = Raise (ValueError "time data does not match format").
Proof.
  split.
  - apply (X1_written_dates_are_read_back (mk_datetime 2024 2 29)); [reflexivity|].
    simpl. lia.
  - apply (X1_written_dates_are_read_back (mk_datetime 999 1 1)); [reflexivity|].
    simpl. lia.
Defined.

(** X2. The loop of the bootstrap, started on any valid date with any valid
    end date before the last representable day and given enough steps,
    appends to the file one blank row for every calendar day from the start
    date to the end date, both included, in ascending order, and nothing
    when the end date is before the start date. *)
Theorem X2_bootstrap_loop_covers_any_range (fuel : nat)
    (current_date end_date : datetime) (w : world) (records : list (list string)) :
  valid current_date = true -> valid end_date = true ->
  toordinal end_date < toordinal max_day ->
  (days_between current_date end_date <= fuel)%nat ->
  csv_file w = Some records ->
  exists days : list datetime,
    initialize_loop fuel current_date end_date w
    = (Ok tt, with_csv w (records ++ map blank_row days)%list)
    /\ calendar_range current_date end_date days
    /\ List.length days = days_between current_date end_date.
Proof.
  intros Hcurrent Hend Hmax Hfuel Hfile.
  exists (days_from (days_between current_date end_date) current_date).
  split; [apply initialize_loop_spec; auto|].
  split; [apply days_from_range; assumption|].
  apply days_from_length; [assumption|].
  pose proof (toordinal_le_max current_date Hcurrent).
  unfold days_between. lia.
Qed.

Lemma X2_loop_over_a_leap_day :
  exists days : list datetime,
    initialize_loop 4 (mk_datetime 2024 2 27) (mk_datetime 2024 3 1)
      (with_csv empty_world [csv_header])
    = (Ok tt,
       with_csv (with_csv empty_world [csv_header])
         ([csv_header] ++ map blank_row days)%list)
    /\ calendar_range (mk_datetime 2024 2 27) (mk_datetime 2024 3 1) days
    /\ List.length days = days_between (mk_datetime 2024 2 27) (mk_datetime 2024 3 1).
Proof.
  apply (X2_bootstrap_loop_covers_any_range 4 (mk_datetime 2024 2 27)
           (mk_datetime 2024 3 1) (with_csv empty_world [csv_header]) [csv_header]);
    reflexivity.
Defined.

(** X3. On valid dates the comparison [a <= b] agrees with the order of the
    day numbers [toordinal] gives, and two dates with one day number are the
    same date: the abscissas handed to the spline keep the order of the
    dates and tell them apart. *)
Theorem X3_day_numbers_keep_the_order (a b : datetime) :
  valid a = true -> valid b = true ->
  (datetime_leb a b = true <-> toordinal a <= toordinal b)
  /\ (toordinal a = toordinal b -> a = b).
Proof.
  intros Ha Hb. split.
  - rewrite datetime_leb_ordinal by assumption. apply Z.leb_le.
  - apply toordinal_injective; assumption.
Qed.

Lemma X3_new_year_follows_new_years_eve :
  (datetime_leb (mk_datetime 2025 12 31) (mk_datetime 2026 1 1) = true
   <-> toordinal (mk_datetime 2025 12 31) <= toordinal (mk_datetime 2026 1 1))
  /\ (toordinal (mk_datetime 2025 12 31) = toordinal (mk_datetime 2026 1 1) ->
      mk_datetime 2025 12 31 = mk_datetime 2026 1 1).
Proof.
  apply (X3_day_numbers_keep_the_order (mk_datetime 2025 12 31) (mk_datetime 2026 1 1));
    reflexivity.
Defined.

(** X4. The parser works through the file from top to bottom: the result for
    a table followed by more records is the result for the table followed by
    the result for the added records (under the same header), and a failure
    in the table comes before any in the added records. *)
Theorem X4_parser_reads_a_longer_file_in_parts (header : list string)
    (rest more : list (list string)) :
  parse_weight_data (header :: rest ++ more)
  = (r ← parse_weight_data (header :: rest);
     r' ← parse_weight_data (header :: more);
     Ok (r.1 ++ r'.1, r.2 ++ r'.2)%list).
Proof. apply parse_weight_data_app. Qed.

(** X5. When the header lacks one of the five columns, the parser raises
    [KeyError] with the first missing column (Date, then Weight1 to Weight4)
    at the first record that is not blank, whatever the cells hold; it
    returns empty lists when every record is blank. No column is missing
    exactly when every one of the five names is in the header. *)
Theorem X5_missing_column_raises_KeyError (header : list string)
    (rest : list (list string)) (k : string) :
  first_missing_column header = Some k ->
  parse_weight_data (header :: rest)
  = (if forallb is_blank rest then Ok ([], []) else Raise (KeyError k))
  /\ In k csv_header /\ ~ In k header.
Proof.
  intros Hk. split; [apply parse_missing_column, Hk|].
  unfold first_missing_column in Hk. apply find_some in Hk.
  destruct Hk as [Hin Hno]. split; [exact Hin|].
  apply negb_true_iff, bool_decide_eq_false in Hno.
  intros H. apply Hno, list_elem_of_In, H.
Qed.

Lemma X5_header_without_third_weight :
  parse_weight_data
    [["Date"; "Weight1"; "Weight2"]; []; ["2025.07.01"; "70"; "71"]]
  = (if forallb is_blank [[]; ["2025.07.01"; "70"; "71"]]
     then Ok ([], []) else Raise (KeyError "Weight3"))
  /\ In "Weight3" csv_header /\ ~ In "Weight3" ["Date"; "Weight1"; "Weight2"].
Proof.
  apply (X5_missing_column_raises_KeyError ["Date"; "Weight1"; "Weight2"]
           [[]; ["2025.07.01"; "70"; "71"]] "Weight3").
  reflexivity.
Defined.

(** X6. A row that has a valid numeric cell and a date cell that cannot be
    read makes the parser raise the error of the date conversion: the row is
    not skipped and nothing is returned for the rows before it. *)
Theorem X6_unreadable_date_of_a_numeric_row_raises
    (row : gmap string (option string)) (rest : list (gmap string (option string)))
    (dates : list datetime) (daily_weights : list pyfloat) (e : exn) :
  has_columns row ->
  numeric_values row <> [] ->
  strptime_cell (date_cell row) = Raise e ->
  read_rows (row :: rest) dates daily_weights = Raise e.
Proof.
  intros Hrow Hvalues Hdate. rewrite read_rows_cons by exact Hrow.
  destruct (numeric_values row) as [|v vs]; [congruence|].
  rewrite Hdate. reflexivity.
Qed.

Lemma X6_misdated_row_raises :
  read_rows [misdated_row] [mk_datetime 2025 6 30] [float_of_Q 70]
  = Raise (ValueError "time data does not match format").
Proof.
  apply (X6_unreadable_date_of_a_numeric_row_raises misdated_row []).
  - unfold has_columns. apply Forall_forall. intros k Hk.
    apply dict_row_columns. apply list_elem_of_In. exact Hk.
  - vm_compute. discriminate.
  - vm_compute. reflexivity.
Defined.

(** X7. Every date the parser returns is a valid calendar date: a date cell
    such as 2025.02.30 is never turned into a date. *)
Theorem X7_parsed_dates_are_calendar_dates (records : list (list string))
    (dates : list datetime) (weights : list pyfloat) :
  parse_weight_data records = Ok (dates, weights) ->
  Forall (fun d => valid d = true) dates.
Proof.
  intros Hparse. unfold parse_weight_data in Hparse.
  apply (read_rows_valid_dates _ _ _ _ _ Hparse). constructor.
Qed.

Lemma X7_dates_of_the_four_day_table :
  Forall (fun d => valid d = true) four_dates.
Proof.
  apply (X7_parsed_dates_are_calendar_dates four_day_records four_dates four_day_weights).
  exact parse_four_day_records.
Defined.

(** X8. Under a header without repeated names, the row built for a record
    holds, under the name of column [i], field [i] of the record, and [None]
    when the record is too short to have that field; a name that is not in
    the header raises [KeyError]. *)
Theorem X8_row_lookup_by_column_name (fieldnames fields : list string) :
  NoDup fieldnames ->
  (forall (i : nat) (k : string),
     fieldnames !! i = Some k ->
     getitem (dict_row fieldnames fields) k = Ok (fields !! i))
  /\ (forall k : string,
        ~ In k fieldnames ->
        getitem (dict_row fieldnames fields) k = Raise (KeyError k)).
Proof.
  intros Hnodup. split.
  - intros i k Hi. unfold getitem.
    rewrite (dict_row_lookup fieldnames fields i k Hnodup Hi). reflexivity.
  - intros k Hk. unfold getitem. rewrite (dict_row_missing _ _ _ Hk). reflexivity.
Qed.

Lemma X8_short_record_under_the_usual_header :
  (forall (i : nat) (k : string),
     csv_header !! i = Some k ->
     getitem (dict_row csv_header ["2025.07.01"; "70"]) k
     = Ok (["2025.07.01"; "70"] !! i))
  /\ (forall k : string,
        ~ In k csv_header ->
        getitem (dict_row csv_header ["2025.07.01"; "70"]) k = Raise (KeyError k)).
Proof.
  apply (X8_row_lookup_by_column_name csv_header ["2025.07.01"; "70"]).
  apply (bool_decide_eq_true_1 (NoDup csv_header)). vm_compute. reflexivity.
Defined.

Section LatestBmiRuns.

Context {lm : libm}.

(** X12. [get_latest_bmi] pairs the last date with the BMI of the last
    weight, whatever the lengths of the two lists; it returns two absent
    values when there is no weight, and raises [IndexError] when there are
    weights and no date. *)
Theorem X12_latest_bmi_uses_the_last_entries (ds : list datetime) (d : datetime)
    (ws : list pyfloat) (w : pyfloat) (height_cm : Z) :
  get_latest_bmi (ds ++ [d]) (ws ++ [w]) height_cm
  = (b ← calculate_bmi w height_cm; Ok (Some d, Some b))
  /\ get_latest_bmi (ds ++ [d]) [] height_cm = Ok (None, None)
  /\ get_latest_bmi [] (ws ++ [w]) height_cm = Raise IndexError.
Proof.
  split; [apply get_latest_bmi_last|].
  split; [reflexivity | apply get_latest_bmi_no_date].
Qed.

End LatestBmiRuns.

(** X13. For dates and weights of one length, the change chart drawn from
    the changes [calculate_weight_changes] returns never fails: with two or
    more points it draws change [i] at date [i + 1] over a zero line, with
    fewer it shows its fallback message. *)
Theorem X13_change_chart_of_parallel_lists (dates : list datetime)
    (weights : list pyfloat) :
  List.length dates = List.length weights ->
  exists changes : list pyfloat,
    calculate_weight_changes weights = Ok changes
    /\ List.length (drop 1 dates) = List.length changes
    /\ plot_changes dates changes
       = Ok (if 2 <=? len weights
             then changes_chart dates changes
             else changes_fallback).
Proof.
  intros Hlen. exists (first_differences weights).
  split; [apply calculate_weight_changes_spec|].
  split; [|apply plot_changes_run, Hlen].
  rewrite length_drop, first_differences_length. lia.
Qed.

Lemma X13_change_chart_of_four_days :
  exists changes : list pyfloat,
    calculate_weight_changes four_day_weights = Ok changes
    /\ List.length (drop 1 four_dates) = List.length changes
    /\ plot_changes four_dates changes
       = Ok (if 2 <=? len four_day_weights
             then changes_chart four_dates changes
             else changes_fallback).
Proof.
  apply (X13_change_chart_of_parallel_lists four_dates four_day_weights).
  reflexivity.
Defined.

Section FurtherRuns.

Context {lm : libm}.
Variable spline : Type.
Variable UnivariateSpline : list Z -> list pyfloat -> pyfloat -> result spline.
Variable spline_call : spline -> list Z -> list pyfloat.

(** X14. For dates and weights of one length and the changes of the weights,
    [create_plots] fails only if the smoothed chart does, and then it saves
    and shows nothing; otherwise it saves the figure of the three charts and
    shows it, and touches neither the CSV file nor the console. *)
Theorem X14_create_plots_saves_and_shows (dates : list datetime)
    (weights : list pyfloat) (w : world) :
  List.length dates = List.length weights ->
  (forall smoothed : list artist,
     plot_smoothed spline UnivariateSpline spline_call dates weights = Ok smoothed ->
     create_plots spline UnivariateSpline spline_call dates weights
       (first_differences weights) w
     = (Ok tt,
        with_figure w
          (mk_figure (raw_chart dates weights) smoothed
             (if 2 <=? len weights
              then changes_chart dates (first_differences weights)
              else changes_fallback))))
  /\ (forall e : exn,
        plot_smoothed spline UnivariateSpline spline_call dates weights = Raise e ->
        create_plots spline UnivariateSpline spline_call dates weights
          (first_differences weights) w
        = (Raise e, w)).
Proof.
  intros Hlen.
  pose proof (create_plots_run spline UnivariateSpline spline_call dates weights w Hlen)
    as Hrun.
  split.
  - intros smoothed Hsmoothed. rewrite Hrun, Hsmoothed. reflexivity.
  - intros e Hfails. rewrite Hrun, Hfails. reflexivity.
Qed.

(** X15. When the file parses to a non-empty series and the smoothed chart
    can be drawn, [main] returns normally: it prints the statistics (the
    mean as numpy computes it, the maximum, the minimum, each with two
    decimals, and the number of days), the BMI of the last weight at the
    last date unless that BMI is zero, saves and shows the figure of the
    three charts, prints that the plots were saved, and leaves the CSV file
    as it was. *)
Theorem X15_main_reports_and_plots (fuel : nat) (w : world)
    (records : list (list string)) (dates : list datetime) (weights : list pyfloat)
    (smoothed : list artist) :
  csv_file w = Some records ->
  parse_weight_data records = Ok (dates, weights) ->
  weights <> [] ->
  plot_smoothed spline UnivariateSpline spline_call dates weights = Ok smoothed ->
  exists (mx mn : pyfloat) (d : datetime) (lw b : pyfloat),
    is_maximum weights mx /\ is_minimum weights mn
    /\ last dates = Some d /\ last weights = Some lw
    /\ calculate_bmi lw HEIGHT_CM = Ok b
    /\ main spline UnivariateSpline spline_call fuel w
       = (Ok tt,
          with_output
            (with_figure
               (with_output w
                  (statistics_lines (np_mean weights) mx mn
                     (List.length weights) ++ bmi_lines d b)%list)
               (mk_figure (raw_chart dates weights) smoothed
                  (if 2 <=? len weights
                   then changes_chart dates (first_differences weights)
                   else changes_fallback)))
            ["Plots saved as 'weight_analysis.png'"]).
Proof.
  intros Hfile Hparse Hne Hsmoothed.
  destruct (analyse_run spline UnivariateSpline spline_call w records dates weights
              Hfile Hparse Hne) as (mx & mn & d & lw & b & Hmx & Hmn & Hd & Hlw & Hb & Hrun).
  exists mx, mn, d, lw, b. repeat (split; [assumption|]).
  rewrite (main_with_file spline UnivariateSpline spline_call fuel w records Hfile).
  rewrite Hrun. unfold mbind, M_bind.
  rewrite (create_plots_run spline UnivariateSpline spline_call dates weights _
             (parse_weight_data_parallel records dates weights Hparse)).
  rewrite Hsmoothed. reflexivity.
Qed.

(** X16. When the file parses to a non-empty series and the smoothed chart
    fails (the spline fit raises), [main] raises that error after it has
    printed the statistics and the BMI line: no figure is saved or shown and
    the line about the saved plots is not printed. *)
Theorem X16_main_raises_when_the_fit_fails (fuel : nat) (w : world)
    (records : list (list string)) (dates : list datetime) (weights : list pyfloat)
    (e : exn) :
  csv_file w = Some records ->
  parse_weight_data records = Ok (dates, weights) ->
  weights <> [] ->
  plot_smoothed spline UnivariateSpline spline_call dates weights = Raise e ->
  exists (mx mn : pyfloat) (d : datetime) (lw b : pyfloat),
    is_maximum weights mx /\ is_minimum weights mn
    /\ last dates = Some d /\ last weights = Some lw
    /\ calculate_bmi lw HEIGHT_CM = Ok b
    /\ main spline UnivariateSpline spline_call fuel w
       = (Raise e,
          with_output w
            (statistics_lines (np_mean weights) mx mn
               (List.length weights) ++ bmi_lines d b)%list).
Proof.
  intros Hfile Hparse Hne Hfails.
  destruct (analyse_run spline UnivariateSpline spline_call w records dates weights
              Hfile Hparse Hne) as (mx & mn & d & lw & b & Hmx & Hmn & Hd & Hlw & Hb & Hrun).
  exists mx, mn, d, lw, b. repeat (split; [assumption|]).
  rewrite (main_with_file spline UnivariateSpline spline_call fuel w records Hfile).
  rewrite Hrun. unfold mbind, M_bind.
  rewrite (create_plots_run spline UnivariateSpline spline_call dates weights _
             (parse_weight_data_parallel records dates weights Hparse)).
  rewrite Hfails. reflexivity.
Qed.

End FurtherRuns.

Lemma X14_figure_of_four_days :
  (forall smoothed : list artist,
     plot_smoothed (list pyfloat) interpolating_fit interpolating_call
       four_dates four_day_weights = Ok smoothed ->
     create_plots (list pyfloat) interpolating_fit interpolating_call
       four_dates four_day_weights (first_differences four_day_weights) empty_world
     = (Ok tt,
        with_figure empty_world
          (mk_figure (raw_chart four_dates four_day_weights) smoothed
             (if 2 <=? len four_day_weights
              then changes_chart four_dates (first_differences four_day_weights)
              else changes_fallback))))
  /\ (forall e : exn,
        plot_smoothed (list pyfloat) interpolating_fit interpolating_call
          four_dates four_day_weights = Raise e ->
        create_plots (list pyfloat) interpolating_fit interpolating_call
          four_dates four_day_weights (first_differences four_day_weights) empty_world
        = (Raise e, empty_world)).
Proof.
  apply (X14_create_plots_saves_and_shows (list pyfloat) interpolating_fit
           interpolating_call four_dates four_day_weights empty_world).
  reflexivity.
Defined.

Lemma X15_run_on_the_four_day_table :
  (exists (mx mn : pyfloat) (d : datetime) (lw b : pyfloat),
    is_maximum four_day_weights mx /\ is_minimum four_day_weights mn
    /\ last four_dates = Some d /\ last four_day_weights = Some lw
    /\ calculate_bmi (lm := rounding_libm) lw HEIGHT_CM = Ok b
    /\ main (lm := rounding_libm) (list pyfloat) interpolating_fit interpolating_call
         0 four_day_world
       = (Ok tt,
          with_output
            (with_figure
               (with_output four_day_world
                  (statistics_lines (np_mean four_day_weights) mx mn
                     (List.length four_day_weights) ++ bmi_lines d b)%list)
               (mk_figure (raw_chart four_dates four_day_weights)
                  (spline_chart four_dates four_day_weights four_day_weights)
                  (if 2 <=? len four_day_weights
                   then changes_chart four_dates (first_differences four_day_weights)
                   else changes_fallback)))
            ["Plots saved as 'weight_analysis.png'"]))
  /\ (let run := main (lm := rounding_libm) (list pyfloat) interpolating_fit
                   interpolating_call 0 rounding_world in
      run.1 = Ok tt
      /\ stdout run.2
         = ["Statistics:"; "Average weight: 36.37 kg"; "Maximum weight: 70.07 kg";
            "Minimum weight: 2.67 kg"; "Total data points: 2 days";
            "Latest BMI (2025.07.02): 0.87 (Height: 175cm)";
            "Plots saved as 'weight_analysis.png'"]).
Proof.
  split; [|vm_compute; split; reflexivity].
  apply (X15_main_reports_and_plots (lm := rounding_libm) (list pyfloat)
           interpolating_fit interpolating_call
           0 four_day_world four_day_records four_dates four_day_weights).
  - reflexivity.
  - exact parse_four_day_records.
  - discriminate.
  - reflexivity.
Defined.

Lemma X16_run_with_a_failing_fit :
  exists (mx mn : pyfloat) (d : datetime) (lw b : pyfloat),
    is_maximum four_day_weights mx /\ is_minimum four_day_weights mn
    /\ last four_dates = Some d /\ last four_day_weights = Some lw
    /\ calculate_bmi (lm := rounding_libm) lw HEIGHT_CM = Ok b
    /\ main (lm := rounding_libm) (list pyfloat) failing_fit interpolating_call
         0 four_day_world
       = (Raise (LibraryError "fit failed"),
          with_output four_day_world
            (statistics_lines (np_mean four_day_weights) mx mn
               (List.length four_day_weights) ++ bmi_lines d b)%list).
Proof.
  apply (X16_main_raises_when_the_fit_fails (lm := rounding_libm) (list pyfloat)
           failing_fit interpolating_call
           0 four_day_world four_day_records four_dates four_day_weights).
  - reflexivity.
  - exact parse_four_day_records.
  - discriminate.
  - reflexivity.
Defined.
